(* ===== verification/_CoqProject ===== *)
-Q . S2P
Prelude.v
JsString.v
Geocoding.v
Cidades.v
Calculator.v
ForkJoin.v
Storage.v
Auth.v
Formulario.v
Admin.v
Pipeline.v
Sistema.v
Tipos.v
App.v
Opcoes.v
Refinamento.v
Exportacao.v
