(* ===== verification/Prelude.v ===== *)
(** * Credita-Carb: a verification development for the carbon-footprint application

    The program is an Angular application that computes the greenhouse-gas
    footprint of a journey made of several legs (trechos), stores the
    submitted journeys in the browser and shows them to an administrator.
    Its parts, all under [src/app]:

    - [services/geocoding.service.ts] ([GeocodingService]) turns a postal
      code (CEP) or a pair of cities into an estimated distance, with one
      HTTP lookup (ViaCEP) and hard-coded distance tables, and lists the
      cities of a state through the IBGE service;
    - [services/carbon-calculator.service.ts] ([CarbonCalculatorService])
      picks an emission factor per leg, multiplies it by the resolved
      distance, joins the legs with [forkJoin], sums them, doubles for a
      round trip and rounds the figures it reports; it also keeps the trips
      and the event configuration in [localStorage];
    - [services/auth.service.ts] ([AuthService]) keeps the session flag of
      the administrator in [localStorage] and in a [BehaviorSubject];
    - [components/formulario] ([FormularioComponent]) is the form of the
      visitor: personal data, the editable list of legs, the postal-code
      mask, the city autocomplete, the validation before the computation
      and the submission of the result;
    - [components/admin] ([AdminComponent]) configures the event, lists the
      stored trips with their totals, deletes them and exports them as CSV
      and JSON;
    - [components/login] ([LoginComponent]) is the form in front of
      [AuthService];
    - [app.component.ts] ([AppComponent]) is the header every page shares,
      with the links that fit the session; [app.routes.ts] is the table of
      routes.

    The form reads the event the administration page stored, validates the
    legs, calls the calculator, which calls the geocoding service once per
    leg, and stores the report; the administration page reads the same
    store.  The store is the only state the pages share.

    ** Files of the development (in dependency order)

    - [Prelude] (this file): the model of JavaScript values.  A JS [number]
      is an exact rational ([Q], compared with [Qeq]); the operators [>],
      truthiness, [a || b], [Math.round], [Math.ceil] are [num_gt],
      [truthy_num], [truthy_str], [truthy_ostr], [str_or], [num_or],
      [num_pos], [Math_round], [Math_ceil].  It holds the tactics [q_norm],
      [q_lra], [case_num_gt], [table_lookup], the hint databases [js] and
      [js_rw], and the lemmas on rounding, sums and tables the components
      share.
    - [JsString]: JS strings as UTF-8 byte strings and the string methods
      the code calls: [replace(/\D/g,'')] ([only_digits]), [toLowerCase],
      [trim], [split(',')] ([split_on], [nth_part]), [length]
      ([js_length], in UTF-16 units), [includes] and the replacement of
      the postal-code mask ([replace_cep]).
    - [Geocoding]: [GeocodingService].  The reply of ViaCEP is a value of
      [http_response]; [buscarCEP], [calcularDistanciaCEP],
      [obterDistanciasRegiaoMetropolitana], [calcularDistancia],
      [estimarDistanciaPorCoordenadas], [estimarDistanciaSimples] and
      [obterCodigoEstado] are functions, the tables of the source [gmap]s.
    - [Cidades]: [buscarCidadesPorEstado] and [buscarTodasCidades] over a
      reply of the IBGE service ([ibge_client]).
    - [Calculator]: [CarbonCalculatorService].  The records [TrechoViagem],
      [ViagemData], [EventoConfig], [CalculoResultado]; the class
      [Geocoder] is what the calculator needs of the geocoding service (the
      Angular injection); [obterFatorEmissaoTrecho],
      [calcularEmissaoTrecho], [calcularDistanciaTrecho], [calcularTrecho],
      [processarCalculoMultiploTrechos] and [calcularEmissao] are defined
      over any [Geocoder].
    - [ForkJoin]: the join of the per-leg observables as a transition
      system ([juncao], [forkJoin_passo], the relation [passo]), written
      from the contract of rxjs, whose code is not part of the sources;
      [calcularEmissao_de], the pipeline of [calcularEmissao] (the guard for
      a trip without legs, the join, [map] and [catchError]) over legs whose
      observables emit once or fail, and [calcularEmissao_obs], the method
      itself, whose legs do not fail; the order of arrival of the replies is
      an argument.
    - [Storage]: [localStorage] as a [gmap] from keys to strings with
      [getItem], [setItem], [removeItem]; [JSON.stringify] and [JSON.parse]
      as the class [Json]; the methods [salvarViagem], [obterViagens],
      [excluirViagem], [salvarEvento], [obterEvento], [removerEvento] of the
      calculator service; [splice1] is [Array.prototype.splice(index, 1)].
    - [Auth]: [AuthService] ([login], [logout], [isAuthenticated],
      [checkAuthStatus]) and [LoginComponent] ([login_ngOnInit],
      [onSubmit]); the service as the transition system [auth_passo].
    - [Formulario]: [FormularioComponent].  Its state is the record
      [FormularioComponent]; [inicializarFormulario], [carregarEvento],
      [ngOnInit], [adicionarTrecho], [removerTrecho], [atualizarTrecho],
      [selecionarCidadeTrecho], [aplicarMascaraCEP],
      [buscarEnderecoPorCEPTrecho], [atualizarCepTrecho],
      [configurarAutocompleteTrecho], [filtrarCidadesTrecho],
      [toggleIdaEVolta], [marcarCamposInvalidos], [calcular] (with its loop
      [validarTrechos]), [enviar] and [resetarFormulario] are functions on
      it; [fc_passo] is the component as a transition system.
    - [Admin]: [AdminComponent].  [admin_ngOnInit], [carregarViagens],
      [calcularTotais], [admin_salvarEvento], [admin_removerEvento],
      [admin_excluirViagem], [limparTodos], [admin_logout],
      [exportarParaExcel] (with [escaparCampo], [linhaViagem],
      [linhaTotais], [nomeArquivo]) and [exportarDados]; [ad_passo] is the
      component as a transition system; [ler_linha] and [ler_csv] are a
      reader of comma-separated values after RFC 4180, the specification of
      the export.
    - [Pipeline]: the calculator with the real geocoding service
      ([geocodingService]) over an arbitrary family of ViaCEP replies.
    - [Sistema]: the components together over one store; [escrita] is every
      write a page can make.
    - [Tipos]: the shape of a report as a decidable predicate
      ([resultado_bem_tipado]): which figures are whole numbers and which
      have two or three decimal places.
    - [App]: [AppComponent] ([app_ngOnInit], [app_next], [app_logout],
      [menu]) and the constant [routes], with the router that resolves a URL
      against it ([resolver], from the contract of the Angular router; the
      guard [authGuard] is a parameter).
    - [Opcoes]: the option lists of the form ([meiosTransporte],
      [tiposCombustivel], [classesVoo], [estadosBrasil]), the validators of
      its controls ([validadoresIniciais]) and
      [atualizarValidadoresTransporte].
    - [Refinamento]: the abstract model of what the application keeps
      ([Modelo], [executar]), the operations as the code performs them
      ([aplicar]) and the abstraction function [abstrair].
    - [Exportacao]: the downloads of the administration page ([baixarCsv],
      [baixarDados], with the byte-order mark and the type of the blob) and
      [ler_arquivo], a reader of whole files of comma-separated values.

    ** What the theorems show

    - Prelude: [Math_round] and [Math_ceil] are within half a unit and one
      unit of their argument, are monotone and fix integers; a left fold
      that accumulates with [+] is the sum of the list.
    - JsString: the digits filter is idempotent and the mask keeps the
      digits of its argument; the loops of [trim] stop because no white
      space is left, with the fuel their definitions give them
      ([trim_termina]).
    - Geocoding: every branch of the postal-code cascade (no address, other
      state, same city, metropolitan table, default 80) and of the city
      cascade (other country 5000, city table, 800 or 300), the ranges of
      the results, when [buscarCEP] yields an address, that the distance is
      the same in both directions unless one city is Belo Horizonte
      ([calcularDistancia_simetrica]), and that the constant 500 of
      [estimarDistanciaSimples] cannot be returned for strings built by
      [calcularDistancia].
    - Cidades: every city returned carries the state asked for; a failed
      request and an unknown state give the empty list.
    - Calculator: an explicit distance takes precedence; the factor is one
      of the values of the table or the default; sharing a car divides the
      emission; the totals are the sums of the legs; a round trip doubles
      the raw totals and the reported totals differ from twice the one-way
      report by at most one rounding unit, and equal it exactly when the
      one-way total is less than a quarter of a unit away from its rounding
      ([ida_e_volta_exata_sse]); the tree count never
      under-states the emission; the report respects [Qeq] on its inputs
      ([Proper] instances).
    - ForkJoin: every step decreases [medida] (termination); a pending join
      can always accept a value (progress); a join emits once, the values
      in the order of the sources, whatever the order of arrival; for every
      order that delivers each leg, [calcularEmissao_obs] is
      [calcularEmissao]; for every other sequence it emits nothing or that
      same report; it emits as soon as every leg has delivered, whatever
      came before, and what it has emitted stays; when the observable of a
      leg fails, the pipeline emits nothing until the failure is delivered
      and the report of a trip without legs from then on
      ([calcularEmissao_de_falha]).
    - Storage: the laws of the store; saving appends and is read back;
      deleting follows [splice] also for indices outside the array; a value
      that does not parse makes the reading methods throw; the trips and
      the event do not touch each other; the store stays readable
      ([bem_formado]) under every method.
    - Auth: which credentials log in; a failed login changes nothing; in
      every reachable state the subject agrees with the store
      ([auth_invariante]); the session and the stored data are independent.
    - Formulario: the mask yields at most eight digits with a hyphen after
      the fifth and the lookup sees the digits alone; [atualizarTrecho]
      changes one leg, and a change of the means of transport clears the
      fields of the other means; the list of legs never becomes empty
      ([fc_invariante_sempre]); [calcular] refuses exactly when no event
      is configured, no leg has a means of transport, the form is invalid
      or a leg lacks its origin; otherwise it fills the destination of
      every leg and hands the calculator only complete legs; [enviar] does nothing without a
      result.
    - Admin: every exported line is read back by [ler_csv] as the fields
      that were written, whatever commas, quotes and line breaks they hold;
      the totals shown are the sums of the list shown in every reachable
      state ([ad_totais_coerentes]); deleting follows the index shown.
    - Pipeline: a failed or unknown postal code degrades one leg to
      distance 0 and leaves the other legs untouched; the distance of each
      kind of leg (80, 10, 5000) and the ranges.
    - Sistema: the store stays readable under every sequence of writes of
      the pages ([loja_sempre_integra]); a request that passes [calcular]
      reaches the calculator with legs whose distances are resolved
      ([pedido_validado]); the event saved by the administration page is
      the one the form loads; a submitted trip appears in the list and in
      the export of the administration page.
    - Tipos: every report [processarCalculoMultiploTrechos] builds is well
      typed, whatever the legs and the geocoding service, and a well-typed
      report is a fixed point of the roundings.
    - App: in every reachable state the flag of the header is the session
      of the store, and the menu shows the links of that session; the
      router mounts the administration only when the guard accepts; the
      form and the login page are public and unknown URLs end at the form;
      two rounds of the router decide every URL ([resolver_termina]); the
      URLs the code navigates to have routes of their own.
    - Opcoes: every combination of options has an emission factor of its
      own in the table and a label; the states offered are the states the
      city search has codes for; the validity the component computes for a
      control agrees with the table of validators of the form group
      ([controle_valido_referencia]);
      [atualizarValidadoresTransporte] changes nothing; of the seven means
      of transport two have no distance estimate.
    - Refinamento: on every readable store each sequence of operations
      returns and leaves the store that stands for the model the abstract
      operations build ([loja_refina_modelo]); every model is the meaning of
      a store.
    - Exportacao: the downloaded sheet, read as a file of comma-separated
      values, gives the headers, one record per trip and the totals,
      whatever commas, quotes and line breaks the fields hold
      ([exportar_arquivo_legivel]); the downloaded data parse to the trips
      and totals shown.

    ** Bounds of the model

    - Numbers are exact rationals.  The source computes in IEEE-754
      binary64; the theorems are about the ideal arithmetic the code
      intends, and hold of the program up to the error of that arithmetic:
      next to a tie of a rounding the program may report the other
      neighbour ([Math.round(1.005 * 100)] is 100 in binary64 and 101
      here).  Every divisor is a non-zero constant or is guarded by
      [> 0], so no [NaN] or infinity arises in it.
    - Strings are sequences of UTF-8 bytes.  [===] is equality of byte
      strings, which coincides with equality of JS strings for well-formed
      text.  [toLowerCase] covers Basic Latin and the Latin-1 Supplement
      (U+0000 to U+00FF), which holds every letter of Portuguese; [trim]
      covers the ECMAScript white-space set.
    - A property lookup [obj[key]] is a lookup in the own properties of the
      object: the names inherited from [Object.prototype] are outside the
      model.
    - An [Observable] that emits one value and completes is the value it
      emits; [catchError] is a case on the reply.  Where the order of
      arrival matters ([forkJoin]) it is an argument: a list of source
      indices, in which an index may be missing or repeated.  The
      observables the geocoding service returns end in [catchError] and
      cannot fail, so [calcularEmissao_obs] has sources that emit; the
      handler of errors of [calcularEmissao] is reached in
      [calcularEmissao_de], where a source is a value or a failure.  A
      source that completes without a value is not modelled.
    - A reply of ViaCEP has the declared type [EnderecoCEP], in which
      [erro] is an optional boolean; a reply that carries a value of
      another type there is represented by its truthiness, which is all
      the code tests.
    - A method that throws returns [None]; the only exceptions of the
      modelled code are those of [JSON.parse].
    - [JSON.stringify] and [JSON.parse] are any pair with the two laws of
      [Json]; the instances [json_viagens] and [json_evento] of [Storage]
      show that the laws can be met and serve the worked examples.
    - The work a handler defers with [setTimeout] runs at once; [alert] is
      a log; the answers to [confirm], the clock and the printers of
      numbers and dates are arguments.
    - Fuel: [trimStart] and [trimEnd] remove one white-space character of
      one to three bytes per round and run with the length of the string as
      fuel; the router runs with two rounds, one for the redirect of the
      wildcard.  [trim_termina] and [resolver_termina] show that these are
      enough and that more changes nothing.  The other loops of the
      modelled code run over a list or a string and are structural
      recursions; the join terminates by [medida], which is at most the
      number of sources plus one.
    - The router is modelled for tables like the one of the application:
      paths of one segment, matched exactly, a wildcard, redirects to
      absolute paths, no parameters and no children.

    ** Not modelled

    - [guards/auth.guard]: the route table imports it, the sources do not
      hold it.  It is a parameter of [App], so nothing is proved of what it
      accepts.
    - The templates and style sheets of the components (only the menu of
      [AppComponent], which is inline, is modelled), the object URL of a
      download and its revocation.
    - Sparse arrays, the quota of [localStorage] and concurrent tabs. *)

From Stdlib Require Export QArith Qround Qabs Lqa ZArith Lia.
From stdpp Require Export prelude strings gmap.

Declare Scope js_scope.
Delimit Scope js_scope with js.

(** ** JavaScript values *)

(** [x > y] on numbers. *)
Definition num_gt (x y : Q) : bool :=
  match (x ?= y)%Q with Gt => true | _ => false end.

(** A number is truthy when it is not zero. *)
Definition truthy_num (x : Q) : bool := negb (Qeq_bool x 0).

(** A string is truthy when it is not empty. *)
Definition truthy_str (s : string) : bool := negb (String.eqb s "").

(** An optional string field used as a condition: [undefined] is falsy. *)
Definition truthy_ostr (o : option string) : bool :=
  match o with Some s => truthy_str s | None => false end.

(** [o || d] where [o] is an optional string. *)
Definition str_or (o : option string) (d : string) : string :=
  match o with
  | Some s => if truthy_str s then s else d
  | None => d
  end.

(** [o || d] where [o] is an optional number. *)
Definition num_or (o : option Q) (d : Q) : Q :=
  match o with
  | Some x => if truthy_num x then x else d
  | None => d
  end.

(** [o && o > 0] where [o] is an optional number. *)
Definition num_pos (o : option Q) : bool :=
  match o with
  | Some x => truthy_num x && num_gt x 0
  | None => false
  end.

(** [Math.round]: the nearest integer, ties towards plus infinity. *)
Definition Math_round (x : Q) : Q := inject_Z (Qfloor (x + (1 # 2))).

(** [Math.ceil]. *)
Definition Math_ceil (x : Q) : Q := inject_Z (Qceiling x).

(** The sum of a list of numbers. *)
Definition sumQ (l : list Q) : Q := foldr Qplus 0%Q l.

Notation "x >? y" := (num_gt x y) (at level 70, no associativity) : js_scope.
Notation "o '|s|' d" := (str_or o d) (at level 50, left associativity) : js_scope.
Notation "o '|n|' d" := (num_or o d) (at level 50, left associativity) : js_scope.

(** ** Tactics and hints *)

Create HintDb js discriminated.

(** Turn divisions by a literal into multiplications, so that [lra] applies. *)
Ltac q_norm :=
  unfold Qdiv in *;
  repeat match goal with
  | |- context [Qinv (Qmake ?n ?d)] =>
      let v := eval vm_compute in (Qinv (Qmake n d)) in
      change (Qinv (Qmake n d)) with v
  | H : context [Qinv (Qmake ?n ?d)] |- _ =>
      let v := eval vm_compute in (Qinv (Qmake n d)) in
      change (Qinv (Qmake n d)) with v in H
  end.

Ltac q_lra := q_norm; lra.

(** ** Lemmas on comparisons and truthiness *)

Section Comparisons.
Local Open Scope Q_scope.
Implicit Types x y : Q.

Lemma num_gt_true x y : num_gt x y = true <-> y < x.
Proof.
  unfold num_gt. rewrite Qgt_alt. destruct (x ?= y); intuition congruence.
Qed.

Lemma num_gt_false x y : num_gt x y = false <-> x <= y.
Proof.
  unfold num_gt. rewrite Qle_alt. destruct (x ?= y); intuition congruence.
Qed.

Lemma num_gt_spec x y : reflect (y < x) (num_gt x y).
Proof.
  destruct (num_gt x y) eqn:E; constructor.
  - by apply num_gt_true.
  - apply num_gt_false in E. lra.
Qed.

Lemma truthy_num_true x : truthy_num x = true <-> ~ x == 0.
Proof.
  unfold truthy_num. rewrite negb_true_iff, <- Qeq_bool_iff.
  destruct (Qeq_bool x 0); intuition congruence.
Qed.

Lemma num_pos_Some x : num_pos (Some x) = num_gt x 0.
Proof.
  unfold num_pos. destruct (num_gt_spec x 0) as [H|H]; [|by rewrite andb_false_r].
  rewrite andb_true_r. apply truthy_num_true. lra.
Qed.

Lemma num_pos_true o : num_pos o = true <-> exists x, o = Some x /\ 0 < x.
Proof.
  destruct o as [x|].
  - rewrite num_pos_Some, num_gt_true. split; [eauto|]. by intros (? & [= <-] & ?).
  - split; [done|]. by intros (? & [=] & _).
Qed.

Lemma truthy_str_true s : truthy_str s = true <-> s <> "".
Proof.
  unfold truthy_str. rewrite negb_true_iff.
  destruct (String.eqb_spec s ""); intuition congruence.
Qed.

Lemma str_or_truthy o d : truthy_str d = true -> truthy_str (str_or o d) = true.
Proof.
  intros Hd. destruct o as [s|]; simpl; [|done].
  by destruct (truthy_str s) eqn:E.
Qed.

Lemma str_or_cases o d :
  (exists s, o = Some s /\ s <> "" /\ str_or o d = s) \/
  (truthy_ostr o = false /\ str_or o d = d).
Proof.
  destruct o as [s|]; simpl; [|by right].
  destruct (truthy_str s) eqn:E; [left|by right].
  exists s. by rewrite <- truthy_str_true.
Qed.

End Comparisons.

(** Case analysis on the next [num_gt] test of the goal. *)
Ltac case_num_gt :=
  match goal with
  | |- context [num_gt ?x ?y] => destruct (num_gt_spec x y)
  end.

(** ** Lemmas on rounding *)

Section Rounding.
Local Open Scope Q_scope.
Implicit Types x y : Q.

#[export] Instance Math_round_proper : Proper (Qeq ==> eq) Math_round.
Proof. intros x y E. unfold Math_round. by rewrite E. Qed.

#[export] Instance Math_ceil_proper : Proper (Qeq ==> eq) Math_ceil.
Proof. intros x y E. unfold Math_ceil. by rewrite E. Qed.

Lemma Math_round_lower x : x - (1 # 2) < Math_round x.
Proof.
  unfold Math_round. pose proof (Qlt_floor (x + (1 # 2))) as H.
  rewrite inject_Z_plus in H. change (inject_Z 1) with 1 in H. lra.
Qed.

Lemma Math_round_upper x : Math_round x <= x + (1 # 2).
Proof. apply Qfloor_le. Qed.

Lemma Math_round_error x : Qabs (Math_round x - x) <= 1 # 2.
Proof.
  apply Qabs_Qle_condition.
  pose proof (Math_round_lower x). pose proof (Math_round_upper x). lra.
Qed.

Lemma Math_round_mono x y : x <= y -> Math_round x <= Math_round y.
Proof.
  intros H. unfold Math_round. rewrite <- Zle_Qle.
  apply Qfloor_resp_le. lra.
Qed.

Lemma Math_round_Z (z : Z) : Math_round (inject_Z z) = inject_Z z.
Proof.
  unfold Math_round. f_equal. apply Z.le_antisymm.
  - apply Z.lt_succ_r. rewrite Zlt_Qlt.
    eapply Qle_lt_trans; [apply Qfloor_le|].
    rewrite <- Z.add_1_r, inject_Z_plus. change (inject_Z 1) with 1. lra.
  - rewrite <- (Qfloor_Z z) at 1. apply Qfloor_resp_le. lra.
Qed.

Lemma Math_round_nonneg x : 0 <= x -> 0 <= Math_round x.
Proof.
  intros H. change 0 with (inject_Z 0). rewrite <- (Math_round_Z 0).
  by apply Math_round_mono.
Qed.

Lemma Math_ceil_lower x : x <= Math_ceil x.
Proof. apply Qle_ceiling. Qed.

Lemma Math_ceil_upper x : Math_ceil x < x + 1.
Proof.
  unfold Math_ceil. pose proof (Qceiling_lt x) as H.
  rewrite <- Z.add_opp_r, inject_Z_plus, inject_Z_opp in H.
  change (inject_Z 1) with 1 in H. lra.
Qed.

Lemma Math_ceil_mono x y : x <= y -> Math_ceil x <= Math_ceil y.
Proof. intros H. unfold Math_ceil. rewrite <- Zle_Qle. by apply Qceiling_resp_le. Qed.

Lemma Math_ceil_nonneg x : 0 <= x -> 0 <= Math_ceil x.
Proof. intros H. pose proof (Math_ceil_lower x). lra. Qed.

(** Two integers whose distance is less than two are at most one apart. *)
Lemma inject_Z_gap (a b : Z) (c : Q) :
  Qabs (inject_Z a - inject_Z b) < c -> c <= 2 -> Qabs (inject_Z a - inject_Z b) <= 1.
Proof.
  intros H Hc. apply Qabs_Qle_condition.
  assert (Hlt : Qabs (inject_Z a - inject_Z b) < 2) by lra.
  apply Qabs_Qlt_condition in Hlt. destruct Hlt as [H1 H2].
  unfold Qminus in *. rewrite <- inject_Z_opp, <- inject_Z_plus in *.
  change 1 with (inject_Z 1). change (-(2))%Q with (inject_Z (-2)) in H1.
  change (- inject_Z 1)%Q with (inject_Z (-1)).
  change 2 with (inject_Z 2) in H2.
  rewrite <- Zlt_Qlt in H1, H2. rewrite <- !Zle_Qle. lia.
Qed.

(** Rounding to a multiple of [1/k]: [Math.round(x * k) / k]. *)
Lemma round_scaled_error (k x : Q) :
  0 < k -> Qabs (Math_round (x * k) / k - x) <= 1 / (2 * k).
Proof.
  intros Hk. pose proof (Math_round_lower (x * k)). pose proof (Math_round_upper (x * k)).
  assert (Hik : 0 < / k) by (by apply Qinv_lt_0_compat).
  assert (E1 : Math_round (x * k) / k - x == (Math_round (x * k) - x * k) * / k)
    by (field; lra).
  assert (E2 : 1 / (2 * k) == (1 # 2) * / k) by (field; lra).
  rewrite E1, E2. apply Qabs_Qle_condition. split; nra.
Qed.

(** Doubling before or after rounding differs by one unit at most. *)
Lemma Math_round_double x : Qabs (Math_round (x * 2) - 2 * Math_round x) <= 1.
Proof.
  pose proof (Math_round_lower x). pose proof (Math_round_upper x).
  pose proof (Math_round_lower (x * 2)). pose proof (Math_round_upper (x * 2)).
  unfold Math_round in *.
  set (a := Qfloor (x * 2 + (1 # 2))) in *. set (b := Qfloor (x + (1 # 2))) in *.
  assert (E : 2 * inject_Z b == inject_Z (2 * b))
    by (rewrite inject_Z_mult; reflexivity).
  rewrite E. apply (inject_Z_gap a (2 * b) 2); [|lra].
  rewrite <- E. apply Qabs_Qlt_condition. lra.
Qed.

(** [Math.floor] names the integer of the unit interval that holds the
    number. *)
Lemma Qfloor_unique x (z : Z) : inject_Z z <= x < inject_Z z + 1 -> Qfloor x = z.
Proof.
  intros [H1 H2]. apply Z.le_antisymm.
  - apply Z.lt_succ_r. rewrite Zlt_Qlt.
    eapply Qle_lt_trans; [apply Qfloor_le|].
    rewrite <- Z.add_1_r, inject_Z_plus. by change (inject_Z 1) with 1.
  - rewrite <- (Qfloor_Z z). by apply Qfloor_resp_le.
Qed.

(** Doubling commutes with rounding exactly when the number is less than
    a quarter away from its rounding. *)
Lemma Math_round_double_iff x :
  Math_round (x * 2) == 2 * Math_round x <->
  - (1 # 4) <= x - Math_round x < 1 # 4.
Proof.
  pose proof (Math_round_lower (x * 2)). pose proof (Math_round_upper (x * 2)).
  assert (E : 2 * Math_round x == inject_Z (2 * Qfloor (x + (1 # 2))))
    by (unfold Math_round; rewrite inject_Z_mult; reflexivity).
  split.
  - intros Hd. lra.
  - intros Hq. rewrite E. unfold Math_round at 1. apply inject_Z_injective.
    apply Qfloor_unique. rewrite <- E. lra.
Qed.

Lemma Math_ceil_double x : Math_ceil (x * 2) <= 2 * Math_ceil x.
Proof.
  pose proof (Math_ceil_lower x) as Hx. unfold Math_ceil in *.
  assert (E : 2 * inject_Z (Qceiling x) == inject_Z (2 * Qceiling x))
    by (rewrite inject_Z_mult; reflexivity).
  rewrite E, <- Zle_Qle, <- (Qceiling_Z (2 * Qceiling x)).
  apply Qceiling_resp_le. rewrite <- E. lra.
Qed.

End Rounding.

(** ** Lemmas on sums *)

#[global] Arguments sumQ : simpl never.

Section Sums.
Local Open Scope Q_scope.
Context {A : Type}.
Implicit Types (l : list A) (f : A -> Q).

Lemma sumQ_nil : sumQ [] = 0.
Proof. reflexivity. Qed.

Lemma sumQ_cons (x : Q) (l : list Q) : sumQ (x :: l) = x + sumQ l.
Proof. reflexivity. Qed.

Lemma sumQ_app (l1 l2 : list Q) : sumQ (l1 ++ l2) == sumQ l1 + sumQ l2.
Proof.
  induction l1 as [|x l1 IH]; simpl; [rewrite sumQ_nil; ring|].
  rewrite !sumQ_cons, IH. ring.
Qed.

(** The accumulation loop [acc += f x] over a list is the sum of the list. *)
Lemma foldl_sumQ f l (acc : Q) :
  foldl (fun a x => a + f x) acc l == acc + sumQ (f <$> l).
Proof.
  revert acc. induction l as [|x l IH]; intros acc; csimpl.
  - rewrite sumQ_nil. ring.
  - rewrite IH, sumQ_cons. ring.
Qed.

Lemma sumQ_nonneg f l : (forall x, x ∈ l -> 0 <= f x) -> 0 <= sumQ (f <$> l).
Proof.
  induction l as [|x l IH]; intros H; csimpl; [rewrite sumQ_nil; lra|].
  rewrite sumQ_cons.
  assert (0 <= f x) by (apply H; left).
  assert (0 <= sumQ (f <$> l)) by (apply IH; intros; apply H; by right).
  lra.
Qed.

Lemma sumQ_ext f g l :
  (forall x, x ∈ l -> f x == g x) -> sumQ (f <$> l) == sumQ (g <$> l).
Proof.
  induction l as [|x l IH]; intros H; csimpl; [reflexivity|].
  rewrite !sumQ_cons, IH, (H x); [reflexivity|left|intros; apply H; by right].
Qed.

End Sums.

(** ** Literal tables *)

Section Tables.
Context `{Countable K} {V : Type}.

(** A property of every binding of a literal table is checked on its list. *)
Lemma list_to_map_Forall (P : K -> V -> Prop) (l : list (K * V)) :
  Forall (uncurry P) l -> map_Forall P (list_to_map l : gmap K V).
Proof.
  intros Hl k v Hkv. apply elem_of_list_to_map_2 in Hkv.
  rewrite Forall_forall in Hl. apply (Hl (k, v) Hkv).
Qed.

(** The lookup of any key in a literal table, one binding at a time. *)
Lemma lookup_list_to_map_cons (k i : K) (v : V) (l : list (K * V)) :
  (list_to_map ((k, v) :: l) : gmap K V) !! i =
    if decide (k = i) then Some v else (list_to_map l : gmap K V) !! i.
Proof. simpl. apply lookup_insert. Qed.

End Tables.

(** Prove a [map_Forall] over a literal table, one binding at a time. *)
Ltac table_forall tac :=
  repeat first
    [ apply list_to_map_Forall
    | apply Forall_nil_2
    | apply Forall_cons_2; [cbn [uncurry]|]
    | progress tac ].

(** Decide the lookup of a key [prefix ++ c] in a literal table of strings. *)
Ltac table_lookup :=
  rewrite !lookup_list_to_map_cons; repeat case_decide; try done; exfalso;
  repeat match goal with
  | H : _ = String.append _ _ |- _ =>
      cbv [String.append] in H; fold String.append in H
  end;
  simplify_eq.

#[export] Hint Resolve Math_round_nonneg Math_ceil_nonneg Math_round_mono
  Math_ceil_mono : js.
Create Rewrite HintDb js_rw.
#[export] Hint Rewrite num_pos_Some : js_rw.
