(* ===== verification/JsString.v ===== *)
(** * JsString: the string methods the services call

    A JavaScript string is modelled by its UTF-8 encoding, a [string] of the
    Standard Library whose characters are bytes.  The functions below are the
    methods used in [geocoding.service.ts] and [carbon-calculator.service.ts]:
    [s.replace(/\D/g, '')] is [only_digits], [s.toLowerCase()] is
    [toLowerCase] (Basic Latin and Latin-1 Supplement), [s.trim()] is [trim]
    (the ECMAScript white-space and line-terminator code points),
    [s.split(',')] is [split_on ","] and [parts[i]] is [nth_part].  For the
    components: [s.length] is [js_length], [s.includes(p)] is [includes] and
    the replacement that formats a postal code is [replace_cep]. *)

From Stdlib Require Import Ascii String NArith.
From stdpp Require Import prelude strings.
From S2P Require Import Prelude.

Local Open Scope string_scope.

(** ** Bytes *)

Definition byte_in (lo hi : N) (c : ascii) : bool :=
  ((lo <=? N_of_ascii c) && (N_of_ascii c <=? hi))%N.

(** [\d]: an ASCII decimal digit. *)
Definition is_digit (c : ascii) : bool := byte_in 48 57 c.

Definition is_upper (c : ascii) : bool := byte_in 65 90 c.

(** The second byte of the UTF-8 encoding of U+00C0 to U+00DE, U+00D7 (the
    multiplication sign) excepted: the upper-case letters of Latin-1. *)
Definition is_upper_latin1 (c : ascii) : bool :=
  byte_in 128 158 c && negb (N_of_ascii c =? 151)%N.

Definition shift32 (c : ascii) : ascii := ascii_of_N (N_of_ascii c + 32).

Definition lead_C3 (c : ascii) : bool := (N_of_ascii c =? 195)%N.

(** ** [replace(/\D/g, '')] *)

Fixpoint only_digits (s : string) : string :=
  match s with
  | "" => ""
  | String c r => if is_digit c then String c (only_digits r) else only_digits r
  end.

(** ** [toLowerCase] *)

Fixpoint toLowerCase (s : string) : string :=
  match s with
  | "" => ""
  | String c r =>
      if is_upper c then String (shift32 c) (toLowerCase r)
      else if lead_C3 c then
        match r with
        | String d r' =>
            String c (String (if is_upper_latin1 d then shift32 d else d)
                        (toLowerCase r'))
        | "" => String c ""
        end
      else String c (toLowerCase r)
  end.

(** ** [trim] *)

(** The number of bytes of the white-space character a string starts with,
    or [0] when it starts with none.  The code points are those of the
    ECMAScript [WhiteSpace] and [LineTerminator] productions: U+0009 to
    U+000D, U+0020, U+00A0, U+1680, U+2000 to U+200A, U+2028, U+2029, U+202F,
    U+205F, U+3000 and U+FEFF. *)
Definition ws_prefix (s : string) : nat :=
  match s with
  | String c1 r1 =>
      let n1 := N_of_ascii c1 in
      if byte_in 9 13 c1 || (n1 =? 32)%N then 1
      else match r1 with
      | String c2 r2 =>
          let n2 := N_of_ascii c2 in
          if (n1 =? 194)%N && (n2 =? 160)%N then 2
          else match r2 with
          | String c3 _ =>
              let n3 := N_of_ascii c3 in
              if (n1 =? 225)%N && (n2 =? 154)%N && (n3 =? 128)%N then 3
              else if (n1 =? 226)%N && (n2 =? 128)%N &&
                      (byte_in 128 138 c3 || byte_in 168 169 c3 || (n3 =? 175)%N)
                   then 3
              else if (n1 =? 226)%N && (n2 =? 129)%N && (n3 =? 159)%N then 3
              else if (n1 =? 227)%N && (n2 =? 128)%N && (n3 =? 128)%N then 3
              else if (n1 =? 239)%N && (n2 =? 187)%N && (n3 =? 191)%N then 3
              else 0
          | "" => 0
          end
      | "" => 0
      end
  | "" => 0
  end.

Fixpoint drop_bytes (n : nat) (s : string) : string :=
  match n, s with
  | S n', String _ r => drop_bytes n' r
  | _, _ => s
  end.

(** [trimStart]: the fuel is the length of the string, one unit per removed
    character at most. *)
Fixpoint trimStart_fuel (fuel : nat) (s : string) : string :=
  match fuel with
  | O => s
  | S fuel' =>
      match ws_prefix s with
      | O => s
      | n => trimStart_fuel fuel' (drop_bytes n s)
      end
  end.

Definition trimStart (s : string) : string := trimStart_fuel (String.length s) s.

(** [ws_suffix s] is the number of bytes of the white-space character [s]
    ends with: the last one, two or three bytes are tried in turn. *)
Definition last_bytes (n : nat) (s : string) : string :=
  drop_bytes (String.length s - n) s.

Definition ws_suffix (s : string) : nat :=
  if decide (ws_prefix (last_bytes 1 s) = 1) then 1
  else if decide (ws_prefix (last_bytes 2 s) = 2) then 2
  else if decide (ws_prefix (last_bytes 3 s) = 3) then 3
  else 0.

Fixpoint take_bytes (n : nat) (s : string) : string :=
  match n, s with
  | S n', String c r => String c (take_bytes n' r)
  | _, _ => ""
  end.

Fixpoint trimEnd_fuel (fuel : nat) (s : string) : string :=
  match fuel with
  | O => s
  | S fuel' =>
      match ws_suffix s with
      | O => s
      | n => trimEnd_fuel fuel' (take_bytes (String.length s - n) s)
      end
  end.

Definition trimEnd (s : string) : string := trimEnd_fuel (String.length s) s.

Definition trim (s : string) : string := trimEnd (trimStart s).

(** ** [split] and indexing *)

(** [s.split(sep)] for a one-character separator: never the empty list. *)
Fixpoint split_on (sep : ascii) (s : string) : list string :=
  match s with
  | "" => [""]
  | String c r =>
      if Ascii.eqb c sep then "" :: split_on sep r
      else match split_on sep r with
           | p :: ps => String c p :: ps
           | [] => [String c ""]
           end
  end.

(** [parts[i]]: [undefined] out of range. *)
Definition nth_part (parts : list string) (i : nat) : option string := parts !! i.

(** [s.includes(c)] for a one-character argument. *)
Fixpoint includes_char (c : ascii) (s : string) : bool :=
  match s with
  | "" => false
  | String d r => Ascii.eqb d c || includes_char c r
  end.

(** [s.length], in UTF-16 code units: a byte that is not a continuation
    byte starts a code point, and a code point outside the Basic Multilingual
    Plane (lead byte F0 or above) takes two units. *)
Definition is_continuation (c : ascii) : bool := byte_in 128 191 c.

Definition is_lead4 (c : ascii) : bool := byte_in 240 255 c.

Fixpoint js_length (s : string) : nat :=
  match s with
  | "" => 0
  | String c r =>
      (if is_continuation c then 0 else if is_lead4 c then 2 else 1) + js_length r
  end.

(** [s.includes(p)]. *)
Fixpoint includes (p s : string) : bool :=
  String.prefix p s ||
  match s with
  | "" => false
  | String _ r => includes p r
  end.

(** [n] digits at the start of [s]. *)
Fixpoint digits_prefix (n : nat) (s : string) : bool :=
  match n, s with
  | O, _ => true
  | S n', String c r => is_digit c && digits_prefix n' r
  | S _, "" => false
  end.

(** [s.replace(/(\d{5})(\d)/, '$1-$2')]: a hyphen after the fifth digit of
    the first run of six digits. *)
Fixpoint replace_cep (s : string) : string :=
  match s with
  | "" => ""
  | String c r =>
      if digits_prefix 6 s then take_bytes 5 s ++ "-" ++ drop_bytes 5 s
      else String c (replace_cep r)
  end.

(** ** Lemmas *)

Section Digits.
Implicit Types (s : string) (c : ascii).

Lemma only_digits_app s1 s2 :
  only_digits (s1 ++ s2) = only_digits s1 ++ only_digits s2.
Proof.
  induction s1 as [|c s1 IH]; simpl; [done|].
  destruct (is_digit c); simpl; by rewrite IH.
Qed.

Lemma only_digits_idem s : only_digits (only_digits s) = only_digits s.
Proof.
  induction s as [|c s IH]; simpl; [done|].
  destruct (is_digit c) eqn:E; simpl; by rewrite ?E, IH.
Qed.

Lemma only_digits_length s : String.length (only_digits s) <= String.length s.
Proof.
  induction s as [|c s IH]; simpl; [done|].
  destruct (is_digit c); simpl; lia.
Qed.

Lemma only_digits_all s : forall c, includes_char c (only_digits s) = true -> is_digit c = true.
Proof.
  induction s as [|d s IH]; simpl; intros c H; [done|].
  destruct (is_digit d) eqn:E; [|by apply IH].
  simpl in H. apply orb_true_iff in H as [H|H]; [|by apply IH].
  apply Ascii.eqb_eq in H. by subst.
Qed.

End Digits.

Section Split.
Implicit Types (s : string) (c sep : ascii).

Lemma split_on_nonempty sep s : split_on sep s <> [].
Proof.
  destruct s as [|c r]; simpl; [done|].
  destruct (Ascii.eqb c sep); [done|]. by destruct (split_on sep r).
Qed.

Lemma split_on_no_sep sep s :
  includes_char sep s = false -> split_on sep s = [s].
Proof.
  induction s as [|c r IH]; simpl; [done|].
  intros H. apply orb_false_iff in H as [Hc Hr].
  by rewrite Hc, (IH Hr).
Qed.

(** Splitting [a ++ sep ++ b] when [a] holds no separator. *)
Lemma split_on_app sep a b :
  includes_char sep a = false ->
  split_on sep (a ++ String sep b) = a :: split_on sep b.
Proof.
  induction a as [|c r IH]; simpl; intros H.
  - by rewrite Ascii.eqb_refl.
  - apply orb_false_iff in H as [Hc Hr]. by rewrite Hc, (IH Hr).
Qed.

(** Every separator adds a part. *)
Lemma split_on_length_app sep a b :
  length (split_on sep (a ++ String sep b)) >= S (length (split_on sep b)).
Proof.
  induction a as [|c r IH]; simpl.
  - rewrite Ascii.eqb_refl. simpl. lia.
  - destruct (Ascii.eqb c sep); simpl; [lia|].
    destruct (split_on sep (r ++ String sep b)); simpl in *; lia.
Qed.

End Split.

Section Trim.
Implicit Types (s : string).

Lemma trimStart_fuel_space fuel s :
  trimStart_fuel (S fuel) (String " " s) = trimStart_fuel fuel s.
Proof. reflexivity. Qed.

Lemma drop_bytes_length n s : String.length (drop_bytes n s) = String.length s - n.
Proof.
  revert s. induction n as [|n IH]; intros [|c r]; simpl; by auto with lia.
Qed.

Lemma ws_prefix_le s : ws_prefix s <= String.length s.
Proof.
  destruct s as [|c1 [|c2 [|c3 r]]]; simpl; repeat case_match; simpl; lia.
Qed.

(** More fuel than the length changes nothing: the definition of
    [trimStart] gives enough. *)
Lemma trimStart_fuel_enough fuel s :
  String.length s <= fuel -> trimStart_fuel fuel s = trimStart s.
Proof.
  unfold trimStart. remember (String.length s) as n eqn:Hn.
  revert s fuel Hn. induction n as [n IH] using lt_wf_ind. intros s fuel Hn Hle.
  destruct fuel as [|fuel].
  - assert (n = 0) as -> by lia. done.
  - destruct n as [|n].
    + destruct s; [done|discriminate].
    + simpl. destruct (ws_prefix s) as [|k] eqn:Ek; [done|].
      pose proof (ws_prefix_le s) as Hk.
      pose proof (drop_bytes_length (S k) s) as Hd.
      rewrite (IH (String.length (drop_bytes (S k) s))); [|lia|done|lia].
      symmetry. apply (IH (String.length (drop_bytes (S k) s))); [lia|done|lia].
Qed.

Lemma trimStart_space s : trimStart (String " " s) = trimStart s.
Proof.
  unfold trimStart at 1. simpl String.length. by rewrite trimStart_fuel_space.
Qed.

Lemma trim_space s : trim (String " " s) = trim s.
Proof. unfold trim. by rewrite trimStart_space. Qed.

Lemma take_bytes_length n s : String.length (take_bytes n s) = Nat.min n (String.length s).
Proof.
  revert s. induction n as [|n IH]; intros [|c r]; simpl; by auto with lia.
Qed.

(** With as much fuel as the string is long, the loops stop because no
    white space is left, not because the fuel is spent. *)
Lemma trimStart_fuel_done fuel s :
  String.length s <= fuel -> ws_prefix (trimStart_fuel fuel s) = 0.
Proof.
  revert s. induction fuel as [|fuel IH]; intros s Hs.
  - destruct s; [done|simpl in Hs; lia].
  - cbn [trimStart_fuel]. destruct (ws_prefix s) as [|k] eqn:Ek; [done|].
    apply IH. rewrite drop_bytes_length. lia.
Qed.

Lemma trimEnd_fuel_done fuel s :
  String.length s <= fuel -> ws_suffix (trimEnd_fuel fuel s) = 0.
Proof.
  revert s. induction fuel as [|fuel IH]; intros s Hs.
  - destruct s; [by vm_compute|simpl in Hs; lia].
  - cbn [trimEnd_fuel]. destruct (ws_suffix s) as [|k] eqn:Ek; [done|].
    apply IH. rewrite take_bytes_length. lia.
Qed.

Lemma trimEnd_fuel_any fuel fuel' s :
  String.length s <= fuel -> String.length s <= fuel' ->
  trimEnd_fuel fuel s = trimEnd_fuel fuel' s.
Proof.
  revert fuel' s. induction fuel as [|fuel IH]; intros [|fuel'] s Hs Hs';
    try (destruct s; [by vm_compute|simpl in *; lia]).
  cbn [trimEnd_fuel]. destruct (ws_suffix s) as [|k]; [done|].
  apply IH; rewrite take_bytes_length; lia.
Qed.

Lemma trimEnd_fuel_enough fuel s :
  String.length s <= fuel -> trimEnd_fuel fuel s = trimEnd s.
Proof. intros Hs. by apply trimEnd_fuel_any. Qed.

Lemma trimStart_fuel_length fuel s :
  String.length (trimStart_fuel fuel s) <= String.length s.
Proof.
  revert s. induction fuel as [|fuel IH]; intros s; cbn [trimStart_fuel]; [done|].
  destruct (ws_prefix s) as [|k]; [done|].
  etrans; [apply IH|]. rewrite drop_bytes_length. lia.
Qed.

Lemma trimEnd_fuel_length fuel s :
  String.length (trimEnd_fuel fuel s) <= String.length s.
Proof.
  revert s. induction fuel as [|fuel IH]; intros s; cbn [trimEnd_fuel]; [done|].
  destruct (ws_suffix s) as [|k]; [done|].
  etrans; [apply IH|]. rewrite take_bytes_length. lia.
Qed.

(** Termination of [trim]: the fuel the definitions give their
    loops, the length of the string, is enough.  More fuel changes nothing,
    and the loops end with no white space left at the end they work on. *)
Theorem trim_termina fuel s :
  String.length s <= fuel ->
  trimStart_fuel fuel s = trimStart s /\ trimEnd_fuel fuel s = trimEnd s /\
  ws_prefix (trimStart s) = 0 /\ ws_suffix (trimEnd s) = 0 /\
  String.length (trim s) <= String.length s.
Proof.
  intros Hs. split_and!.
  - by apply trimStart_fuel_enough.
  - by apply trimEnd_fuel_enough.
  - by apply trimStart_fuel_done.
  - by apply trimEnd_fuel_done.
  - unfold trim. etrans; [apply trimEnd_fuel_length|apply trimStart_fuel_length].
Qed.

End Trim.

Section Lower.
Implicit Types (s : string) (c : ascii).

Lemma shift32_not_upper c : is_upper c = true -> is_upper (shift32 c) = false.
Proof. by destruct c as [[] [] [] [] [] [] [] []]. Qed.

Lemma shift32_not_C3 c : is_upper c = true -> lead_C3 (shift32 c) = false.
Proof. by destruct c as [[] [] [] [] [] [] [] []]. Qed.

Lemma shift32_not_upper_latin1 c :
  is_upper_latin1 c = true -> is_upper_latin1 (shift32 c) = false.
Proof. by destruct c as [[] [] [] [] [] [] [] []]. Qed.

Lemma lead_C3_not_upper c : lead_C3 c = true -> is_upper c = false.
Proof. by destruct c as [[] [] [] [] [] [] [] []]. Qed.

End Lower.

Section Mask.
Implicit Types (s : string) (n : nat).

Lemma only_digits_id s : digits_prefix (String.length s) s = true -> only_digits s = s.
Proof.
  induction s as [|c r IH]; simpl; [done|].
  intros [Hc Hr]%andb_true_iff. by rewrite Hc, IH.
Qed.

Lemma digits_prefix_only_digits s : digits_prefix (String.length (only_digits s)) (only_digits s) = true.
Proof.
  induction s as [|c r IH]; simpl; [done|].
  destruct (is_digit c) eqn:E; simpl; [by rewrite E|done].
Qed.

Lemma digits_prefix_le n m s : (n <= m)%nat -> digits_prefix m s = true -> digits_prefix n s = true.
Proof.
  revert m s. induction n as [|n IH]; intros m s Hle; [done|].
  destruct m as [|m]; [lia|]. destruct s as [|c r]; simpl; [done|].
  intros [Hc Hr]%andb_true_iff. rewrite Hc. simpl. apply (IH m); [lia|done].
Qed.

Lemma take_drop_bytes n s : take_bytes n s ++ drop_bytes n s = s.
Proof.
  revert s. induction n as [|n IH]; intros [|c r]; try done.
  change (String c (take_bytes n r ++ drop_bytes n r) = String c r). by rewrite IH.
Qed.

Lemma only_digits_hyphen s1 s2 :
  only_digits (s1 ++ "-" ++ s2) = only_digits s1 ++ only_digits s2.
Proof. by rewrite !only_digits_app. Qed.

(** On a string of digits the replacement acts at the start, when there
    are six digits or more. *)
Lemma replace_cep_digits s :
  digits_prefix (String.length s) s = true ->
  replace_cep s =
    if bool_decide (6 <= String.length s)%nat
    then take_bytes 5 s ++ "-" ++ drop_bytes 5 s else s.
Proof.
  intros Hd. case_bool_decide as Hlen.
  - destruct s as [|c r]; [simpl in Hlen; lia|].
    unfold replace_cep; fold replace_cep.
    by rewrite (digits_prefix_le 6 _ _ Hlen Hd).
  - revert Hd Hlen. induction s as [|c r IH]; [done|]. intros Hd Hlen.
    unfold replace_cep; fold replace_cep.
    destruct (digits_prefix 6 (String c r)) eqn:E.
    + exfalso. apply Hlen. clear -E. 
      do 6 (destruct r as [|? r]; simpl in E; rewrite ?andb_false_r in E; try done).
      all: simpl; lia.
    + f_equal. simpl in Hd. apply andb_true_iff in Hd as [_ Hd].
      apply IH; [done|simpl in Hlen; lia].
Qed.

(** The replacement only adds a hyphen: the digits are unchanged. *)
Lemma only_digits_replace_cep s : only_digits (replace_cep s) = only_digits s.
Proof.
  induction s as [|c r IH]; [done|].
  unfold replace_cep; fold replace_cep.
  destruct (digits_prefix 6 (String c r)).
  - by rewrite only_digits_hyphen, <- only_digits_app, take_drop_bytes.
  - simpl. by rewrite IH.
Qed.

End Mask.

Lemma trim_termina_witness :
  trimStart_fuel 9 "  a b  " = trimStart "  a b  " /\
  trimEnd_fuel 9 "  a b  " = trimEnd "  a b  " /\
  ws_prefix (trimStart "  a b  ") = 0 /\ ws_suffix (trimEnd "  a b  ") = 0 /\
  String.length (trim "  a b  ") <= String.length "  a b  ".
Proof. apply (trim_termina 9 "  a b  "). simpl. lia. Defined.
