(* ===== verification/Geocoding.v ===== *)
(** * Geocoding: [GeocodingService] of [geocoding.service.ts]

    The service estimates a distance in kilometres either from a postal code
    (CEP), through one HTTP request to ViaCEP and a table of metropolitan
    areas, or from a pair of cities, through a table of city pairs and a
    crude estimate by state.  An HTTP request is a value of [http_response]
    supplied by the environment: [HttpOk body] when the request succeeds,
    [HttpError] when it fails; an [Observable] that emits once is the value
    it emits, and [catchError(() => of(v))] is the [HttpError] case. *)

From Stdlib Require Import QArith Ascii String.
From stdpp Require Import prelude strings gmap.
From S2P Require Import Prelude JsString.

Local Open Scope string_scope.
Local Open Scope Q_scope.

(** ** Data *)

(** [interface EnderecoCEP]. *)
Record EnderecoCEP := mkEnderecoCEP {
  cep : string;
  logradouro : string;
  complemento : string;
  bairro : string;
  localidade : string;
  uf : string;
  erro : option bool
}.

(** The outcome of [HttpClient.get]. *)
Inductive http_response (A : Type) : Type :=
| HttpOk (body : A)
| HttpError.
Arguments HttpOk {A} body.
Arguments HttpError {A}.

(** The HTTP client as seen by one call: the reply to a GET of a URL. *)
Definition http_client : Type := string -> http_response EnderecoCEP.

#[export] Instance Q_inhabited : Inhabited Q := populate 0.

Definition row (l : list (string * Q)) : gmap string Q := list_to_map l.

(** The table [distancias] of [estimarDistanciaPorCoordenadas]. *)
Definition distancias : gmap string (gmap string Q) :=
  list_to_map [
    ("São Paulo", row [("Rio de Janeiro", 430); ("Brasília", 1015); ("Salvador", 1200); ("Belo Horizonte", 586)]);
    ("Rio de Janeiro", row [("São Paulo", 430); ("Brasília", 1148); ("Salvador", 1200); ("Belo Horizonte", 434)]);
    ("Brasília", row [("São Paulo", 1015); ("Rio de Janeiro", 1148); ("Salvador", 1080); ("Belo Horizonte", 740)]);
    ("Salvador", row [("São Paulo", 1200); ("Rio de Janeiro", 1200); ("Brasília", 1080); ("Belo Horizonte", 950)])
  ].

(** The table [estados] of [obterCodigoEstado]. *)
Definition estados : gmap string string :=
  list_to_map [
    ("AC", "12"); ("AL", "27"); ("AP", "16"); ("AM", "13"); ("BA", "29");
    ("CE", "23"); ("DF", "53"); ("ES", "32"); ("GO", "52"); ("MA", "21");
    ("MT", "51"); ("MS", "50"); ("MG", "31"); ("PA", "15"); ("PB", "25");
    ("PR", "41"); ("PE", "26"); ("PI", "22"); ("RJ", "33"); ("RN", "24");
    ("RS", "43"); ("RO", "11"); ("RR", "14"); ("SC", "42"); ("SP", "35");
    ("SE", "28"); ("TO", "17")
  ].

(** The table [regioesMetropolitanas] of [obterDistanciasRegiaoMetropolitana]. *)
Definition regioesMetropolitanas : gmap string (gmap string (gmap string Q)) :=
  list_to_map [
    ("ES", list_to_map [
      ("Vitória", row [("Vitória", 0); ("Vila Velha", 15); ("Cariacica", 20); ("Serra", 25); ("Viana", 30); ("Guarapari", 45); ("Fundão", 50)]);
      ("Vila Velha", row [("Vitória", 15); ("Vila Velha", 0); ("Cariacica", 18); ("Serra", 20)]);
      ("Cariacica", row [("Vitória", 20); ("Vila Velha", 18); ("Cariacica", 0); ("Serra", 22)]);
      ("Serra", row [("Vitória", 25); ("Vila Velha", 20); ("Cariacica", 22); ("Serra", 0)])
    ]);
    ("SP", list_to_map [
      ("São Paulo", row [("São Paulo", 0); ("Guarulhos", 20); ("São Bernardo do Campo", 25); ("Santo André", 22); ("Osasco", 18); ("Campinas", 100)]);
      ("Guarulhos", row [("São Paulo", 20); ("Guarulhos", 0); ("São Bernardo do Campo", 35); ("Santo André", 32)]);
      ("São Bernardo do Campo", row [("São Paulo", 25); ("Guarulhos", 35); ("São Bernardo do Campo", 0); ("Santo André", 8)]);
      ("Santo André", row [("São Paulo", 22); ("Guarulhos", 32); ("São Bernardo do Campo", 8); ("Santo André", 0)]);
      ("Osasco", row [("São Paulo", 18); ("Osasco", 0); ("Barueri", 12); ("Carapicuíba", 15)])
    ]);
    ("RJ", list_to_map [
      ("Rio de Janeiro", row [("Rio de Janeiro", 0); ("Niterói", 15); ("São Gonçalo", 25); ("Duque de Caxias", 20); ("Nova Iguaçu", 35)]);
      ("Niterói", row [("Rio de Janeiro", 15); ("Niterói", 0); ("São Gonçalo", 18); ("Maricá", 30)]);
      ("São Gonçalo", row [("Rio de Janeiro", 25); ("Niterói", 18); ("São Gonçalo", 0); ("Itaboraí", 20)])
    ]);
    ("MG", list_to_map [
      ("Belo Horizonte", row [("Belo Horizonte", 0); ("Contagem", 15); ("Betim", 20); ("Ribeirão das Neves", 25); ("Sabará", 18)]);
      ("Contagem", row [("Belo Horizonte", 15); ("Contagem", 0); ("Betim", 12); ("Ribeirão das Neves", 20)]);
      ("Betim", row [("Belo Horizonte", 20); ("Contagem", 12); ("Betim", 0)])
    ]);
    ("PR", list_to_map [
      ("Curitiba", row [("Curitiba", 0); ("São José dos Pinhais", 12); ("Pinhais", 10); ("Colombo", 15); ("Araucária", 20)]);
      ("São José dos Pinhais", row [("Curitiba", 12); ("São José dos Pinhais", 0); ("Pinhais", 8)]);
      ("Pinhais", row [("Curitiba", 10); ("São José dos Pinhais", 8); ("Pinhais", 0)])
    ]);
    ("RS", list_to_map [
      ("Porto Alegre", row [("Porto Alegre", 0); ("Canoas", 15); ("Novo Hamburgo", 35); ("São Leopoldo", 30); ("Gravataí", 20)]);
      ("Canoas", row [("Porto Alegre", 15); ("Canoas", 0); ("Novo Hamburgo", 25)]);
      ("Novo Hamburgo", row [("Porto Alegre", 35); ("Canoas", 25); ("Novo Hamburgo", 0)])
    ]);
    ("BA", list_to_map [
      ("Salvador", row [("Salvador", 0); ("Lauro de Freitas", 20); ("Camaçari", 35); ("Simões Filho", 25)]);
      ("Lauro de Freitas", row [("Salvador", 20); ("Lauro de Freitas", 0); ("Camaçari", 25)]);
      ("Camaçari", row [("Salvador", 35); ("Lauro de Freitas", 25); ("Camaçari", 0)])
    ]);
    ("PE", list_to_map [
      ("Recife", row [("Recife", 0); ("Olinda", 8); ("Jaboatão dos Guararapes", 15); ("Paulista", 12); ("Camaragibe", 10)]);
      ("Olinda", row [("Recife", 8); ("Olinda", 0); ("Paulista", 10)]);
      ("Jaboatão dos Guararapes", row [("Recife", 15); ("Jaboatão dos Guararapes", 0); ("Camaragibe", 12)])
    ]);
    ("CE", list_to_map [
      ("Fortaleza", row [("Fortaleza", 0); ("Caucaia", 18); ("Maracanaú", 15); ("Eusébio", 20)]);
      ("Caucaia", row [("Fortaleza", 18); ("Caucaia", 0); ("Maracanaú", 12)]);
      ("Maracanaú", row [("Fortaleza", 15); ("Caucaia", 12); ("Maracanaú", 0)])
    ]);
    ("DF", list_to_map [
      ("Brasília", row [("Brasília", 0); ("Taguatinga", 25); ("Ceilândia", 30); ("Planaltina", 45); ("Gama", 35)])
    ])
  ].

(** ** Operations *)

(** [origem.split(',')[i]]. *)
Definition parts (s : string) : list string := split_on "," s.

(** [estimarDistanciaSimples]. *)
Definition estimarDistanciaSimples (origem destino : string) : Q :=
  let origemParts := parts origem in
  let destinoParts := parts destino in
  if (length origemParts <? 2)%nat || (length destinoParts <? 2)%nat then 500
  else
    let origemEstado := trim <$> nth_part origemParts 1 in
    let destinoEstado := trim <$> nth_part destinoParts 1 in
    if bool_decide (origemEstado ≠ destinoEstado) then 800
    else 300.

(** [estimarDistanciaPorCoordenadas]. *)
Definition estimarDistanciaPorCoordenadas (origem destino : string) : Q :=
  let origemCidade := trim (default "" (nth_part (parts origem) 0)) in
  let destinoCidade := trim (default "" (nth_part (parts destino) 0)) in
  match distancias !! origemCidade ≫= (.!! destinoCidade) with
  | Some d => if truthy_num d then d else estimarDistanciaSimples origem destino
  | None => estimarDistanciaSimples origem destino
  end.

(** The template literal [`${cidade}, ${estado}, ${pais}`]. *)
Definition local (cidade estado pais : string) : string :=
  cidade ++ ", " ++ estado ++ ", " ++ pais.

(** [calcularDistancia]. *)
Definition calcularDistancia
    (origemCidade origemEstado origemPais
     destinoCidade destinoEstado destinoPais : string) : Q :=
  let origem := local origemCidade origemEstado origemPais in
  let destino := local destinoCidade destinoEstado destinoPais in
  if bool_decide (origemPais ≠ destinoPais) then 5000
  else estimarDistanciaPorCoordenadas origem destino.

(** [obterCoordenadas]: the mock of the source, a constant. *)
Definition obterCoordenadas (local : string) : Q * Q := (-23.5505, -46.6333).

(** [obterCodigoEstado]. *)
Definition obterCodigoEstado (sigla : string) : option string :=
  match estados !! sigla with
  | Some codigo => if truthy_str codigo then Some codigo else None
  | None => None
  end.

(** The URL of the ViaCEP request. *)
Definition viacep_url (cepLimpo : string) : string :=
  "https://viacep.com.br/ws/" ++ cepLimpo ++ "/json/".

(** [buscarCEP]: [null] is [None]. *)
Definition buscarCEP (http : http_client) (cep : string) : option EnderecoCEP :=
  let cepLimpo := only_digits cep in
  if bool_decide (String.length cepLimpo ≠ 8%nat) then None
  else
    match http (viacep_url cepLimpo) with
    | HttpOk endereco =>
        match erro endereco with
        | Some true => None
        | _ => Some endereco
        end
    | HttpError => None
    end.

(** [obterDistanciasRegiaoMetropolitana]. *)
Definition obterDistanciasRegiaoMetropolitana
    (cidadeOrigem estadoOrigem cidadeDestino estadoDestino : string) : Q :=
  match regioesMetropolitanas !! estadoOrigem with
  | None => 0
  | Some regiao =>
      match regiao !! cidadeOrigem with
      | None => 0
      | Some cidadesOrigem =>
          match cidadesOrigem !! cidadeDestino with
          | Some distancia => distancia
          | None => 0
          end
      end
  end.

(** The function [calcularDistanciaCEP] maps over the address. *)
Definition distanciaDoEndereco
    (endereco : option EnderecoCEP) (destinoCidade destinoEstado : string) : Q :=
  match endereco with
  | None => 0
  | Some endereco =>
      let cidadeOrigem := localidade endereco in
      let estadoOrigem := uf endereco in
      if bool_decide (estadoOrigem ≠ destinoEstado) then 0
      else if bool_decide (toLowerCase cidadeOrigem = toLowerCase destinoCidade) then 10
      else
        let distanciasRegioesMetropolitanas :=
          obterDistanciasRegiaoMetropolitana
            cidadeOrigem estadoOrigem destinoCidade destinoEstado in
        if num_gt distanciasRegioesMetropolitanas 0 then distanciasRegioesMetropolitanas
        else 80
  end.

(** [calcularDistanciaCEP]. *)
Definition calcularDistanciaCEP
    (http : http_client) (cep destinoCidade destinoEstado : string) : Q :=
  distanciaDoEndereco (buscarCEP http cep) destinoCidade destinoEstado.

(** ** The tables *)

Lemma distancias_range :
  map_Forall (fun _ r => map_Forall (fun _ d => 430 <= d <= 1200) r) distancias.
Proof. unfold distancias. table_forall ltac:(unfold row; try (split; by vm_compute)). Qed.

(** Every entry of [distancias] has its mirror entry, with the same
    distance, unless it leads to Belo Horizonte: that city is a column of
    the table and has no row. *)
Lemma distancias_espelho :
  map_Forall (fun a r => map_Forall (fun b d =>
    b = "Belo Horizonte" \/ distancias !! b ≫= (.!! a) = Some d) r) distancias.
Proof.
  unfold distancias at 1.
  table_forall ltac:(unfold row; try first [by left|right; by vm_compute]).
Qed.

Lemma regioesMetropolitanas_range :
  map_Forall (fun _ regiao =>
    map_Forall (fun _ r => map_Forall (fun _ d => 0 <= d <= 100) r) regiao)
    regioesMetropolitanas.
Proof. unfold regioesMetropolitanas. table_forall ltac:(unfold row; try (split; by vm_compute)). Qed.

(** ** The city cascade: [calcularDistancia] *)

Section CityCascade.
Implicit Types (oc oe op dc de dp c e p : string).

Lemma local_unfold c e p :
  local c e p = c ++ String "," (String " " e ++ String "," (String " " p)).
Proof. reflexivity. Qed.

(** A location string always has three parts or more. *)
Lemma parts_local_length c e p : (3 <= length (parts (local c e p)))%nat.
Proof.
  rewrite local_unfold. unfold parts.
  pose proof (split_on_length_app "," c (String " " e ++ String "," (String " " p))).
  pose proof (split_on_length_app "," (String " " e) (String " " p)).
  pose proof (split_on_nonempty "," (String " " p)).
  destruct (split_on "," (String " " p)); simpl in *; [done|lia].
Qed.

Lemma parts_local_nocomma c e p :
  includes_char "," c = false -> includes_char "," e = false ->
  exists rest, parts (local c e p) = c :: String " " e :: rest.
Proof.
  intros Hc He. rewrite local_unfold. unfold parts.
  rewrite split_on_app by done.
  rewrite (split_on_app "," (String " " e)) by (simpl; done). eauto.
Qed.

Lemma estimarDistanciaSimples_local_cases oc oe op dc de dp :
  estimarDistanciaSimples (local oc oe op) (local dc de dp) = 300 \/
  estimarDistanciaSimples (local oc oe op) (local dc de dp) = 800.
Proof.
  unfold estimarDistanciaSimples.
  pose proof (parts_local_length oc oe op) as Ho.
  pose proof (parts_local_length dc de dp) as Hd.
  destruct (Nat.ltb_spec (length (parts (local oc oe op))) 2); [lia|].
  destruct (Nat.ltb_spec (length (parts (local dc de dp))) 2); [lia|].
  simpl. case_bool_decide; auto.
Qed.

Lemma estimarDistanciaSimples_nocomma oc oe op dc de dp :
  includes_char "," oc = false -> includes_char "," oe = false ->
  includes_char "," dc = false -> includes_char "," de = false ->
  estimarDistanciaSimples (local oc oe op) (local dc de dp) =
    if bool_decide (trim oe = trim de) then 300 else 800.
Proof.
  intros Hoc Hoe Hdc Hde. unfold estimarDistanciaSimples.
  destruct (parts_local_nocomma oc oe op Hoc Hoe) as [ro ->].
  destruct (parts_local_nocomma dc de dp Hdc Hde) as [rd ->].
  cbn [length Nat.ltb Nat.leb orb nth_part lookup list_lookup fmap option_fmap option_map].
  rewrite !trim_space. repeat case_bool_decide; congruence.
Qed.

Lemma estimarDistanciaPorCoordenadas_range origem destino :
  estimarDistanciaSimples origem destino <= 1200 ->
  300 <= estimarDistanciaSimples origem destino ->
  300 <= estimarDistanciaPorCoordenadas origem destino <= 1200.
Proof.
  intros Hs1 Hs2. unfold estimarDistanciaPorCoordenadas.
  set (a := trim (default "" (nth_part (parts origem) 0))).
  set (b := trim (default "" (nth_part (parts destino) 0))).
  destruct (distancias !! a ≫= (.!! b)) as [d|] eqn:E; [|by split].
  apply bind_Some in E as (r & Er & Ed).
  destruct (distancias_range a r Er b d Ed).
  destruct (truthy_num d); [lra|by split].
Qed.

Lemma estimarDistanciaPorCoordenadas_nocomma oc oe op dc de dp :
  includes_char "," oc = false -> includes_char "," oe = false ->
  includes_char "," dc = false -> includes_char "," de = false ->
  estimarDistanciaPorCoordenadas (local oc oe op) (local dc de dp) =
    match distancias !! trim oc ≫= (.!! trim dc) with
    | Some d => d
    | None => if bool_decide (trim oe = trim de) then 300 else 800
    end.
Proof.
  intros Hoc Hoe Hdc Hde. unfold estimarDistanciaPorCoordenadas.
  rewrite estimarDistanciaSimples_nocomma by done.
  destruct (parts_local_nocomma oc oe op Hoc Hoe) as [ro ->].
  destruct (parts_local_nocomma dc de dp Hdc Hde) as [rd ->].
  cbn [nth_part lookup list_lookup default from_option id].
  destruct (distancias !! trim oc ≫= (.!! trim dc)) as [d|] eqn:E; [|done].
  apply bind_Some in E as (r & Er & Ed).
  destruct (distancias_range _ r Er _ d Ed).
  destruct (truthy_num d) eqn:Et; [done|].
  apply not_true_iff_false in Et. rewrite truthy_num_true in Et.
  exfalso. apply Et. intros E0. rewrite E0 in *. lra.
Qed.

End CityCascade.

Section CalcularDistancia.
Implicit Types (oc oe op dc de dp : string).

(** Two different countries give the fixed
    international estimate of 5000 km, whatever the cities and states. *)
Theorem calcularDistancia_internacional oc oe op dc de dp :
  op <> dp -> calcularDistancia oc oe op dc de dp = 5000.
Proof. intros H. unfold calcularDistancia. by rewrite bool_decide_true. Qed.

Lemma calcularDistancia_internacional_witness :
  calcularDistancia "Lisboa" "LX" "Portugal" "Vitória" "ES" "Brasil" = 5000.
Proof. by apply calcularDistancia_internacional. Defined.

(** [C25] Inside one country, for city and state names without a
    comma, the distance is the entry of the table [distancias] for the
    trimmed city names when there is one, and otherwise 300 km when the
    trimmed states are equal and 800 km when they differ. *)
Theorem calcularDistancia_nacional oc oe dc de p :
  includes_char "," oc = false -> includes_char "," oe = false ->
  includes_char "," dc = false -> includes_char "," de = false ->
  calcularDistancia oc oe p dc de p =
    match distancias !! trim oc ≫= (.!! trim dc) with
    | Some d => d
    | None => if bool_decide (trim oe = trim de) then 300 else 800
    end.
Proof.
  intros. unfold calcularDistancia. rewrite bool_decide_false by naive_solver.
  by apply estimarDistanciaPorCoordenadas_nocomma.
Qed.

Lemma calcularDistancia_nacional_witness :
  calcularDistancia "São Paulo" "SP" "Brasil" "Salvador" "BA" "Brasil" = 1200.
Proof. by rewrite calcularDistancia_nacional. Defined.

(** [C33] The fallback 500 of [estimarDistanciaSimples] is dead
    code for the strings [calcularDistancia] builds: a location string
    always has two commas, so the estimate is 300 or 800. *)
Theorem estimarDistanciaSimples_never_500 oc oe op dc de dp :
  estimarDistanciaSimples (local oc oe op) (local dc de dp) <> 500.
Proof.
  destruct (estimarDistanciaSimples_local_cases oc oe op dc de dp) as [-> | ->];
    discriminate.
Qed.

(** Every distance the city cascade returns lies between 300 and 5000 km. *)
Lemma calcularDistancia_bounds oc oe op dc de dp :
  300 <= calcularDistancia oc oe op dc de dp <= 5000.
Proof.
  unfold calcularDistancia. case_bool_decide; [lra|].
  assert (300 <= estimarDistanciaPorCoordenadas (local oc oe op) (local dc de dp) <= 1200)
    as [??]; [|split; lra].
  apply estimarDistanciaPorCoordenadas_range;
    destruct (estimarDistanciaSimples_local_cases oc oe op dc de dp) as [-> | ->];
    lra.
Qed.

(** Between cities other than Belo Horizonte the lookup in [distancias]
    gives the same in both directions. *)
Lemma distancias_simetrica (a b : string) :
  a <> "Belo Horizonte" -> b <> "Belo Horizonte" ->
  distancias !! a ≫= (.!! b) = distancias !! b ≫= (.!! a).
Proof.
  assert (forall a b d, a <> "Belo Horizonte" -> b <> "Belo Horizonte" ->
            distancias !! a ≫= (.!! b) = Some d ->
            distancias !! b ≫= (.!! a) = Some d) as H.
  { intros a' b' d _ Hb (r & Er & Ed)%bind_Some.
    by destruct (distancias_espelho a' r Er b' d Ed). }
  intros Ha Hb.
  destruct (distancias !! a ≫= (.!! b)) as [d|] eqn:E1.
  - symmetry. by apply H.
  - destruct (distancias !! b ≫= (.!! a)) as [d|] eqn:E2; [|done].
    apply H in E2; [congruence|done..].
Qed.

(** [C37] Symmetry: for city and state names without a comma, the distance
    of a journey is the distance of the journey back, whatever the
    countries, unless one of the two cities is Belo Horizonte. *)
Theorem calcularDistancia_simetrica oc oe op dc de dp :
  includes_char "," oc = false -> includes_char "," oe = false ->
  includes_char "," dc = false -> includes_char "," de = false ->
  trim oc <> "Belo Horizonte" -> trim dc <> "Belo Horizonte" ->
  calcularDistancia oc oe op dc de dp = calcularDistancia dc de dp oc oe op.
Proof.
  intros Hoc Hoe Hdc Hde Ho Hd. unfold calcularDistancia.
  rewrite (bool_decide_ext (dp ≠ op) (op ≠ dp)) by naive_solver.
  case_bool_decide; [done|].
  rewrite !estimarDistanciaPorCoordenadas_nocomma by done.
  rewrite (distancias_simetrica _ _ Ho Hd).
  by rewrite (bool_decide_ext (trim de = trim oe) (trim oe = trim de)) by naive_solver.
Qed.

(** The exception: there is a row from São Paulo to Belo Horizonte but no
    row for Belo Horizonte, so the two directions of that journey get
    different distances. *)
Example calcularDistancia_assimetrica :
  calcularDistancia "São Paulo" "SP" "Brasil" "Belo Horizonte" "MG" "Brasil" = 586 /\
  calcularDistancia "Belo Horizonte" "MG" "Brasil" "São Paulo" "SP" "Brasil" = 800.
Proof. split; by vm_compute. Qed.

(** A comma inside a city name shifts the parts of the
    location string: the state is then read from the city name, and two
    cities of one state are estimated as if they were in different states. *)
Theorem calcularDistancia_virgula :
  calcularDistancia "Campinas" "SP" "Brasil" "Santos" "SP" "Brasil" = 300 /\
  calcularDistancia "Campinas, Centro" "SP" "Brasil" "Santos" "SP" "Brasil" = 800.
Proof. split; by vm_compute. Qed.

End CalcularDistancia.

(** ** The postal-code cascade: [buscarCEP] and [calcularDistanciaCEP] *)

Section CepCascade.
Context (http : http_client).
Implicit Types (cep dc de : string) (e : EnderecoCEP).

(** [C24] [buscarCEP] yields an address exactly when the postal
    code has eight digits, the request succeeds and the reply does not carry
    the error flag; in every other case it yields [null]. *)
Theorem buscarCEP_Some_iff cep e :
  buscarCEP http cep = Some e <->
    String.length (only_digits cep) = 8%nat /\
    http (viacep_url (only_digits cep)) = HttpOk e /\
    erro e <> Some true.
Proof.
  unfold buscarCEP. case_bool_decide as Hlen.
  { split; [done|]. by intros [? _]. }
  destruct (http _) as [e'|]; [|split; [done|by intros (_ & ? & _)]].
  destruct (erro e') as [[]|] eqn:Ee; (split; [intros [= <-]|intros (_ & [= <-] & ?)]);
    try done; by rewrite ?Ee.
Qed.

Lemma buscarCEP_invalido cep :
  String.length (only_digits cep) <> 8%nat -> buscarCEP http cep = None.
Proof. intros H. unfold buscarCEP. by rewrite bool_decide_true. Qed.

Lemma obterDistanciasRegiaoMetropolitana_range co eo cd ed :
  0 <= obterDistanciasRegiaoMetropolitana co eo cd ed <= 100.
Proof.
  unfold obterDistanciasRegiaoMetropolitana.
  destruct (regioesMetropolitanas !! eo) as [regiao|] eqn:E1; [|lra].
  destruct (regiao !! co) as [r|] eqn:E2; [|lra].
  destruct (r !! cd) as [d|] eqn:E3; [|lra].
  exact (regioesMetropolitanas_range _ _ E1 _ _ E2 _ _ E3).
Qed.

Lemma distanciaDoEndereco_range o dc de : 0 <= distanciaDoEndereco o dc de <= 100.
Proof.
  unfold distanciaDoEndereco. destruct o as [e|]; [|lra].
  repeat case_bool_decide; try lra.
  pose proof (obterDistanciasRegiaoMetropolitana_range (localidade e) (uf e) dc de).
  case_num_gt; [done|lra].
Qed.

(** With an address of the destination's state the distance is positive. *)
Lemma distanciaDoEndereco_pos e dc de :
  uf e = de -> 0 < distanciaDoEndereco (Some e) dc de.
Proof.
  intros <-. unfold distanciaDoEndereco. rewrite bool_decide_false by naive_solver.
  case_bool_decide; [lra|]. case_num_gt; [done|lra].
Qed.

(** The three branches for an address in the destination's state. *)
Lemma distanciaDoEndereco_cases e dc de :
  uf e = de ->
  distanciaDoEndereco (Some e) dc de =
    if bool_decide (toLowerCase (localidade e) = toLowerCase dc) then 10
    else if num_gt (obterDistanciasRegiaoMetropolitana (localidade e) (uf e) dc de) 0
    then obterDistanciasRegiaoMetropolitana (localidade e) (uf e) dc de
    else 80.
Proof.
  intros Hu. unfold distanciaDoEndereco. by rewrite bool_decide_false by naive_solver.
Qed.

Lemma distanciaDoEndereco_outro_estado e dc de :
  uf e <> de -> distanciaDoEndereco (Some e) dc de = 0.
Proof. intros Hu. unfold distanciaDoEndereco. by rewrite bool_decide_true. Qed.

(** The result depends on the client through the reply to one URL only. *)
Lemma buscarCEP_ext (http1 http2 : http_client) cep :
  http1 (viacep_url (only_digits cep)) = http2 (viacep_url (only_digits cep)) ->
  buscarCEP http1 cep = buscarCEP http2 cep.
Proof. intros E. unfold buscarCEP. by rewrite E. Qed.

Lemma buscarCEP_falha cep :
  http (viacep_url (only_digits cep)) = HttpError -> buscarCEP http cep = None.
Proof. intros E. unfold buscarCEP. rewrite E. by case_bool_decide. Qed.

(** [C23] The postal-code cascade returns a distance between 0
    and 100 km whatever the reply of ViaCEP, and 0 exactly when there is no
    address (bad code, failed request, error flag) or the address is in
    another state than the destination. *)
Theorem calcularDistanciaCEP_range cep dc de :
  0 <= calcularDistanciaCEP http cep dc de <= 100 /\
  (calcularDistanciaCEP http cep dc de == 0 <->
     match buscarCEP http cep with
     | None => True
     | Some e => uf e <> de
     end).
Proof.
  split; [apply distanciaDoEndereco_range|].
  unfold calcularDistanciaCEP. destruct (buscarCEP http cep) as [e|]; [|done].
  split.
  - intros H0 Hde. pose proof (distanciaDoEndereco_pos e dc de Hde). lra.
  - intros Hne. by rewrite distanciaDoEndereco_outro_estado.
Qed.

(** An address in the destination's state whose city is
    the destination city, letter case aside, is 10 km away, whatever the
    metropolitan table holds. *)
Theorem calcularDistanciaCEP_mesma_cidade cep dc de e :
  buscarCEP http cep = Some e -> uf e = de ->
  toLowerCase (localidade e) = toLowerCase dc ->
  calcularDistanciaCEP http cep dc de = 10.
Proof.
  intros Hb Hu Hl. unfold calcularDistanciaCEP.
  by rewrite Hb, distanciaDoEndereco_cases, bool_decide_true.
Qed.

(** An address in the destination's state, in another
    city, is as far as the metropolitan table says when it has a positive
    entry for the two cities, and 80 km away otherwise. *)
Theorem calcularDistanciaCEP_padrao cep dc de e :
  buscarCEP http cep = Some e -> uf e = de ->
  toLowerCase (localidade e) <> toLowerCase dc ->
  let tabela := obterDistanciasRegiaoMetropolitana (localidade e) (uf e) dc de in
  (0 < tabela -> calcularDistanciaCEP http cep dc de = tabela) /\
  (tabela <= 0 -> calcularDistanciaCEP http cep dc de = 80).
Proof.
  intros Hb Hu Hl. cbv zeta. unfold calcularDistanciaCEP.
  rewrite Hb, distanciaDoEndereco_cases, bool_decide_false by done.
  split; intros Ht; case_num_gt; (done || lra).
Qed.

Lemma calcularDistanciaCEP_sem_resposta cep dc de :
  http (viacep_url (only_digits cep)) = HttpError ->
  calcularDistanciaCEP http cep dc de = 0.
Proof. intros E. unfold calcularDistanciaCEP. by rewrite buscarCEP_falha. Qed.

(** A request that fails, a reply that carries the error
    flag and a postal code that does not have eight digits all give the
    distance 0: errors are caught and nothing is raised. *)
Theorem calcularDistanciaCEP_falha cep dc de e :
  http (viacep_url (only_digits cep)) = HttpError \/
  (http (viacep_url (only_digits cep)) = HttpOk e /\ erro e = Some true) \/
  String.length (only_digits cep) <> 8%nat ->
  calcularDistanciaCEP http cep dc de = 0.
Proof.
  intros [E|[[E1 E2]|E]].
  - by apply calcularDistanciaCEP_sem_resposta.
  - unfold calcularDistanciaCEP, buscarCEP. rewrite E1, E2. by case_bool_decide.
  - unfold calcularDistanciaCEP. by rewrite buscarCEP_invalido.
Qed.

End CepCascade.

(** Witnesses of the postal-code cascade, with ViaCEP answering Vila Velha,
    ES, to every request. *)
Definition enderecoVilaVelha : EnderecoCEP :=
  mkEnderecoCEP "29100-000" "" "" "Centro" "Vila Velha" "ES" None.

Definition viacepVilaVelha : http_client := fun _ => HttpOk enderecoVilaVelha.

Lemma buscarCEP_Some_iff_witness :
  buscarCEP viacepVilaVelha "29100-000" = Some enderecoVilaVelha.
Proof. by apply buscarCEP_Some_iff. Defined.

Lemma calcularDistanciaCEP_mesma_cidade_witness :
  calcularDistanciaCEP viacepVilaVelha "29100-000" "VILA VELHA" "ES" = 10.
Proof. by apply (calcularDistanciaCEP_mesma_cidade _ _ _ _ enderecoVilaVelha). Defined.

Lemma calcularDistanciaCEP_padrao_witness :
  calcularDistanciaCEP viacepVilaVelha "29100-000" "Vitória" "ES" = 15 /\
  calcularDistanciaCEP viacepVilaVelha "29100-000" "Linhares" "ES" = 80.
Proof.
  split.
  - by apply (calcularDistanciaCEP_padrao _ "29100-000" "Vitória" "ES" enderecoVilaVelha).
  - by apply (calcularDistanciaCEP_padrao _ "29100-000" "Linhares" "ES" enderecoVilaVelha).
Defined.

Lemma calcularDistanciaCEP_falha_witness :
  calcularDistanciaCEP (fun _ => HttpError) "29100-000" "Vitória" "ES" = 0.
Proof. apply (calcularDistanciaCEP_falha _ _ _ _ enderecoVilaVelha). by left. Defined.

Lemma calcularDistancia_simetrica_witness :
  calcularDistancia "Salvador" "BA" "Brasil" " Brasília" "DF" "Brasil"
    = calcularDistancia " Brasília" "DF" "Brasil" "Salvador" "BA" "Brasil".
Proof. by apply calcularDistancia_simetrica. Defined.
