(* ===== verification/Cidades.v ===== *)
(** * Cidades: the city search of [GeocodingService]

    [buscarCidadesPorEstado] and [buscarTodasCidades] ask the IBGE service
    for the municipalities of a state, or of the country, and turn the reply
    into the [Cidade] records of the autocomplete.  The reply is supplied by
    the environment; of each municipality the model keeps the three
    properties the code reads. *)

From stdpp Require Import pretty.
From S2P Require Import Prelude JsString Geocoding.

Local Open Scope string_scope.

(** [interface Cidade]. *)
Record Cidade := mkCidade {
  cid_nome : string;
  cid_estado : string;
  cid_codigo : option string
}.

(** An element of the reply: [m.nome], [m.id] and
    [m.microrregiao.mesorregiao.UF.sigla]. *)
Record Municipio := mkMunicipio {
  m_nome : string;
  m_id : N;
  m_sigla : string
}.

Definition ibge_client : Type := string -> http_response (list Municipio).

Definition ibgeApiUrl : string := "https://servicodados.ibge.gov.br/api/v1/localidades".

Definition buscarCidadesPorEstado (http : ibge_client) (estado : string) : list Cidade :=
  if negb (truthy_str estado) then []
  else
    match obterCodigoEstado estado with
    | None => []
    | Some estadoCodigo =>
        match http (ibgeApiUrl ++ "/estados/" ++ estadoCodigo ++ "/municipios") with
        | HttpOk municipios =>
            (fun m => mkCidade (m_nome m) estado (Some (pretty (m_id m)))) <$> municipios
        | HttpError => []
        end
    end.

Definition buscarTodasCidades (http : ibge_client) : list Cidade :=
  match http (ibgeApiUrl ++ "/municipios") with
  | HttpOk municipios =>
      (fun m => mkCidade (m_nome m) (m_sigla m) (Some (pretty (m_id m)))) <$> municipios
  | HttpError => []
  end.

(** ** Facts *)

Section Cidades.
Context (http : ibge_client).
Implicit Types (estado : string) (c : Cidade).

(** Every city [buscarCidadesPorEstado] returns carries the state
    that was asked for, and that state is one of the table [estados]. *)
Theorem buscarCidadesPorEstado_estado estado c :
  c ∈ buscarCidadesPorEstado http estado ->
  cid_estado c = estado /\ is_Some (estados !! estado).
Proof.
  unfold buscarCidadesPorEstado, obterCodigoEstado.
  generalize (estados !! estado). intros o.
  destruct (truthy_str estado); cbn [negb]; [|by intros ?%elem_of_nil].
  destruct o as [cod|]; [|by intros ?%elem_of_nil].
  destruct (truthy_str cod); [|by intros ?%elem_of_nil].
  destruct (http _) as [ms|]; [|by intros ?%elem_of_nil].
  intros (m & -> & _)%list_elem_of_fmap. by split.
Qed.

(** For a state that is not in the table no request is made and
    the list is empty; a failed request gives the empty list too. *)
Theorem buscarCidadesPorEstado_vazio estado :
  estados !! estado = None \/ (forall u, http u = HttpError) ->
  buscarCidadesPorEstado http estado = [].
Proof.
  unfold buscarCidadesPorEstado, obterCodigoEstado.
  generalize (estados !! estado). intros o.
  intros [H|H]; destruct (truthy_str estado); cbn [negb]; try done.
  - by rewrite H.
  - destruct o as [cod|]; [|done].
    destruct (truthy_str cod); [|done]. by rewrite H.
Qed.

(** The reply is translated municipality by municipality, in
    order. *)
Theorem buscarTodasCidades_resposta ms :
  http (ibgeApiUrl ++ "/municipios") = HttpOk ms ->
  cid_nome <$> buscarTodasCidades http = m_nome <$> ms /\
  cid_estado <$> buscarTodasCidades http = m_sigla <$> ms.
Proof.
  unfold buscarTodasCidades. intros ->.
  rewrite <- !list_fmap_compose. split; by apply list_fmap_ext.
Qed.

End Cidades.

Definition ibgeExemplo : ibge_client :=
  fun _ => HttpOk [mkMunicipio "Vitória" 3205309 "ES"; mkMunicipio "Vila Velha" 3205200 "ES"].

Lemma buscarCidadesPorEstado_estado_witness :
  cid_estado (mkCidade "Vitória" "ES" (Some "3205309")) = "ES" /\ is_Some (estados !! "ES").
Proof.
  apply (buscarCidadesPorEstado_estado ibgeExemplo).
  vm_compute. apply list_elem_of_here.
Defined.

Lemma buscarCidadesPorEstado_vazio_witness :
  buscarCidadesPorEstado ibgeExemplo "XX" = [].
Proof. apply buscarCidadesPorEstado_vazio. left. reflexivity. Defined.

Lemma buscarTodasCidades_resposta_witness :
  cid_nome <$> buscarTodasCidades ibgeExemplo = ["Vitória"; "Vila Velha"] /\
  cid_estado <$> buscarTodasCidades ibgeExemplo = ["ES"; "ES"].
Proof.
  by apply (buscarTodasCidades_resposta ibgeExemplo
    [mkMunicipio "Vitória" 3205309 "ES"; mkMunicipio "Vila Velha" 3205200 "ES"]).
Defined.
