(* ===== verification/Calculator.v ===== *)
(** * Calculator: [CarbonCalculatorService] of [carbon-calculator.service.ts]

    The records of the service, the table of emission factors and the
    computation of a trip's footprint.  The service receives the geocoding
    service by injection; here it is the class [Geocoder], whose operations
    are the two methods the calculator calls.  The argument [req] of
    [geo_calcularDistanciaCEP] names the HTTP request the call issues: the
    calculator passes the index of the leg, so that each leg has a reply of
    its own.  [GeocoderLaws] is what the calculator's theorems need of a
    geocoder: distances are not negative. *)

From stdpp Require Import gmap.
From S2P Require Import Prelude JsString.

Local Open Scope string_scope.
Local Open Scope Q_scope.

(** ** Data *)

(** [interface TrechoViagem]: an optional field is an [option]. *)
Record TrechoViagem := mkTrecho {
  meioTransporte : string;
  distanciaKm : option Q;
  origemCidade : option string;
  origemEstado : option string;
  destinoCidade : option string;
  destinoEstado : option string;
  cepOrigem : option string;
  tipoCombustivel : option string;
  numeroPassageiros : option Q;
  classeVoo : option string;
  consumoMedio : option Q
}.

(** [interface ViagemData]. *)
Record ViagemData := mkViagem {
  v_nome : string;
  v_email : string;
  v_cpf : string;
  v_telefone : string;
  v_destinoCidade : string;
  v_destinoEstado : string;
  v_destinoPais : string;
  v_trechos : list TrechoViagem;
  v_dataViagem : string;
  v_dataRetorno : option string;
  v_idaEVolta : bool;
  v_observacoes : option string
}.

(** An element of [CalculoResultado.trechos]. *)
Record ResultadoTrecho := mkResultadoTrecho {
  trecho : TrechoViagem;
  distancia : Q;
  emissao : Q
}.

(** [interface CalculoResultado]. *)
Record CalculoResultado := mkResultado {
  emissaoCO2 : Q;
  creditosCarbono : Q;
  equivalenteArvores : Q;
  equivalenteKmCarro : Q;
  distanciaTotal : Q;
  trechos : list ResultadoTrecho
}.

(** [interface EventoConfig]. *)
Record EventoConfig := mkEvento {
  ev_cidade : string;
  ev_estado : string;
  ev_pais : string;
  ev_cep : option string;
  ev_nomeEvento : option string;
  ev_dataInicio : option string;
  ev_dataFim : option string
}.

(** The table [fatoresEmissao], in kg of CO2 per passenger and kilometre. *)
Definition fatoresEmissao : gmap string Q :=
  list_to_map [
    ("aviao-economica", 0.255);
    ("aviao-executiva", 0.510);
    ("aviao-primeira", 0.765);
    ("carro-gasolina", 0.192);
    ("carro-etanol", 0.115);
    ("carro-diesel", 0.171);
    ("carro-eletrico", 0.053);
    ("carro-hibrido", 0.120);
    ("onibus", 0.089);
    ("trem", 0.041);
    ("metro", 0.027);
    ("motocicleta", 0.113);
    ("navio", 0.019)
  ].

(** ** The geocoding service the calculator is given *)

Class Geocoder := {
  geo_calcularDistanciaCEP (req : nat) (cep destinoCidade destinoEstado : string) : Q;
  geo_calcularDistancia
    (origemCidade origemEstado origemPais
     destinoCidade destinoEstado destinoPais : string) : Q
}.

Class GeocoderLaws (G : Geocoder) : Prop := {
  geo_cep_nonneg req cep dc de : 0 <= geo_calcularDistanciaCEP req cep dc de;
  geo_dist_nonneg oc oe op dc de dp : 0 <= geo_calcularDistancia oc oe op dc de dp
}.

(** ** Operations *)

(** [obterFatorEmissaoTrecho]. *)
Definition obterFatorEmissaoTrecho (trecho : TrechoViagem) : Q :=
  let transporte := meioTransporte trecho in
  if bool_decide (transporte = "aviao") then
    let classe := str_or (classeVoo trecho) "economica" in
    num_or (fatoresEmissao !! ("aviao-" ++ classe))
           (default 0 (fatoresEmissao !! "aviao-economica"))
  else if bool_decide (transporte = "carro") then
    let combustivel := str_or (tipoCombustivel trecho) "gasolina" in
    num_or (fatoresEmissao !! ("carro-" ++ combustivel))
           (default 0 (fatoresEmissao !! "carro-gasolina"))
  else num_or (fatoresEmissao !! transporte) 0.1.

(** [calcularEmissaoTrecho]. *)
Definition calcularEmissaoTrecho (trecho : TrechoViagem) (distancia : Q) : Q :=
  let fatorEmissao := obterFatorEmissaoTrecho trecho in
  if bool_decide (meioTransporte trecho = "carro")
     && num_pos (numeroPassageiros trecho)
  then (fatorEmissao * distancia) / default 0 (numeroPassageiros trecho)
  else fatorEmissao * distancia.

(** The loop and the roundings of [processarCalculoMultiploTrechos]. The two
    accumulators of the [forEach] are two folds. *)
Definition emissaoBruta (viagem : ViagemData) (resultadosTrechos : list ResultadoTrecho) : Q :=
  let emissaoCO2Total := foldl (fun acc resultado => acc + emissao resultado) 0 resultadosTrechos in
  if v_idaEVolta viagem then emissaoCO2Total * 2 else emissaoCO2Total.

Definition distanciaBruta (viagem : ViagemData) (resultadosTrechos : list ResultadoTrecho) : Q :=
  let distanciaTotal := foldl (fun acc resultado => acc + distancia resultado) 0 resultadosTrechos in
  if v_idaEVolta viagem then distanciaTotal * 2 else distanciaTotal.

(** [processarCalculoMultiploTrechos]. *)
Definition processarCalculoMultiploTrechos
    (viagem : ViagemData) (resultadosTrechos : list ResultadoTrecho) : CalculoResultado :=
  let emissaoCO2Total := emissaoBruta viagem resultadosTrechos in
  let distanciaTotal := distanciaBruta viagem resultadosTrechos in
  let creditosCarbono := emissaoCO2Total / 1000 in
  let equivalenteArvores := Math_ceil (emissaoCO2Total / 22) in
  let equivalenteKmCarro := Math_round (emissaoCO2Total / 0.192) in
  {| emissaoCO2 := Math_round (emissaoCO2Total * 100) / 100;
     creditosCarbono := Math_round (creditosCarbono * 1000) / 1000;
     equivalenteArvores := equivalenteArvores;
     equivalenteKmCarro := equivalenteKmCarro;
     distanciaTotal := Math_round distanciaTotal;
     trechos :=
       (fun r => {| trecho := trecho r;
                    distancia := Math_round (distancia r);
                    emissao := Math_round (emissao r * 100) / 100 |})
       <$> resultadosTrechos |}.

Section WithGeocoder.
Context `{G : Geocoder}.

(** [calcularDistanciaTrecho]. *)
Definition calcularDistanciaTrecho
    (trecho : TrechoViagem) (viagem : ViagemData) (index : nat) : Q :=
  if num_pos (distanciaKm trecho) then default 0 (distanciaKm trecho)
  else
    let transporte := meioTransporte trecho in
    if bool_decide (transporte = "carro") || bool_decide (transporte = "motocicleta")
       || bool_decide (transporte = "onibus") then
      if truthy_ostr (cepOrigem trecho) then
        geo_calcularDistanciaCEP index
          (only_digits (default "" (cepOrigem trecho)))
          (v_destinoCidade viagem) (v_destinoEstado viagem)
      else 0
    else if bool_decide (transporte = "aviao") || bool_decide (transporte = "trem") then
      let destinoCidade := str_or (destinoCidade trecho) (v_destinoCidade viagem) in
      let destinoEstado := str_or (destinoEstado trecho) (v_destinoEstado viagem) in
      if negb (truthy_ostr (origemCidade trecho)) || negb (truthy_ostr (origemEstado trecho))
      then 0
      else
        geo_calcularDistancia
          (default "" (origemCidade trecho)) (default "" (origemEstado trecho)) "Brasil"
          destinoCidade destinoEstado (v_destinoPais viagem)
    else 0.

(** The function [calcularEmissao] maps over the legs. *)
Definition calcularTrecho (viagem : ViagemData) (index : nat) (trecho : TrechoViagem)
    : ResultadoTrecho :=
  let distancia := calcularDistanciaTrecho trecho viagem index in
  {| trecho := trecho;
     distancia := distancia;
     emissao := calcularEmissaoTrecho trecho distancia |}.

(** [calcularEmissao]: the value the returned [Observable] emits. *)
Definition calcularEmissao (viagem : ViagemData) : CalculoResultado :=
  let calculosTrechos := imap (calcularTrecho viagem) (v_trechos viagem) in
  if bool_decide (length calculosTrechos = 0%nat)
  then processarCalculoMultiploTrechos viagem []
  else processarCalculoMultiploTrechos viagem calculosTrechos.

End WithGeocoder.

(** ** Equivalence of results

    Two results are equivalent when their numbers are equal as rationals. *)

Definition resultadoTrecho_equiv (r1 r2 : ResultadoTrecho) : Prop :=
  trecho r1 = trecho r2 /\ distancia r1 == distancia r2 /\ emissao r1 == emissao r2.

Definition resultado_equiv (r1 r2 : CalculoResultado) : Prop :=
  emissaoCO2 r1 == emissaoCO2 r2 /\
  creditosCarbono r1 == creditosCarbono r2 /\
  equivalenteArvores r1 == equivalenteArvores r2 /\
  equivalenteKmCarro r1 == equivalenteKmCarro r2 /\
  distanciaTotal r1 == distanciaTotal r2 /\
  Forall2 resultadoTrecho_equiv (trechos r1) (trechos r2).

(** ** The emission factor *)

Section Fator.
Implicit Types (t : TrechoViagem) (c : string).

Lemma fatoresEmissao_range :
  map_Forall (fun _ f => 0.019 <= f <= 0.765) fatoresEmissao.
Proof. unfold fatoresEmissao. table_forall ltac:(try (split; by vm_compute)). Qed.

Lemma num_or_range (o : option Q) (d lo hi : Q) :
  (forall x, o = Some x -> lo <= x <= hi) -> lo <= d <= hi -> lo <= num_or o d <= hi.
Proof.
  intros Ho Hd. destruct o as [x|]; simpl; [|done].
  destruct (truthy_num x); [by apply Ho|done].
Qed.

Lemma fator_aviao c :
  fatoresEmissao !! ("aviao-" ++ c) =
    if decide (c = "economica") then Some 0.255
    else if decide (c = "executiva") then Some 0.510
    else if decide (c = "primeira") then Some 0.765
    else None.
Proof.
  unfold fatoresEmissao. table_lookup.
Qed.

Lemma fator_carro c :
  fatoresEmissao !! ("carro-" ++ c) =
    if decide (c = "gasolina") then Some 0.192
    else if decide (c = "etanol") then Some 0.115
    else if decide (c = "diesel") then Some 0.171
    else if decide (c = "eletrico") then Some 0.053
    else if decide (c = "hibrido") then Some 0.120
    else None.
Proof.
  unfold fatoresEmissao. table_lookup.
Qed.

End Fator.

Section FatorTheorems.
Implicit Types (t : TrechoViagem).

Lemma fator_bounds t : 0.019 <= obterFatorEmissaoTrecho t <= 0.765.
Proof.
  unfold obterFatorEmissaoTrecho.
  repeat case_bool_decide; (apply num_or_range; [|split; by vm_compute]);
    intros x Hx; exact (fatoresEmissao_range _ _ Hx).
Qed.

Lemma num_or_cases (o : option Q) (d : Q) :
  (exists x, o = Some x /\ num_or o d = x) \/ num_or o d = d.
Proof.
  destruct o as [x|]; simpl; [|by right].
  destruct (truthy_num x); [left; by exists x|by right].
Qed.

(** [C6] Every leg gets a factor that is a value of the table or
    the default 0.1, and so lies between the smallest (0.019, ship) and the
    largest (0.765, first class) value: the lookup never fails and never
    yields zero. *)
Theorem obterFatorEmissaoTrecho_range t :
  0.019 <= obterFatorEmissaoTrecho t <= 0.765 /\
  (obterFatorEmissaoTrecho t = 0.1 \/
   exists k, fatoresEmissao !! k = Some (obterFatorEmissaoTrecho t)).
Proof.
  split; [apply fator_bounds|]. unfold obterFatorEmissaoTrecho.
  repeat case_bool_decide;
    (edestruct num_or_cases as [(x & Hx & ->) | ->]; [right; by eexists| ]).
  - right. by exists "aviao-economica".
  - right. by exists "carro-gasolina".
  - by left.
Qed.

(** [C26] For a plane the factor is chosen by the flight class:
    0.510 for "executiva", 0.765 for "primeira" and the economy factor 0.255
    for "economica", a missing, an empty or an unknown class. *)
Theorem obterFatorEmissaoTrecho_aviao t :
  meioTransporte t = "aviao" ->
  obterFatorEmissaoTrecho t =
    let classe := str_or (classeVoo t) "economica" in
    if decide (classe = "executiva") then 0.510
    else if decide (classe = "primeira") then 0.765
    else 0.255.
Proof.
  intros Ht. unfold obterFatorEmissaoTrecho. rewrite bool_decide_true by done.
  cbv zeta. rewrite fator_aviao. repeat case_decide; first [congruence | by vm_compute].
Qed.

Lemma obterFatorEmissaoTrecho_aviao_witness :
  obterFatorEmissaoTrecho
    (mkTrecho "aviao" None None None None None None None None (Some "primeira") None)
  = 0.765.
Proof. by rewrite obterFatorEmissaoTrecho_aviao. Defined.

(** [C27] For a car the factor is chosen by the fuel: the table's
    value for "etanol", "diesel", "eletrico" and "hibrido", and the petrol
    factor 0.192 for "gasolina", a missing, an empty or an unknown fuel. *)
Theorem obterFatorEmissaoTrecho_carro t :
  meioTransporte t = "carro" ->
  obterFatorEmissaoTrecho t =
    let combustivel := str_or (tipoCombustivel t) "gasolina" in
    if decide (combustivel = "etanol") then 0.115
    else if decide (combustivel = "diesel") then 0.171
    else if decide (combustivel = "eletrico") then 0.053
    else if decide (combustivel = "hibrido") then 0.120
    else 0.192.
Proof.
  intros Ht. unfold obterFatorEmissaoTrecho. rewrite Ht.
  rewrite bool_decide_false, bool_decide_true by done.
  cbv zeta. rewrite fator_carro. repeat case_decide; first [congruence | by vm_compute].
Qed.

Lemma obterFatorEmissaoTrecho_carro_witness :
  obterFatorEmissaoTrecho
    (mkTrecho "carro" None None None None None None (Some "diesel") None None None)
  = 0.171.
Proof. by rewrite obterFatorEmissaoTrecho_carro. Defined.

(** A means of transport that is neither "aviao" nor
    "carro" and is not a key of the table gets the default factor 0.1. *)
Theorem obterFatorEmissaoTrecho_default t :
  meioTransporte t <> "aviao" -> meioTransporte t <> "carro" ->
  fatoresEmissao !! meioTransporte t = None ->
  obterFatorEmissaoTrecho t = 0.1.
Proof.
  intros Ha Hc Hk. unfold obterFatorEmissaoTrecho.
  rewrite !bool_decide_false by done. by rewrite Hk.
Qed.

Lemma obterFatorEmissaoTrecho_default_witness :
  obterFatorEmissaoTrecho
    (mkTrecho "bicicleta" None None None None None None None None None None)
  = 0.1.
Proof. by apply obterFatorEmissaoTrecho_default. Defined.

(** The last lookup uses the means of transport as a key of
    the whole table: a means of transport spelled like a composed key, such
    as "aviao-primeira" or "carro-diesel", gets that key's factor and not
    the default 0.1 of an unknown means. *)
Theorem obterFatorEmissaoTrecho_chave_composta t :
  (meioTransporte t = "aviao-primeira" -> obterFatorEmissaoTrecho t = 0.765) /\
  (meioTransporte t = "carro-diesel" -> obterFatorEmissaoTrecho t = 0.171).
Proof.
  unfold obterFatorEmissaoTrecho. split; intros ->; by vm_compute.
Qed.

End FatorTheorems.

(** ** The emission of one leg *)

Section EmissaoTrecho.
Implicit Types (t : TrechoViagem) (d n : Q).

Lemma obterFatorEmissaoTrecho_pos t : 0 < obterFatorEmissaoTrecho t.
Proof. pose proof (fator_bounds t). lra. Qed.

Lemma calcularEmissaoTrecho_shared t d n :
  meioTransporte t = "carro" -> numeroPassageiros t = Some n -> 0 < n ->
  calcularEmissaoTrecho t d = obterFatorEmissaoTrecho t * d / n.
Proof.
  intros Ht Hn Hpos. unfold calcularEmissaoTrecho.
  rewrite bool_decide_true, Hn, num_pos_Some by done.
  by rewrite (proj2 (num_gt_true n 0) Hpos).
Qed.

(** [C3] Car-pooling: for a car with [n > 0] passengers the
    emission of the leg is the factor times the distance divided by [n], so
    that [n] times the emission is the emission of the whole car. *)
Theorem calcularEmissaoTrecho_carona t d n :
  meioTransporte t = "carro" -> numeroPassageiros t = Some n -> 0 < n ->
  calcularEmissaoTrecho t d * n == obterFatorEmissaoTrecho t * d.
Proof.
  intros Ht Hn Hpos. rewrite (calcularEmissaoTrecho_shared t d n) by done.
  field. lra.
Qed.

Lemma calcularEmissaoTrecho_carona_witness :
  calcularEmissaoTrecho
    (mkTrecho "carro" None None None None None None (Some "gasolina") (Some 4) None None)
    100 * 4 == 0.192 * 100.
Proof.
  rewrite (calcularEmissaoTrecho_carona _ 100 4); [by vm_compute|done|done|lra].
Defined.

Lemma calcularEmissaoTrecho_plain t d :
  meioTransporte t <> "carro" \/ num_pos (numeroPassageiros t) = false ->
  calcularEmissaoTrecho t d = obterFatorEmissaoTrecho t * d.
Proof.
  intros [H|H]; unfold calcularEmissaoTrecho.
  - by rewrite bool_decide_false.
  - by rewrite H, andb_false_r.
Qed.

(** The emission is the distance times a positive coefficient of the leg. *)
Definition coeficiente (t : TrechoViagem) : Q :=
  if bool_decide (meioTransporte t = "carro") && num_pos (numeroPassageiros t)
  then obterFatorEmissaoTrecho t / default 0 (numeroPassageiros t)
  else obterFatorEmissaoTrecho t.

Lemma coeficiente_pos t : 0 < coeficiente t.
Proof.
  unfold coeficiente. pose proof (obterFatorEmissaoTrecho_pos t).
  destruct (bool_decide _ && num_pos _) eqn:E; [|done].
  apply andb_true_iff in E as [_ (n & -> & Hn)%num_pos_true]. simpl.
  by apply Qlt_shift_div_l; [|lra].
Qed.

Lemma calcularEmissaoTrecho_linear t d :
  calcularEmissaoTrecho t d == coeficiente t * d.
Proof.
  unfold calcularEmissaoTrecho, coeficiente.
  destruct (bool_decide _ && num_pos _) eqn:E; [|reflexivity].
  apply andb_true_iff in E as [_ (n & -> & Hn)%num_pos_true]. simpl.
  field. lra.
Qed.

#[export] Instance calcularEmissaoTrecho_proper t :
  Proper (Qeq ==> Qeq) (calcularEmissaoTrecho t).
Proof. intros d1 d2 E. by rewrite !calcularEmissaoTrecho_linear, E. Qed.

(** For every other means of transport, and for a car
    whose number of passengers is missing, zero or negative, the emission is
    the factor times the distance. *)
Theorem calcularEmissaoTrecho_simples t d :
  meioTransporte t <> "carro" \/ num_pos (numeroPassageiros t) = false ->
  calcularEmissaoTrecho t d = obterFatorEmissaoTrecho t * d.
Proof. apply calcularEmissaoTrecho_plain. Qed.

Lemma calcularEmissaoTrecho_simples_witness :
  calcularEmissaoTrecho
    (mkTrecho "carro" None None None None None None None (Some 0) None None) 50
  = obterFatorEmissaoTrecho
      (mkTrecho "carro" None None None None None None None (Some 0) None None) * 50.
Proof. apply calcularEmissaoTrecho_simples. by right. Defined.

(** A distance that is not negative gives an emission that is not negative,
    and a positive distance a positive emission. *)
Lemma calcularEmissaoTrecho_nonneg t d :
  (0 <= d -> 0 <= calcularEmissaoTrecho t d) /\
  (0 < d -> 0 < calcularEmissaoTrecho t d).
Proof.
  rewrite calcularEmissaoTrecho_linear. pose proof (coeficiente_pos t).
  split; intros; nra.
Qed.

(** More passengers in the car never raise the emission
    attributed to one of them. *)
Theorem calcularEmissaoTrecho_passageiros t1 t2 d n1 n2 :
  meioTransporte t1 = "carro" -> meioTransporte t2 = "carro" ->
  tipoCombustivel t1 = tipoCombustivel t2 ->
  numeroPassageiros t1 = Some n1 -> numeroPassageiros t2 = Some n2 ->
  0 < n1 <= n2 -> 0 <= d ->
  calcularEmissaoTrecho t2 d <= calcularEmissaoTrecho t1 d.
Proof.
  intros H1 H2 Hf Hn1 Hn2 [Hpos Hle] Hd.
  rewrite (calcularEmissaoTrecho_shared t1 d n1), (calcularEmissaoTrecho_shared t2 d n2)
    by (done || lra).
  assert (obterFatorEmissaoTrecho t1 = obterFatorEmissaoTrecho t2) as ->
    by (unfold obterFatorEmissaoTrecho; by rewrite H1, H2, Hf).
  set (f := obterFatorEmissaoTrecho t2).
  assert (0 < f) by apply obterFatorEmissaoTrecho_pos.
  apply Qle_shift_div_l; [lra|].
  assert (E : f * d / n2 * n1 == f * d * (n1 / n2)) by (field; lra).
  assert (n1 / n2 <= 1) by (apply Qle_shift_div_r; lra).
  assert (0 <= f * d) by nra.
  rewrite E. generalize dependent (n1 / n2). generalize dependent (f * d).
  intros; nra.
Qed.

Lemma calcularEmissaoTrecho_passageiros_witness :
  calcularEmissaoTrecho
    (mkTrecho "carro" None None None None None None None (Some 4) None None) 100
  <= calcularEmissaoTrecho
    (mkTrecho "carro" None None None None None None None (Some 2) None None) 100.
Proof.
  apply (calcularEmissaoTrecho_passageiros _ _ 100 2 4); try done; lra.
Defined.

End EmissaoTrecho.

(** ** The distance of one leg *)

Section DistanciaTrecho.
Context `{G : Geocoder}.
Implicit Types (t : TrechoViagem) (v : ViagemData) (i : nat) (d : Q).

Definition modoRodoviario (m : string) : Prop :=
  m = "carro" \/ m = "motocicleta" \/ m = "onibus".

Definition modoCidade (m : string) : Prop := m = "aviao" \/ m = "trem".

#[export] Instance modoRodoviario_dec m : Decision (modoRodoviario m).
Proof. unfold modoRodoviario. apply _. Defined.

#[export] Instance modoCidade_dec m : Decision (modoCidade m).
Proof. unfold modoCidade. apply _. Defined.

Lemma modoRodoviario_bool m :
  bool_decide (m = "carro") || bool_decide (m = "motocicleta")
    || bool_decide (m = "onibus") = bool_decide (modoRodoviario m).
Proof. unfold modoRodoviario. repeat case_bool_decide; tauto. Qed.

Lemma modoCidade_bool m :
  bool_decide (m = "aviao") || bool_decide (m = "trem") = bool_decide (modoCidade m).
Proof. unfold modoCidade. repeat case_bool_decide; tauto. Qed.

Lemma modoCidade_not_rodoviario m : modoCidade m -> ~ modoRodoviario m.
Proof. intros [-> | ->] [?|[?|?]]; discriminate. Qed.

(** The cascade, one equation per branch. *)
Lemma calcularDistanciaTrecho_cases t v i :
  calcularDistanciaTrecho t v i =
    if num_pos (distanciaKm t) then default 0 (distanciaKm t)
    else if decide (modoRodoviario (meioTransporte t)) then
      if truthy_ostr (cepOrigem t) then
        geo_calcularDistanciaCEP i (only_digits (default "" (cepOrigem t)))
          (v_destinoCidade v) (v_destinoEstado v)
      else 0
    else if decide (modoCidade (meioTransporte t)) then
      if truthy_ostr (origemCidade t) && truthy_ostr (origemEstado t) then
        geo_calcularDistancia
          (default "" (origemCidade t)) (default "" (origemEstado t)) "Brasil"
          (str_or (destinoCidade t) (v_destinoCidade v))
          (str_or (destinoEstado t) (v_destinoEstado v)) (v_destinoPais v)
      else 0
    else 0.
Proof.
  unfold calcularDistanciaTrecho. cbv zeta.
  rewrite modoRodoviario_bool, modoCidade_bool, <- negb_andb.
  repeat case_bool_decide; repeat case_decide; try done.
  by destruct (truthy_ostr (origemCidade t) && truthy_ostr (origemEstado t)).
Qed.

(** [C1] An explicit positive distance takes precedence: the
    leg resolves to it whatever its means of transport, its other fields,
    the trip and the geocoding service. *)
Theorem calcularDistanciaTrecho_explicita t v i d :
  distanciaKm t = Some d -> 0 < d -> calcularDistanciaTrecho t v i = d.
Proof.
  intros Hd Hpos. unfold calcularDistanciaTrecho.
  by rewrite Hd, num_pos_Some, (proj2 (num_gt_true d 0) Hpos).
Qed.

(** A road leg (car, motorcycle, bus) with no explicit
    distance and no postal code resolves to 0 without calling the geocoding
    service. *)
Theorem calcularDistanciaTrecho_sem_cep t v i :
  num_pos (distanciaKm t) = false -> modoRodoviario (meioTransporte t) ->
  truthy_ostr (cepOrigem t) = false ->
  calcularDistanciaTrecho t v i = 0.
Proof.
  intros Hd Hm Hc. rewrite calcularDistanciaTrecho_cases, Hd, Hc.
  by rewrite decide_True.
Qed.

(** A plane or train leg with no explicit distance whose
    origin city or state is missing or empty resolves to 0. *)
Theorem calcularDistanciaTrecho_sem_origem t v i :
  num_pos (distanciaKm t) = false -> modoCidade (meioTransporte t) ->
  truthy_ostr (origemCidade t) = false \/ truthy_ostr (origemEstado t) = false ->
  calcularDistanciaTrecho t v i = 0.
Proof.
  intros Hd Hm Ho. rewrite calcularDistanciaTrecho_cases, Hd.
  rewrite decide_False by by apply modoCidade_not_rodoviario.
  rewrite decide_True by done.
  by destruct Ho as [-> | ->]; rewrite ?andb_false_r.
Qed.

(** Any other means of transport (metro, ship, an empty
    or unknown string) with no explicit distance resolves to 0. *)
Theorem calcularDistanciaTrecho_outro_modo t v i :
  num_pos (distanciaKm t) = false ->
  ~ modoRodoviario (meioTransporte t) -> ~ modoCidade (meioTransporte t) ->
  calcularDistanciaTrecho t v i = 0.
Proof.
  intros Hd Hr Hc. rewrite calcularDistanciaTrecho_cases, Hd.
  by rewrite !decide_False.
Qed.

(** With a geocoding service whose distances are not negative, every leg
    resolves to a distance that is not negative. *)
Lemma calcularDistanciaTrecho_nonneg `{!GeocoderLaws G} t v i :
  0 <= calcularDistanciaTrecho t v i.
Proof.
  rewrite calcularDistanciaTrecho_cases.
  destruct (num_pos (distanciaKm t)) eqn:Hd.
  { apply num_pos_true in Hd as (d & -> & ?). simpl. lra. }
  repeat case_decide; repeat case_match;
    auto using geo_cep_nonneg, geo_dist_nonneg with qarith.
Qed.

End DistanciaTrecho.

(** A geocoder with constant answers, to run the cascade on examples. *)
Definition geocoderConstante (cepKm cidadeKm : Q) : Geocoder :=
  {| geo_calcularDistanciaCEP _ _ _ _ := cepKm;
     geo_calcularDistancia _ _ _ _ _ _ := cidadeKm |}.

Lemma geocoderConstante_laws cepKm cidadeKm :
  0 <= cepKm -> 0 <= cidadeKm -> GeocoderLaws (geocoderConstante cepKm cidadeKm).
Proof. by split. Qed.

Definition viagemExemplo (ts : list TrechoViagem) (idaEVolta : bool) : ViagemData :=
  mkViagem "Ana" "ana@example.org" "000" "000" "Vitória" "ES" "Brasil" ts
    "2025-01-01" None idaEVolta None.

Definition trechoExemplo (modo : string) (km : option Q) : TrechoViagem :=
  mkTrecho modo km None None None None None None None None None.

Section DistanciaTrechoWitnesses.
Local Existing Instance geocoderConstante.

Lemma calcularDistanciaTrecho_explicita_witness :
  @calcularDistanciaTrecho (geocoderConstante 80 500)
    (trechoExemplo "carro" (Some 120)) (viagemExemplo [] false) 0 = 120.
Proof. apply calcularDistanciaTrecho_explicita; [done|lra]. Defined.

Lemma calcularDistanciaTrecho_sem_cep_witness :
  @calcularDistanciaTrecho (geocoderConstante 80 500)
    (trechoExemplo "onibus" None) (viagemExemplo [] false) 0 = 0.
Proof.
  apply calcularDistanciaTrecho_sem_cep; [done| |done].
  right; by right.
Defined.

Lemma calcularDistanciaTrecho_sem_origem_witness :
  @calcularDistanciaTrecho (geocoderConstante 80 500)
    (trechoExemplo "aviao" (Some 0)) (viagemExemplo [] false) 0 = 0.
Proof.
  apply calcularDistanciaTrecho_sem_origem; [done|by left|by left].
Defined.

Lemma calcularDistanciaTrecho_outro_modo_witness :
  @calcularDistanciaTrecho (geocoderConstante 80 500)
    (trechoExemplo "metro" None) (viagemExemplo [] false) 0 = 0.
Proof.
  apply calcularDistanciaTrecho_outro_modo; [done|by intros [?|[?|?]]|by intros [?|?]].
Defined.

End DistanciaTrechoWitnesses.

(** ** The totals of a trip *)

(** The trip with its round-trip flag set to [b]. *)
Definition comIdaEVolta (b : bool) (v : ViagemData) : ViagemData :=
  mkViagem (v_nome v) (v_email v) (v_cpf v) (v_telefone v) (v_destinoCidade v)
    (v_destinoEstado v) (v_destinoPais v) (v_trechos v) (v_dataViagem v)
    (v_dataRetorno v) b (v_observacoes v).

(** The rounding [processarCalculoMultiploTrechos] applies to one leg. *)
Definition arredondado (r r' : ResultadoTrecho) : Prop :=
  trecho r' = trecho r /\
  Qabs (distancia r' - distancia r) <= 1 # 2 /\
  Qabs (emissao r' - emissao r) <= 1 # 200.

Section Totais.
Implicit Types (v : ViagemData) (rs : list ResultadoTrecho) (b : bool).

Lemma emissaoBruta_sum v rs :
  emissaoBruta v rs == (if v_idaEVolta v then 2 else 1) * sumQ (emissao <$> rs).
Proof.
  unfold emissaoBruta. destruct (v_idaEVolta v); rewrite foldl_sumQ; ring.
Qed.

Lemma distanciaBruta_sum v rs :
  distanciaBruta v rs == (if v_idaEVolta v then 2 else 1) * sumQ (distancia <$> rs).
Proof.
  unfold distanciaBruta. destruct (v_idaEVolta v); rewrite foldl_sumQ; ring.
Qed.

Lemma round2_error x : Qabs (Math_round (x * 100) / 100 - x) <= 1 # 200.
Proof. apply (round_scaled_error 100 x). lra. Qed.

Lemma round3_error x : Qabs (Math_round (x / 1000 * 1000) / 1000 - x / 1000) <= 1 # 2000.
Proof. apply (round_scaled_error 1000 (x / 1000)). lra. Qed.

(** Additivity: before rounding, the total emission and the
    total distance of a one-way trip are the sums of the legs' emissions and
    distances, and those of a round trip are twice these sums. *)
Theorem totais_soma v rs :
  emissaoBruta v rs == (if v_idaEVolta v then 2 else 1) * sumQ (emissao <$> rs) /\
  distanciaBruta v rs == (if v_idaEVolta v then 2 else 1) * sumQ (distancia <$> rs).
Proof. split; [apply emissaoBruta_sum|apply distanciaBruta_sum]. Qed.

(** The totals of the legs of two lists put together are
    the totals of the first list plus those of the second. *)
Theorem totais_concat v rs1 rs2 :
  emissaoBruta v (rs1 ++ rs2) == emissaoBruta v rs1 + emissaoBruta v rs2 /\
  distanciaBruta v (rs1 ++ rs2) == distanciaBruta v rs1 + distanciaBruta v rs2.
Proof.
  rewrite !emissaoBruta_sum, !distanciaBruta_sum, !fmap_app, !sumQ_app.
  split; ring.
Qed.

Lemma bruta_dobra v rs :
  emissaoBruta (comIdaEVolta true v) rs == 2 * emissaoBruta (comIdaEVolta false v) rs /\
  distanciaBruta (comIdaEVolta true v) rs == 2 * distanciaBruta (comIdaEVolta false v) rs.
Proof. rewrite !emissaoBruta_sum, !distanciaBruta_sum. simpl. split; ring. Qed.

(** [C2] Round-trip law: before rounding, the totals of a
    round trip are exactly twice the totals of the same legs one way, that
    is twice the sums of the legs; the doubling is applied once, after the
    sum. *)
Theorem ida_e_volta_dobra v rs :
  emissaoBruta (comIdaEVolta true v) rs == 2 * sumQ (emissao <$> rs) /\
  emissaoBruta (comIdaEVolta false v) rs == sumQ (emissao <$> rs) /\
  distanciaBruta (comIdaEVolta true v) rs == 2 * sumQ (distancia <$> rs) /\
  distanciaBruta (comIdaEVolta false v) rs == sumQ (distancia <$> rs).
Proof. rewrite !emissaoBruta_sum, !distanciaBruta_sum. simpl. split_and!; ring. Qed.

(** After rounding, the reported totals of a round trip differ from twice
    the reported one-way totals by one rounding unit at most. *)
Lemma processar_ida_e_volta v rs :
  let ida := processarCalculoMultiploTrechos (comIdaEVolta false v) rs in
  let volta := processarCalculoMultiploTrechos (comIdaEVolta true v) rs in
  Qabs (emissaoCO2 volta - 2 * emissaoCO2 ida) <= 1 # 100 /\
  Qabs (distanciaTotal volta - 2 * distanciaTotal ida) <= 1 /\
  equivalenteArvores volta <= 2 * equivalenteArvores ida.
Proof.
  cbv zeta. unfold processarCalculoMultiploTrechos. cbn [emissaoCO2 distanciaTotal equivalenteArvores].
  destruct (bruta_dobra v rs) as [-> ->].
  set (e := emissaoBruta _ rs). set (d := distanciaBruta _ rs).
  assert (Ee : 2 * e * 100 == e * 100 * 2) by ring.
  assert (Ed : 2 * d == d * 2) by ring.
  assert (Et : 2 * e / 22 == e / 22 * 2) by (field; lra).
  rewrite Ee, Ed, Et. split_and!.
  - pose proof (Math_round_double (e * 100)) as H.
    apply Qabs_Qle_condition in H. apply Qabs_Qle_condition. q_lra.
  - apply Math_round_double.
  - apply Math_ceil_double.
Qed.

(** [C36] The round-trip law after rounding: the reported emission of a
    round trip is exactly twice the reported one-way emission if and only if
    the one-way total is less than a quarter of a hundredth away from its
    reported value, and the reported distance is exactly double if and only
    if the one-way distance is less than a quarter of a kilometre away from
    its reported value.  Everywhere else the two reports differ. *)
Theorem ida_e_volta_exata_sse v rs :
  let ida := processarCalculoMultiploTrechos (comIdaEVolta false v) rs in
  let volta := processarCalculoMultiploTrechos (comIdaEVolta true v) rs in
  (emissaoCO2 volta == 2 * emissaoCO2 ida <->
     - (1 # 400) <= emissaoBruta (comIdaEVolta false v) rs - emissaoCO2 ida < 1 # 400) /\
  (distanciaTotal volta == 2 * distanciaTotal ida <->
     - (1 # 4) <= distanciaBruta (comIdaEVolta false v) rs - distanciaTotal ida < 1 # 4).
Proof.
  cbv zeta. unfold processarCalculoMultiploTrechos. cbn [emissaoCO2 distanciaTotal].
  destruct (bruta_dobra v rs) as [-> ->].
  set (e := emissaoBruta _ rs). set (d := distanciaBruta _ rs).
  assert (Ee : 2 * e * 100 == e * 100 * 2) by ring.
  assert (Ed : 2 * d == d * 2) by ring.
  rewrite Ee, Ed. split; [|apply Math_round_double_iff].
  pose proof (Math_round_double_iff (e * 100)) as H.
  set (r := Math_round (e * 100)) in *. set (r2 := Math_round (e * 100 * 2)) in *.
  split; intros Hx.
  - assert (r2 == 2 * r) as Hr by q_lra. apply H in Hr. q_lra.
  - assert (- (1 # 4) <= e * 100 - r < 1 # 4) as Hr by q_lra. apply H in Hr. q_lra.
Qed.

(** An instance: a leg of 1.004 kg over 24.3 km is reported as 1 kg and
    24 km one way, and as 2.01 kg and 49 km, not 2 kg and 48 km, for the
    round trip. *)
Example ida_e_volta_nao_dobra :
  let v := viagemExemplo [] false in
  let rs := [mkResultadoTrecho (trechoExemplo "trem" None) 24.3 1.004] in
  emissaoCO2 (processarCalculoMultiploTrechos (comIdaEVolta false v) rs) == 1 /\
  emissaoCO2 (processarCalculoMultiploTrechos (comIdaEVolta true v) rs) == 2.01 /\
  distanciaTotal (processarCalculoMultiploTrechos (comIdaEVolta false v) rs) == 24 /\
  distanciaTotal (processarCalculoMultiploTrechos (comIdaEVolta true v) rs) == 49.
Proof. by vm_compute. Qed.

End Totais.

Section Relatorio.
Implicit Types (v : ViagemData) (rs : list ResultadoTrecho).

(** [C7] Rounding is applied to the final figures only: the
    reported emission is within 0.005 kg of the exact total, the credits
    within 0.0005 t of a thousandth of it, the reported distance within half
    a kilometre of the exact total distance. *)
Theorem processar_arredondamento v rs :
  let r := processarCalculoMultiploTrechos v rs in
  Qabs (emissaoCO2 r - emissaoBruta v rs) <= 1 # 200 /\
  Qabs (creditosCarbono r - emissaoBruta v rs / 1000) <= 1 # 2000 /\
  Qabs (distanciaTotal r - distanciaBruta v rs) <= 1 # 2.
Proof.
  cbv zeta. unfold processarCalculoMultiploTrechos. cbn [emissaoCO2 creditosCarbono distanciaTotal].
  split_and!; [apply round2_error|apply round3_error|apply Math_round_error].
Qed.

(** [C8] The tree equivalent never under-states the offset: 22 kg
    per tree times the reported trees covers the exact total emission, with
    less than one tree in excess. *)
Theorem equivalenteArvores_cobre v rs :
  let r := processarCalculoMultiploTrechos v rs in
  emissaoBruta v rs <= 22 * equivalenteArvores r /\
  22 * equivalenteArvores r < emissaoBruta v rs + 22.
Proof.
  cbv zeta. unfold processarCalculoMultiploTrechos. cbn [equivalenteArvores].
  pose proof (Math_ceil_lower (emissaoBruta v rs / 22)).
  pose proof (Math_ceil_upper (emissaoBruta v rs / 22)).
  split; q_lra.
Qed.

(** The car-kilometre equivalent is the total emission divided
    by the petrol factor 0.192, to the nearest kilometre. *)
Theorem equivalenteKmCarro_erro v rs :
  let r := processarCalculoMultiploTrechos v rs in
  Qabs (equivalenteKmCarro r * 0.192 - emissaoBruta v rs) <= 0.096.
Proof.
  cbv zeta. unfold processarCalculoMultiploTrechos. cbn [equivalenteKmCarro].
  pose proof (Math_round_lower (emissaoBruta v rs / 0.192)).
  pose proof (Math_round_upper (emissaoBruta v rs / 0.192)).
  apply Qabs_Qle_condition. split; q_lra.
Qed.

(** The report has one entry per leg, in the order of the
    input, each for the leg it was computed from, with its distance rounded
    to the kilometre and its emission to the hundredth. *)
Theorem processar_trechos_ordem v rs :
  Forall2 arredondado rs (trechos (processarCalculoMultiploTrechos v rs)).
Proof.
  unfold processarCalculoMultiploTrechos. cbn [trechos].
  apply Forall2_fmap_r, Forall_Forall2_diag, Forall_forall. intros r _.
  split_and!; [done|apply Math_round_error|apply round2_error].
Qed.

(** Legs with distances and emissions that are not negative give a report
    whose figures are not negative. *)
Lemma processar_nonneg v rs :
  Forall (fun r => 0 <= distancia r /\ 0 <= emissao r) rs ->
  let r := processarCalculoMultiploTrechos v rs in
  0 <= emissaoCO2 r /\ 0 <= creditosCarbono r /\ 0 <= equivalenteArvores r /\
  0 <= equivalenteKmCarro r /\ 0 <= distanciaTotal r.
Proof.
  intros Hrs. rewrite Forall_forall in Hrs.
  assert (0 <= emissaoBruta v rs) as He.
  { rewrite emissaoBruta_sum.
    pose proof (sumQ_nonneg emissao rs (fun r Hr => proj2 (Hrs r Hr))).
    destruct (v_idaEVolta v); lra. }
  assert (0 <= distanciaBruta v rs) as Hd.
  { rewrite distanciaBruta_sum.
    pose proof (sumQ_nonneg distancia rs (fun r Hr => proj1 (Hrs r Hr))).
    destruct (v_idaEVolta v); lra. }
  cbv zeta. unfold processarCalculoMultiploTrechos.
  cbn [emissaoCO2 creditosCarbono equivalenteArvores equivalenteKmCarro distanciaTotal].
  split_and!.
  - apply Qle_shift_div_l; [lra|]. rewrite Qmult_0_l. apply Math_round_nonneg. lra.
  - apply Qle_shift_div_l; [lra|]. rewrite Qmult_0_l. apply Math_round_nonneg. q_lra.
  - apply Math_ceil_nonneg. q_lra.
  - apply Math_round_nonneg. q_lra.
  - by apply Math_round_nonneg.
Qed.

(** A total of 123.456 kg is reported as
    123.46 kg, 0.123 t of credits, 6 trees and 643 km by car. *)
Theorem processar_exemplo :
  let r := processarCalculoMultiploTrechos (viagemExemplo [] false)
             [mkResultadoTrecho (trechoExemplo "aviao" None) 484.14 123.456] in
  emissaoCO2 r == 123.46 /\ creditosCarbono r == 0.123 /\
  equivalenteArvores r == 6 /\ equivalenteKmCarro r == 643 /\
  distanciaTotal r == 484.
Proof. by vm_compute. Qed.

End Relatorio.

(** ** Results up to equality of rationals *)

Section Equiv.

#[export] Instance resultadoTrecho_equiv_equivalence : Equivalence resultadoTrecho_equiv.
Proof.
  unfold resultadoTrecho_equiv. split.
  - by intros r.
  - intros r1 r2 (? & ? & ?). by split_and!.
  - intros r1 r2 r3 (? & ? & ?) (? & ? & ?). split_and!; by etrans.
Qed.

#[export] Instance resultado_equiv_equivalence : Equivalence resultado_equiv.
Proof.
  unfold resultado_equiv. split.
  - intros r. by split_and!.
  - intros r1 r2 (? & ? & ? & ? & ? & ?). by split_and!.
  - intros r1 r2 r3 (? & ? & ? & ? & ? & ?) (? & ? & ? & ? & ? & ?).
    split_and!; by etrans.
Qed.

Lemma sumQ_Forall2 {A} (f : A -> Q) (R : relation A) (l1 l2 : list A) :
  (forall x y, R x y -> f x == f y) -> Forall2 R l1 l2 ->
  sumQ (f <$> l1) == sumQ (f <$> l2).
Proof.
  intros Hf. induction 1 as [|x y l1 l2 Hxy _ IH]; csimpl; [reflexivity|].
  by rewrite !sumQ_cons, IH, (Hf x y Hxy).
Qed.

#[export] Instance emissaoBruta_proper v :
  Proper (Forall2 resultadoTrecho_equiv ==> Qeq) (emissaoBruta v).
Proof.
  intros rs1 rs2 H. rewrite !emissaoBruta_sum.
  rewrite (sumQ_Forall2 emissao _ _ _ (fun _ _ H => proj2 (proj2 H)) H). reflexivity.
Qed.

#[export] Instance distanciaBruta_proper v :
  Proper (Forall2 resultadoTrecho_equiv ==> Qeq) (distanciaBruta v).
Proof.
  intros rs1 rs2 H. rewrite !distanciaBruta_sum.
  rewrite (sumQ_Forall2 distancia _ _ _ (fun _ _ H => proj1 (proj2 H)) H). reflexivity.
Qed.

(** The report depends on the numbers of the legs and not on the
    fractions that represent them: equivalent lists of legs give equivalent
    reports. *)
Theorem processarCalculoMultiploTrechos_proper v :
  Proper (Forall2 resultadoTrecho_equiv ==> resultado_equiv)
    (processarCalculoMultiploTrechos v).
Proof.
  intros rs1 rs2 H. unfold resultado_equiv, processarCalculoMultiploTrechos.
  cbn [emissaoCO2 creditosCarbono equivalenteArvores equivalenteKmCarro distanciaTotal trechos].
  rewrite (emissaoBruta_proper v _ _ H), (distanciaBruta_proper v _ _ H).
  split_and!; try reflexivity.
  apply Forall2_fmap, (Forall2_impl _ _ _ _ H). intros r1 r2 (Ht & Hd & He).
  unfold resultadoTrecho_equiv. cbn [trecho distancia emissao].
  by rewrite Ht, Hd, He.
Qed.

Lemma processarCalculoMultiploTrechos_proper_witness :
  resultado_equiv
    (processarCalculoMultiploTrechos (viagemExemplo [] false)
       [mkResultadoTrecho (trechoExemplo "trem" None) (1 # 2) (2 # 4)])
    (processarCalculoMultiploTrechos (viagemExemplo [] false)
       [mkResultadoTrecho (trechoExemplo "trem" None) (2 # 4) (1 # 2)]).
Proof.
  apply processarCalculoMultiploTrechos_proper.
  repeat constructor.
Defined.

End Equiv.

(** ** The whole computation: [calcularEmissao] *)

Section CalcularEmissao.
Context `{G : Geocoder}.
Implicit Types (v : ViagemData).

Lemma calcularEmissao_unfold v :
  calcularEmissao v =
    processarCalculoMultiploTrechos v (imap (calcularTrecho v) (v_trechos v)).
Proof.
  unfold calcularEmissao. cbv zeta. case_bool_decide as H; [|done].
  by rewrite (nil_length_inv _ H).
Qed.

(** The special case of [calcularEmissao] for a trip without
    legs is the general case: the result is always the report of the legs'
    results, each computed with its own index. *)
Theorem calcularEmissao_geral v :
  calcularEmissao v =
    processarCalculoMultiploTrechos v (imap (calcularTrecho v) (v_trechos v)).
Proof. apply calcularEmissao_unfold. Qed.

(** The report of a trip lists exactly the legs of the trip,
    in their order. *)
Theorem calcularEmissao_trechos v :
  trecho <$> trechos (calcularEmissao v) = v_trechos v.
Proof.
  rewrite calcularEmissao_unfold. unfold processarCalculoMultiploTrechos. cbn [trechos].
  rewrite <- list_fmap_compose, fmap_imap.
  rewrite <- (list_fmap_id (v_trechos v)) at 2. rewrite <- imap_const.
  by apply imap_ext.
Qed.

(** A trip without legs has a report of zeros. *)
Theorem calcularEmissao_vazio v :
  v_trechos v = [] ->
  resultado_equiv (calcularEmissao v) (mkResultado 0 0 0 0 0 []).
Proof.
  intros Hv. rewrite calcularEmissao_unfold, Hv.
  unfold resultado_equiv, processarCalculoMultiploTrechos, emissaoBruta, distanciaBruta.
  destruct (v_idaEVolta v); by vm_compute.
Qed.

Lemma calcularTrecho_nonneg `{!GeocoderLaws G} v i t :
  0 <= distancia (calcularTrecho v i t) /\ 0 <= emissao (calcularTrecho v i t).
Proof.
  pose proof (calcularDistanciaTrecho_nonneg t v i) as Hd.
  split; [done|]. by apply calcularEmissaoTrecho_nonneg.
Qed.

(** [C38] With a geocoding service whose distances are not
    negative, no figure of the report of any trip is negative. *)
Theorem calcularEmissao_nonneg `{!GeocoderLaws G} v :
  let r := calcularEmissao v in
  0 <= emissaoCO2 r /\ 0 <= creditosCarbono r /\ 0 <= equivalenteArvores r /\
  0 <= equivalenteKmCarro r /\ 0 <= distanciaTotal r.
Proof.
  rewrite calcularEmissao_unfold. apply processar_nonneg.
  apply Forall_forall. intros r (i & t & -> & _)%elem_of_lookup_imap_1.
  apply calcularTrecho_nonneg.
Qed.

(** The legs' results do not depend on the round-trip flag. *)
Lemma calcularTrecho_comIdaEVolta b v i t :
  calcularTrecho (comIdaEVolta b v) i t = calcularTrecho v i t.
Proof. reflexivity. Qed.

(** [C12] For one trip and one geocoding service, asking for
    the round trip changes the report to twice the one-way report up to one
    rounding unit: 0.01 kg for the emission and 1 km for the distance; and
    the trees of the round trip are at most twice the trees of one way. *)
Theorem calcularEmissao_ida_e_volta v :
  let ida := calcularEmissao (comIdaEVolta false v) in
  let volta := calcularEmissao (comIdaEVolta true v) in
  Qabs (emissaoCO2 volta - 2 * emissaoCO2 ida) <= 1 # 100 /\
  Qabs (distanciaTotal volta - 2 * distanciaTotal ida) <= 1 /\
  equivalenteArvores volta <= 2 * equivalenteArvores ida.
Proof.
  cbv zeta. rewrite !calcularEmissao_unfold.
  apply (processar_ida_e_volta v (imap (calcularTrecho v) (v_trechos v))).
Qed.

End CalcularEmissao.

Lemma calcularEmissao_vazio_witness :
  resultado_equiv
    (@calcularEmissao (geocoderConstante 80 500) (viagemExemplo [] true))
    (mkResultado 0 0 0 0 0 []).
Proof. by apply calcularEmissao_vazio. Defined.

Lemma calcularEmissao_nonneg_witness :
  let r := @calcularEmissao (geocoderConstante 80 500)
             (viagemExemplo [trechoExemplo "trem" None] true) in
  0 <= emissaoCO2 r /\ 0 <= creditosCarbono r /\ 0 <= equivalenteArvores r /\
  0 <= equivalenteKmCarro r /\ 0 <= distanciaTotal r.
Proof.
  exact (@calcularEmissao_nonneg _
           (geocoderConstante_laws 80 500 ltac:(lra) ltac:(lra)) _).
Defined.

