(* ===== verification/ForkJoin.v ===== *)
(** * ForkJoin: the fan-out/fan-in of [calcularEmissao]

    [calcularEmissao] builds one observable per leg and hands the array to
    [forkJoin]; the result is emitted when every leg has delivered, whatever
    the order in which the replies arrive.  This file models the join as a
    transition system: a state with one slot per source, a step per
    notification of a source, and the output of the join.  The first part is
    generic in the type of the values; the second connects it to the
    calculator and shows that every order of arrival yields the report
    [calcularEmissao] of [Calculator], and that the failure of the
    observable of one leg yields the report of a trip without legs. *)

From S2P Require Import Prelude Calculator.

(** ** The join *)

Section ForkJoin.
Context {A : Type}.

(** What a source tells the join: its value (the sources of this program
    emit once and complete), or an error. *)
Inductive notificacao :=
| Next (i : nat) (v : A)
| Erro (i : nat).

(** What the join has told its subscriber. *)
Inductive saida :=
| Pendente
| Emitido (vs : list A)
| Falhou.

Record juncao := mkJuncao {
  slots : list (option A);
  estado : saida
}.

(** The values of all the sources, when all have delivered. *)
Definition completos (sl : list (option A)) : option (list A) := mapM id sl.

Definition saida_de (sl : list (option A)) : saida :=
  match completos sl with
  | Some vs => Emitido vs
  | None => Pendente
  end.

(** Subscription: [n] sources, nothing delivered.  With no source at all
    the join completes without emitting. *)
Definition forkJoin_init (n : nat) : juncao := mkJuncao (replicate n None) Pendente.

(** One notification.  A join that has emitted or failed has unsubscribed,
    and a source that has completed is silent: such notifications change
    nothing. *)
Definition forkJoin_passo (s : juncao) (e : notificacao) : juncao :=
  match estado s with
  | Pendente =>
      match e with
      | Next i v =>
          match slots s !! i with
          | Some None =>
              let sl := <[i := Some v]> (slots s) in mkJuncao sl (saida_de sl)
          | _ => s
          end
      | Erro i =>
          match slots s !! i with
          | Some None => mkJuncao (slots s) Falhou
          | _ => s
          end
      end
  | _ => s
  end.

Definition forkJoin_run (s : juncao) (es : list notificacao) : juncao :=
  foldl forkJoin_passo s es.

(** The same steps as a relation: only the notifications that are
    possible. *)
Inductive passo : juncao -> notificacao -> juncao -> Prop :=
| passo_next sl i v :
    sl !! i = Some None ->
    passo (mkJuncao sl Pendente) (Next i v)
          (mkJuncao (<[i := Some v]> sl) (saida_de (<[i := Some v]> sl)))
| passo_erro sl i :
    sl !! i = Some None ->
    passo (mkJuncao sl Pendente) (Erro i) (mkJuncao sl Falhou).

Inductive passos : juncao -> list notificacao -> juncao -> Prop :=
| passos_nil s : passos s [] s
| passos_cons s e s' es s'' : passo s e s' -> passos s' es s'' -> passos s (e :: es) s''.

(** The states the sources [xs] can drive the join into: source [i]
    delivers [xs !! i] and nothing else. *)
Inductive alcancavel (xs : list A) : juncao -> Prop :=
| alc_init : alcancavel xs (forkJoin_init (length xs))
| alc_next s s' i v :
    alcancavel xs s -> xs !! i = Some v -> passo s (Next i v) s' -> alcancavel xs s'.

(** Sources still awaited. *)
Definition pendentes (sl : list (option A)) : nat :=
  length (filter (fun o => o = None) sl).

(** The measure that every step decreases. *)
Definition medida (s : juncao) : nat :=
  match estado s with
  | Pendente => S (pendentes (slots s))
  | _ => 0
  end.

(** The slots once the sources in [D] have delivered. *)
Definition parcial (xs : list A) (D : gset nat) : list (option A) :=
  imap (fun i x => if bool_decide (i ∈ D) then Some x else None) xs.

(** The notifications of the sources [xs] when they deliver in the order
    [ordem]. *)
Definition notificacoes (xs : list A) (ordem : list nat) : list notificacao :=
  omap (fun i => Next i <$> xs !! i) ordem.

(** The same of sources that may fail: source [i] emits its value and
    completes ([Some v]) or ends in an error ([None]). *)
Definition emissoes (fontes : list (option A)) (ordem : list nat) : list notificacao :=
  omap (fun i => from_option (Next i) (Erro i) <$> fontes !! i) ordem.

(** Source [i] is one that fails. *)
Definition falha (fontes : list (option A)) (i : nat) : bool :=
  match fontes !! i with
  | Some None => true
  | _ => false
  end.

End ForkJoin.

Arguments notificacao : clear implicits.
Arguments saida : clear implicits.
Arguments juncao : clear implicits.

(** ** [calcularEmissao] as an observable

    What the observable returned by [calcularEmissao] emits when the legs
    deliver in the order [ordem]: nothing ([None]) as long as the join is
    pending. *)

Section Observable.
Context `{G : Geocoder}.

(** The pipeline of [calcularEmissao] over the observables of the legs,
    whatever they are: the guard for the trip without legs, the join, the
    handler of its value and the handler of its error. *)
Definition calcularEmissao_de (viagem : ViagemData)
    (calculosTrechos : list (option ResultadoTrecho)) (ordem : list nat)
    : option CalculoResultado :=
  if bool_decide (length calculosTrechos = 0%nat)
  then Some (processarCalculoMultiploTrechos viagem [])
  else
    match estado (forkJoin_run (forkJoin_init (length calculosTrechos))
                               (emissoes calculosTrechos ordem)) with
    | Emitido resultados => Some (processarCalculoMultiploTrechos viagem resultados)
    | Falhou => Some (processarCalculoMultiploTrechos viagem [])
    | Pendente => None
    end.

(** [calcularEmissao]: the observables of the legs are those of
    [calcularDistanciaTrecho], which emit one distance each and do not
    fail. *)
Definition calcularEmissao_obs (viagem : ViagemData) (ordem : list nat)
    : option CalculoResultado :=
  let calculosTrechos := imap (calcularTrecho viagem) (v_trechos viagem) in
  calcularEmissao_de viagem (Some <$> calculosTrechos) ordem.

End Observable.

(** ** Facts about slots *)

Section Slots.
Context {A : Type}.
Implicit Types (xs vs : list A) (sl : list (option A)) (D : gset nat) (i : nat).

Lemma completos_Some sl vs :
  completos sl = Some vs <-> sl = Some <$> vs.
Proof.
  unfold completos. rewrite mapM_Some. split.
  - induction 1; simplify_eq/=; by f_equal.
  - intros ->. induction vs; constructor; done.
Qed.

Lemma completos_None sl :
  completos sl = None <-> exists i, sl !! i = Some None.
Proof.
  unfold completos. rewrite mapM_None, Exists_exists. split.
  - intros (o & Hin & Ho). simpl in Ho. subst o. by apply list_elem_of_lookup.
  - intros [i Hi]. exists None. split; [by eapply list_elem_of_lookup_2|done].
Qed.

Lemma saida_de_pendente sl i : sl !! i = Some None -> saida_de sl = Pendente.
Proof.
  intros Hi. unfold saida_de.
  by rewrite (proj2 (completos_None sl) (ex_intro _ i Hi)).
Qed.

Lemma saida_de_emitido sl vs : saida_de sl = Emitido vs <-> completos sl = Some vs.
Proof. unfold saida_de. destruct (completos sl); naive_solver. Qed.

Lemma saida_de_nao_falha sl : saida_de sl <> Falhou.
Proof. unfold saida_de. by destruct (completos sl). Qed.

Lemma length_parcial xs D : length (parcial xs D) = length xs.
Proof. apply length_imap. Qed.

Lemma parcial_lookup xs D i :
  parcial xs D !! i =
    (fun x => if bool_decide (i ∈ D) then Some x else None) <$> xs !! i.
Proof. unfold parcial. by rewrite list_lookup_imap. Qed.

Lemma parcial_empty xs : parcial xs ∅ = replicate (length xs) None.
Proof.
  apply list_eq. intros i. rewrite parcial_lookup.
  destruct (xs !! i) as [x|] eqn:E; simpl.
  - rewrite lookup_replicate_2 by by eapply lookup_lt_Some. done.
  - symmetry. apply lookup_replicate_None. apply lookup_ge_None in E. lia.
Qed.

Lemma parcial_insert xs D i v :
  xs !! i = Some v -> <[i := Some v]> (parcial xs D) = parcial xs ({[i]} ∪ D).
Proof.
  intros Hi. apply list_eq. intros j. rewrite !parcial_lookup.
  destruct (decide (j = i)) as [->|Hne].
  - rewrite list_lookup_insert_eq by (rewrite length_parcial; by eapply lookup_lt_Some).
    rewrite Hi. simpl. by rewrite bool_decide_eq_true_2 by set_solver.
  - rewrite list_lookup_insert_ne, parcial_lookup by done.
    destruct (xs !! j); simpl; [|done].
    by rewrite (bool_decide_ext (j ∈ {[i]} ∪ D) (j ∈ D)) by set_solver.
Qed.

Lemma parcial_pendente xs D i :
  i < length xs -> i ∉ D -> parcial xs D !! i = Some None.
Proof.
  intros Hi HD. rewrite parcial_lookup.
  destruct (lookup_lt_is_Some_2 xs i Hi) as [x ->]. simpl.
  by rewrite bool_decide_eq_false_2.
Qed.

Lemma parcial_completo xs D :
  (forall i, i < length xs -> i ∈ D) -> completos (parcial xs D) = Some xs.
Proof.
  intros HD. apply completos_Some, list_eq. intros i.
  rewrite parcial_lookup, list_lookup_fmap.
  destruct (xs !! i) eqn:E; simpl; [|done].
  rewrite bool_decide_eq_true_2; [done|]. apply HD. by eapply lookup_lt_Some.
Qed.

Lemma parcial_ext xs D D' :
  (forall i, i < length xs -> i ∈ D <-> i ∈ D') -> parcial xs D = parcial xs D'.
Proof.
  intros H. apply list_eq. intros i. rewrite !parcial_lookup.
  destruct (xs !! i) eqn:E; simpl; [|done].
  by rewrite (bool_decide_ext _ _ (H i (lookup_lt_Some _ _ _ E))).
Qed.

End Slots.

(** ** Steps *)

Section Passos.
Context {A : Type}.
Implicit Types (xs vs : list A) (sl : list (option A)) (D : gset nat) (i : nat)
  (s : juncao A) (e : notificacao A) (ordem : list nat).

(** The state in which the output is the one the slots determine. *)
Definition de_slots sl : juncao A := mkJuncao sl (saida_de sl).

Lemma forkJoin_init_de_slots n : n <> 0%nat -> forkJoin_init (A := A) n = de_slots (replicate n None).
Proof.
  intros Hn. unfold forkJoin_init, de_slots. f_equal. symmetry.
  apply (saida_de_pendente _ 0). apply lookup_replicate_2. lia.
Qed.

Lemma forkJoin_passo_next sl i v :
  sl !! i = Some None ->
  forkJoin_passo (de_slots sl) (Next i v) = de_slots (<[i := Some v]> sl).
Proof.
  intros Hi. unfold forkJoin_passo, de_slots. simpl.
  by rewrite (saida_de_pendente sl i Hi), Hi.
Qed.

(** A source that has delivered is not heard again. *)
Lemma forkJoin_passo_repetido xs D i v :
  i ∈ D -> xs !! i = Some v ->
  forkJoin_passo (de_slots (parcial xs D)) (Next i v) = de_slots (parcial xs D).
Proof.
  intros Hi Hv. unfold forkJoin_passo, de_slots. simpl.
  rewrite parcial_lookup, Hv. simpl. rewrite bool_decide_eq_true_2 by done.
  by destruct (saida_de _).
Qed.

(** The function takes the steps of the relation. *)
Lemma passo_forkJoin_passo s e s' : passo s e s' -> forkJoin_passo s e = s'.
Proof. destruct 1 as [sl i v Hi|sl i Hi]; unfold forkJoin_passo; simpl; by rewrite Hi. Qed.

Lemma passos_forkJoin_run s es s' : passos s es s' -> forkJoin_run s es = s'.
Proof.
  induction 1 as [|s e s1 es s2 H1 _ IH]; [done|].
  simpl. by rewrite (passo_forkJoin_passo _ _ _ H1).
Qed.

(** A notification that the relation does not allow changes nothing. *)
Lemma forkJoin_passo_cases s e :
  passo s e (forkJoin_passo s e) \/ forkJoin_passo s e = s.
Proof.
  destruct s as [sl [| |]], e as [i v|i]; unfold forkJoin_passo; simpl; auto;
    destruct (sl !! i) as [[|]|] eqn:E; auto; left; by constructor.
Qed.

Lemma pendentes_insert sl i v :
  sl !! i = Some None -> S (pendentes (<[i := Some v]> sl)) = pendentes sl.
Proof.
  unfold pendentes. revert i. induction sl as [|o sl IH]; intros [|i] Hi; simplify_eq/=.
  - rewrite !filter_cons. by repeat case_decide.
  - specialize (IH i Hi). rewrite !filter_cons. case_decide; simpl; lia.
Qed.

Lemma pendentes_le sl : pendentes sl <= length sl.
Proof. apply length_filter. Qed.

Lemma medida_passo s e s' : passo s e s' -> medida s' < medida s.
Proof.
  destruct 1 as [sl i v Hi|sl i Hi]; unfold medida; simpl; [|lia].
  rewrite <- (pendentes_insert sl i v Hi). destruct (saida_de _); lia.
Qed.

(** Delivery in the order [ordem], in which a source may be missing,
    repeated, or not be a source at all: the slots filled are those of the
    sources named. *)
Lemma forkJoin_run_parcial xs ordem D :
  forkJoin_run (de_slots (parcial xs D)) (notificacoes xs ordem) =
    de_slots (parcial xs (D ∪ list_to_set ordem)).
Proof.
  revert D. induction ordem as [|i ordem IH]; intros D.
  { simpl. by rewrite (right_id_L ∅ (∪)). }
  unfold notificacoes. simpl.
  destruct (xs !! i) as [v|] eqn:Hv; simpl; fold (notificacoes xs ordem).
  - destruct (decide (i ∈ D)) as [Hi|Hi].
    + rewrite forkJoin_passo_repetido, IH by done. do 2 f_equal. set_solver.
    + rewrite forkJoin_passo_next
        by (apply parcial_pendente; [by eapply lookup_lt_Some|done]).
      rewrite (parcial_insert _ _ _ _ Hv), IH. do 2 f_equal. set_solver.
  - rewrite IH. f_equal. apply parcial_ext. intros j Hj.
    apply lookup_ge_None in Hv. set_unfold.
    split; [naive_solver|intros [?|[->|?]]; [auto|lia|auto]].
Qed.

Lemma forkJoin_run_init xs ordem :
  xs <> [] ->
  forkJoin_run (forkJoin_init (length xs)) (notificacoes xs ordem) =
    de_slots (parcial xs (list_to_set ordem)).
Proof.
  intros Hne.
  rewrite forkJoin_init_de_slots by by destruct xs.
  rewrite <- parcial_empty, forkJoin_run_parcial.
  by rewrite (left_id_L ∅ (∪)).
Qed.

(** What the reachable states look like. *)
Lemma alcancavel_de_slots xs s :
  xs <> [] -> alcancavel xs s -> exists D, s = de_slots (parcial xs D).
Proof.
  intros Hne. induction 1 as [|s s' i v _ [D ->] Hv Hp].
  - exists ∅. rewrite parcial_empty. apply forkJoin_init_de_slots. by destruct xs.
  - exists ({[i]} ∪ D). inversion Hp as [sl i' v' Hi|]; subst.
    unfold de_slots. by rewrite (parcial_insert _ _ _ _ Hv).
Qed.

Lemma parcial_emitido xs D vs : saida_de (parcial xs D) = Emitido vs -> vs = xs.
Proof.
  rewrite saida_de_emitido, completos_Some. intros E.
  apply list_eq. intros i. apply (f_equal (.!! i)) in E.
  rewrite parcial_lookup, list_lookup_fmap in E.
  destruct (xs !! i), (vs !! i); simplify_eq/=; try done.
  by case_bool_decide.
Qed.

End Passos.

(** ** The guarantees of the join *)

Section Garantias.
Context {A : Type}.
Implicit Types (xs vs : list A) (s : juncao A) (es : list (notificacao A))
  (ordem : list nat).

Lemma forkJoin_run_fechado s es : estado s <> Pendente -> forkJoin_run s es = s.
Proof.
  intros Hs. induction es as [|e es IH]; [done|]. simpl.
  replace (forkJoin_passo s e) with s; [done|].
  unfold forkJoin_passo. by destruct (estado s).
Qed.

Lemma alcancavel_run xs s ordem :
  alcancavel xs s -> alcancavel xs (forkJoin_run s (notificacoes xs ordem)).
Proof.
  revert s. induction ordem as [|i ordem IH]; intros s Hs; [done|].
  unfold notificacoes. simpl. destruct (xs !! i) as [v|] eqn:Hv; simpl; [|by apply IH].
  apply IH. destruct (forkJoin_passo_cases s (Next i v)) as [Hp| ->]; [|done].
  by eapply alc_next.
Qed.

Lemma alcancavel_emitido xs s vs :
  alcancavel xs s -> estado s = Emitido vs -> vs = xs /\ slots s = Some <$> xs.
Proof.
  intros Hs He. destruct xs as [|x xs].
  - destruct Hs as [|s s' i v _ Hv _]; [by simpl in He|by rewrite lookup_nil in Hv].
  - destruct (alcancavel_de_slots (x :: xs) s) as [D ->]; [done..|].
    cbn [estado slots de_slots] in *.
    pose proof (parcial_emitido _ _ _ He) as ->. split; [done|].
    by apply completos_Some, saida_de_emitido.
Qed.

Lemma alcancavel_nao_falha xs s : alcancavel xs s -> estado s <> Falhou.
Proof.
  induction 1 as [|s s' i v _ _ _ Hp]; [done|].
  inversion Hp; subst; simpl. apply saida_de_nao_falha.
Qed.

Lemma notificacoes_app xs ordem mais :
  notificacoes xs (ordem ++ mais) = notificacoes xs ordem ++ notificacoes xs mais.
Proof. apply omap_app. Qed.

Lemma forkJoin_run_app s es es' :
  forkJoin_run s (es ++ es') = forkJoin_run (forkJoin_run s es) es'.
Proof. apply foldl_app. Qed.

(** Sources that all emit are the sources of the first part. *)
Lemma emissoes_Some xs ordem : emissoes (Some <$> xs) ordem = notificacoes xs ordem.
Proof.
  unfold emissoes, notificacoes. induction ordem as [|i ordem IH]; [done|].
  cbn [omap list_omap]. rewrite IH, list_lookup_fmap. by destruct (xs !! i).
Qed.

(** A join that awaits a source that fails is pending until the failure
    is delivered, and has failed from then on, whatever the other sources
    deliver before and after. *)
Lemma forkJoin_run_falha (fontes : list (option A)) ordem sl i :
  fontes !! i = Some None ->
  (forall k, fontes !! k = Some None -> sl !! k = Some None) ->
  estado (forkJoin_run (mkJuncao sl Pendente) (emissoes fontes ordem)) =
    if existsb (falha fontes) ordem then Falhou else Pendente.
Proof.
  intros Hi. revert sl. induction ordem as [|j ordem IH]; intros sl Hsl; [done|].
  unfold emissoes, falha. simpl. fold (emissoes fontes ordem) (falha fontes).
  destruct (fontes !! j) as [[v|]|] eqn:Hj; simpl; [|clear IH|by apply IH].
  - assert (j <> i) as Hne by congruence.
    unfold forkJoin_passo. simpl. destruct (sl !! j) as [[w|]|] eqn:Hslj; try by apply IH.
    rewrite (saida_de_pendente _ i) by (rewrite list_lookup_insert_ne by done; auto).
    apply IH. intros k Hk. rewrite list_lookup_insert_ne by congruence. auto.
  - unfold forkJoin_passo. simpl. rewrite (Hsl j Hj). by rewrite forkJoin_run_fechado.
Qed.

Lemma forkJoin_init_falha (fontes : list (option A)) ordem i :
  fontes !! i = Some None ->
  estado (forkJoin_run (forkJoin_init (length fontes)) (emissoes fontes ordem)) =
    if existsb (falha fontes) ordem then Falhou else Pendente.
Proof.
  intros Hi. apply (forkJoin_run_falha fontes ordem _ i Hi).
  intros k Hk. apply lookup_replicate_2. by eapply lookup_lt_Some.
Qed.

(** Every source named in [ordem]: the join emits, whatever else [ordem]
    holds. *)
Lemma forkJoin_run_todos xs ordem :
  xs <> [] -> (forall i, i < length xs -> i ∈ ordem) ->
  estado (forkJoin_run (forkJoin_init (length xs)) (notificacoes xs ordem)) = Emitido xs.
Proof.
  intros Hne Hin. rewrite forkJoin_run_init by done.
  simpl. apply saida_de_emitido, parcial_completo.
  intros i Hi. rewrite elem_of_list_to_set. by apply Hin.
Qed.

(** Order preservation: when every source has delivered, in whatever
    order, the join emits the values in the order of the sources. *)
Lemma forkJoin_ordem_chegada xs ordem :
  xs <> [] -> ordem ≡ₚ seq 0 (length xs) ->
  estado (forkJoin_run (forkJoin_init (length xs)) (notificacoes xs ordem)) = Emitido xs.
Proof.
  intros Hne Hp.
  apply forkJoin_run_todos; [done|].
  intros i Hi. rewrite Hp, elem_of_seq. lia.
Qed.

(** No partial result: as long as one source has not delivered the join
    has emitted nothing. *)
Lemma forkJoin_sem_parciais xs ordem i :
  i < length xs -> i ∉ ordem ->
  estado (forkJoin_run (forkJoin_init (length xs)) (notificacoes xs ordem)) = Pendente.
Proof.
  intros Hi Hni.
  rewrite forkJoin_run_init by (destruct xs; simpl in *; [lia|done]).
  simpl. apply (saida_de_pendente _ i), parcial_pendente; [done|].
  by rewrite elem_of_list_to_set.
Qed.

(** Whatever the sources [xs] do, in any order and any number of
    times, the only value the join ever emits is [xs], it emits it with all
    slots filled, and it never fails. *)
Theorem forkJoin_seguro xs s :
  alcancavel xs s ->
  estado s <> Falhou /\
  length (slots s) = length xs /\
  (forall vs, estado s = Emitido vs -> vs = xs /\ slots s = Some <$> xs).
Proof.
  intros Hs. split_and!.
  - by eapply alcancavel_nao_falha.
  - induction Hs as [|s s' i v _ IH _ Hp]; simpl; [by rewrite length_replicate|].
    inversion Hp; subst; simpl in *. by rewrite length_insert.
  - intros vs. by apply alcancavel_emitido.
Qed.

(** Termination: every step decreases [medida], so an execution
    from a join over [n] sources has at most [n + 1] steps. *)
Theorem forkJoin_termina s es s' :
  passos s es s' -> length es + medida s' <= medida s.
Proof.
  induction 1 as [|s e s1 es s2 H1 _ IH]; simpl; [lia|].
  pose proof (medida_passo _ _ _ H1). lia.
Qed.

(** Progress: a reachable join that is still pending waits for a
    source that has not delivered, and accepts its value. *)
Theorem forkJoin_progresso xs s :
  xs <> [] -> alcancavel xs s -> estado s = Pendente ->
  exists i v s', xs !! i = Some v /\ passo s (Next i v) s'.
Proof.
  intros Hne Hs He. destruct (alcancavel_de_slots _ _ Hne Hs) as [D ->].
  simpl in He. unfold saida_de in He.
  destruct (completos (parcial xs D)) eqn:Ec; [done|].
  apply completos_None in Ec as [i Hi].
  pose proof Hi as Hi'. rewrite parcial_lookup in Hi'.
  destruct (xs !! i) as [v|] eqn:Hv; [|done].
  exists i, v, (mkJuncao (<[i:=Some v]> (parcial xs D)) (saida_de (<[i:=Some v]> (parcial xs D)))).
  split; [done|]. unfold de_slots. rewrite (saida_de_pendente _ i Hi). by constructor.
Qed.

(** A join over no source never emits: this is why
    [calcularEmissao] treats the trip without legs apart. *)
Theorem forkJoin_vazio es :
  forkJoin_run (forkJoin_init 0) es = forkJoin_init (A := A) 0.
Proof.
  induction es as [|e es IH]; [done|]. simpl.
  by destruct e.
Qed.

(** An error of a source that is awaited makes the join fail, and
    a join that has failed or emitted ignores everything that follows. *)
Theorem forkJoin_erro sl i es :
  sl !! i = Some None ->
  forkJoin_run (mkJuncao sl Pendente) (Erro i :: es) = mkJuncao sl Falhou.
Proof.
  intros Hi. change (forkJoin_run ?s (?e :: ?l)) with (forkJoin_run (forkJoin_passo s e) l).
  rewrite (passo_forkJoin_passo _ _ _ (passo_erro sl i Hi)).
  by apply forkJoin_run_fechado.
Qed.

End Garantias.

Lemma forkJoin_seguro_witness :
  let s := forkJoin_run (forkJoin_init 2) [Next 1 7%nat; Next 0 5%nat] in
  estado s <> Falhou /\ length (slots s) = 2%nat /\
  (forall vs, estado s = Emitido vs -> vs = [5; 7]%nat /\ slots s = Some <$> [5; 7]%nat).
Proof.
  apply (forkJoin_seguro [5; 7]%nat).
  apply (alcancavel_run [5; 7]%nat _ [1; 0]%nat), alc_init.
Defined.

Lemma forkJoin_termina_witness :
  (length [Next 0 5%nat] + medida (forkJoin_run (forkJoin_init 1) [Next 0 5%nat])
     <= medida (forkJoin_init (A := nat) 1))%nat.
Proof.
  apply forkJoin_termina. eapply passos_cons; [|apply passos_nil].
  by apply (passo_next [None] 0 5%nat).
Defined.

Lemma forkJoin_progresso_witness :
  exists i v s', [5; 7]%nat !! i = Some v /\
    passo (forkJoin_run (forkJoin_init 2) [Next 1 7%nat]) (Next i v) s'.
Proof.
  apply (forkJoin_progresso [5; 7]%nat); [done| |done].
  apply (alcancavel_run [5; 7]%nat _ [1]%nat), alc_init.
Defined.

Lemma forkJoin_erro_witness :
  forkJoin_run (mkJuncao [None; Some 7%nat] Pendente) [Erro 0; Next 0 5%nat]
    = mkJuncao [None; Some 7%nat] Falhou.
Proof. by apply forkJoin_erro. Defined.

(** ** The observable of [calcularEmissao] *)

Section ObservableFacts.
Context `{G : Geocoder}.
Implicit Types (v : ViagemData) (ordem : list nat).

Lemma calcularEmissao_obs_alcancavel v ordem :
  let xs := imap (calcularTrecho v) (v_trechos v) in
  alcancavel xs (forkJoin_run (forkJoin_init (length xs)) (notificacoes xs ordem)).
Proof. apply alcancavel_run, alc_init. Qed.

(** With sources that all emit, the pipeline is the join over their
    values. *)
Lemma calcularEmissao_obs_unfold v ordem :
  calcularEmissao_obs v ordem =
    let xs := imap (calcularTrecho v) (v_trechos v) in
    if bool_decide (length xs = 0%nat)
    then Some (processarCalculoMultiploTrechos v [])
    else
      match estado (forkJoin_run (forkJoin_init (length xs)) (notificacoes xs ordem)) with
      | Emitido resultados => Some (processarCalculoMultiploTrechos v resultados)
      | Falhou => Some (processarCalculoMultiploTrechos v [])
      | Pendente => None
      end.
Proof.
  unfold calcularEmissao_obs, calcularEmissao_de. cbv zeta.
  by rewrite length_fmap, emissoes_Some.
Qed.

(** [C4] Fan-in: when every leg has delivered, in whatever order, the
    observable emits the report [calcularEmissao] computes, with the legs in
    the order of the trip. *)
Theorem calcularEmissao_obs_ordem v ordem :
  ordem ≡ₚ seq 0 (length (v_trechos v)) ->
  calcularEmissao_obs v ordem = Some (calcularEmissao v).
Proof.
  intros Hp. unfold calcularEmissao_obs, calcularEmissao_de, calcularEmissao. cbv zeta.
  rewrite length_fmap, emissoes_Some. case_bool_decide as Hn; [done|].
  rewrite forkJoin_ordem_chegada; [done|by intros E; rewrite E in Hn|].
  by rewrite length_imap.
Qed.

(** No partial report: while a leg of the trip has not delivered,
    nothing is emitted. *)
Theorem calcularEmissao_obs_pendente v ordem i :
  i < length (v_trechos v) -> i ∉ ordem ->
  calcularEmissao_obs v ordem = None.
Proof.
  intros Hi Hni. rewrite calcularEmissao_obs_unfold. cbv zeta.
  rewrite bool_decide_eq_false_2 by (rewrite length_imap; lia).
  rewrite (forkJoin_sem_parciais _ _ i); rewrite ?length_imap; done.
Qed.

(** [C13] Whatever is delivered, in any order and any number of times,
    the observable emits nothing or the report of [calcularEmissao]: the
    error branch of [calcularEmissao] is never taken. *)
Theorem calcularEmissao_obs_seguro v ordem r :
  calcularEmissao_obs v ordem = Some r -> r = calcularEmissao v.
Proof.
  rewrite calcularEmissao_obs_unfold. unfold calcularEmissao. cbv zeta.
  case_bool_decide as Hn; [congruence|].
  pose proof (calcularEmissao_obs_alcancavel v ordem) as Hs. cbv zeta in Hs.
  destruct (estado _) as [|vs|] eqn:He; [done| |].
  - destruct (alcancavel_emitido _ _ _ Hs He) as [-> _]. congruence.
  - by destruct (alcancavel_nao_falha _ _ Hs).
Qed.

(** Liveness: after any deliveries whatever, repeated or of no leg
    of the trip, the observable emits the report of [calcularEmissao] as soon
    as every leg has delivered. *)
Theorem calcularEmissao_obs_completa v ordem :
  calcularEmissao_obs v (ordem ++ seq 0 (length (v_trechos v))) = Some (calcularEmissao v).
Proof.
  rewrite calcularEmissao_obs_unfold. unfold calcularEmissao. cbv zeta.
  case_bool_decide as Hn; [done|].
  rewrite forkJoin_run_todos; [done|by intros E; rewrite E in Hn|].
  intros i Hi. rewrite length_imap in Hi. rewrite elem_of_app, elem_of_seq. right. lia.
Qed.

(** The observable emits once: what it has emitted is not changed by
    anything that is delivered afterwards. *)
Theorem calcularEmissao_obs_estavel v ordem mais r :
  calcularEmissao_obs v ordem = Some r -> calcularEmissao_obs v (ordem ++ mais) = Some r.
Proof.
  rewrite !calcularEmissao_obs_unfold. cbv zeta. case_bool_decide as Hn; [done|].
  rewrite notificacoes_app, forkJoin_run_app.
  destruct (estado (forkJoin_run _ (notificacoes _ ordem))) eqn:He; [done| |];
    intros Hr; by rewrite forkJoin_run_fechado, He by by rewrite He.
Qed.

(** [C35] Error handling: when the observable of one leg of the trip fails,
    [calcularEmissao] emits nothing until the failure is delivered, and from
    then on the report of a trip without legs, all figures zero, whatever
    the other legs have delivered or deliver afterwards; the values that
    arrived are dropped. *)
Theorem calcularEmissao_de_falha v (fontes : list (option ResultadoTrecho)) ordem i :
  fontes !! i = Some None ->
  calcularEmissao_de v fontes ordem =
    if existsb (falha fontes) ordem then Some (processarCalculoMultiploTrechos v [])
    else None.
Proof.
  intros Hi. unfold calcularEmissao_de.
  rewrite bool_decide_eq_false_2 by (apply lookup_lt_Some in Hi; lia).
  rewrite (forkJoin_init_falha fontes ordem i Hi). by destruct (existsb _ _).
Qed.

End ObservableFacts.

Lemma calcularEmissao_obs_ordem_witness :
  let v := viagemExemplo
             [trechoExemplo "carro" (Some 15%Q); trechoExemplo "trem" (Some 300%Q)] false in
  @calcularEmissao_obs (geocoderConstante 80%Q 500%Q) v [1; 0]%nat
    = Some (@calcularEmissao (geocoderConstante 80%Q 500%Q) v).
Proof. apply @calcularEmissao_obs_ordem. simpl. solve_Permutation. Defined.

Lemma calcularEmissao_obs_pendente_witness :
  @calcularEmissao_obs (geocoderConstante 80%Q 500%Q)
    (viagemExemplo [trechoExemplo "carro" (Some 15%Q); trechoExemplo "trem" (Some 300%Q)] false)
    [1]%nat = None.
Proof.
  apply (@calcularEmissao_obs_pendente _ _ [1]%nat 0); simpl.
  - lia.
  - set_unfold. lia.
Defined.

Lemma calcularEmissao_obs_seguro_witness :
  let v := viagemExemplo [trechoExemplo "carro" (Some 15%Q)] false in
  processarCalculoMultiploTrechos v
      [@calcularTrecho (geocoderConstante 80%Q 500%Q) v 0 (trechoExemplo "carro" (Some 15%Q))]
    = @calcularEmissao (geocoderConstante 80%Q 500%Q) v.
Proof. by apply (@calcularEmissao_obs_seguro (geocoderConstante 80%Q 500%Q) _ [0; 0]%nat). Defined.

Lemma calcularEmissao_obs_estavel_witness :
  let v := viagemExemplo [trechoExemplo "carro" (Some 15%Q)] false in
  @calcularEmissao_obs (geocoderConstante 80%Q 500%Q) v ([0] ++ [0; 3])%nat
    = Some (@calcularEmissao (geocoderConstante 80%Q 500%Q) v).
Proof.
  apply (@calcularEmissao_obs_estavel (geocoderConstante 80%Q 500%Q)). by vm_compute.
Defined.

Lemma calcularEmissao_de_falha_witness :
  let v := viagemExemplo
             [trechoExemplo "carro" (Some 15%Q); trechoExemplo "trem" (Some 300%Q)] false in
  let r := @calcularTrecho (geocoderConstante 80%Q 500%Q) v 0
             (trechoExemplo "carro" (Some 15%Q)) in
  calcularEmissao_de v [Some r; None] [0; 1; 0]%nat
    = Some (processarCalculoMultiploTrechos v []).
Proof. intros v r. by rewrite (calcularEmissao_de_falha v [Some r; None] _ 1%nat). Defined.
