(* ===== verification/Storage.v ===== *)
(** * Storage: trips and the event in [localStorage]

    The persistence methods of [CarbonCalculatorService]: [salvarViagem],
    [obterViagens], [excluirViagem], [salvarEvento], [obterEvento] and
    [removerEvento].  [localStorage] is a finite map from keys to strings.
    [JSON.stringify] and [JSON.parse] are the class [Json]: a printer and a
    parser of which the file assumes only that parsing a printed value gives
    the value back and that a printed value is not the empty string.  A
    method that throws (because [JSON.parse] does) returns [None]. *)

From S2P Require Import Prelude Calculator.

Local Open Scope string_scope.

(** ** [localStorage] *)

Definition localStorage := gmap string string.

Definition getItem (key : string) (ls : localStorage) : option string := ls !! key.

Definition setItem (key value : string) (ls : localStorage) : localStorage :=
  <[key := value]> ls.

Definition removeItem (key : string) (ls : localStorage) : localStorage :=
  delete key ls.

(** ** [JSON] *)

Class Json (A : Type) := {
  JSON_stringify : A -> string;
  JSON_parse : string -> option A;
  JSON_parse_stringify x : JSON_parse (JSON_stringify x) = Some x;
  JSON_stringify_truthy x : truthy_str (JSON_stringify x) = true
}.

(** ** The stored objects *)

(** An element of the stored array: the object
    [{...viagem, resultado, dataCalculo}].  The array is typed [any[]] and
    the callers spread objects of different shapes, so every property is
    optional. *)
Record ViagemRegistro := mkRegistro {
  a_nome : option string;
  a_email : option string;
  a_cpf : option string;
  a_telefone : option string;
  a_destinoCidade : option string;
  a_destinoEstado : option string;
  a_destinoPais : option string;
  a_trechos : option (list TrechoViagem);
  a_dataViagem : option string;
  a_dataRetorno : option string;
  a_idaEVolta : option bool;
  a_observacoes : option string;
  a_diasNoEvento : option Q;
  a_resultado : option CalculoResultado;
  a_dataCalculo : option string
}.

(** A [ViagemData] as an object. *)
Definition objeto_ViagemData (v : ViagemData) : ViagemRegistro :=
  {| a_nome := Some (v_nome v);
     a_email := Some (v_email v);
     a_cpf := Some (v_cpf v);
     a_telefone := Some (v_telefone v);
     a_destinoCidade := Some (v_destinoCidade v);
     a_destinoEstado := Some (v_destinoEstado v);
     a_destinoPais := Some (v_destinoPais v);
     a_trechos := Some (v_trechos v);
     a_dataViagem := Some (v_dataViagem v);
     a_dataRetorno := v_dataRetorno v;
     a_idaEVolta := Some (v_idaEVolta v);
     a_observacoes := v_observacoes v;
     a_diasNoEvento := None;
     a_resultado := None;
     a_dataCalculo := None |}.

(** [{...viagem, resultado, dataCalculo: new Date().toISOString()}]; the
    clock is the argument [agora]. *)
Definition dadosViagem (viagem : ViagemRegistro) (resultado : CalculoResultado)
    (agora : string) : ViagemRegistro :=
  {| a_nome := a_nome viagem;
     a_email := a_email viagem;
     a_cpf := a_cpf viagem;
     a_telefone := a_telefone viagem;
     a_destinoCidade := a_destinoCidade viagem;
     a_destinoEstado := a_destinoEstado viagem;
     a_destinoPais := a_destinoPais viagem;
     a_trechos := a_trechos viagem;
     a_dataViagem := a_dataViagem viagem;
     a_dataRetorno := a_dataRetorno viagem;
     a_idaEVolta := a_idaEVolta viagem;
     a_observacoes := a_observacoes viagem;
     a_diasNoEvento := a_diasNoEvento viagem;
     a_resultado := Some resultado;
     a_dataCalculo := Some agora |}.

(** [array.splice(index, 1)]: the array without the element at [index].  A
    negative index counts from the end, and an index outside the array is
    clamped to it. *)
Definition splice1 {A} (index : Z) (l : list A) : list A :=
  let len := Z.of_nat (length l) in
  let start := if (index <? 0)%Z then Z.max (len + index) 0 else Z.min index len in
  (take (Z.to_nat start) l ++ drop (S (Z.to_nat start)) l)%list.

(** ** The methods *)

Section Storage.
Context `{JV : Json (list ViagemRegistro)} `{JE : Json EventoConfig}.

Definition obterViagens (ls : localStorage) : option (list ViagemRegistro) :=
  match getItem "viagens_carbono" ls with
  | Some dados => if truthy_str dados then JSON_parse dados else Some []
  | None => Some []
  end.

Definition salvarViagem (viagem : ViagemRegistro) (resultado : CalculoResultado)
    (agora : string) (ls : localStorage) : option localStorage :=
  let dados := dadosViagem viagem resultado agora in
  viagens ← obterViagens ls;
  Some (setItem "viagens_carbono" (JSON_stringify (viagens ++ [dados])%list) ls).

Definition excluirViagem (index : Z) (ls : localStorage) : option localStorage :=
  viagens ← obterViagens ls;
  Some (setItem "viagens_carbono" (JSON_stringify (splice1 index viagens)) ls).

Definition salvarEvento (evento : EventoConfig) (ls : localStorage) : localStorage :=
  setItem "evento_config" (JSON_stringify evento) ls.

(** [Some None] is the result [null]. *)
Definition obterEvento (ls : localStorage) : option (option EventoConfig) :=
  match getItem "evento_config" ls with
  | Some dados => if truthy_str dados then Some <$> JSON_parse dados else Some None
  | None => Some None
  end.

Definition removerEvento (ls : localStorage) : localStorage :=
  removeItem "evento_config" ls.

(** A store from which both readers return. *)
Definition bem_formado (ls : localStorage) : Prop :=
  is_Some (obterViagens ls) /\ is_Some (obterEvento ls).

End Storage.

(** ** [splice] *)

Section Splice.
Context {A : Type}.
Implicit Types (l : list A) (index : Z).

Lemma splice1_dentro l (i : nat) :
  i < length l -> splice1 (Z.of_nat i) l = delete i l.
Proof.
  intros Hi. unfold splice1. cbv zeta.
  rewrite (proj2 (Z.ltb_ge _ _)) by lia.
  rewrite Z.min_l, Nat2Z.id by lia.
  revert i Hi. induction l as [|x l IH]; intros [|i] Hi; simpl in *; try lia; [done|].
  f_equal. apply IH. lia.
Qed.

Lemma splice1_fora l index : (Z.of_nat (length l) <= index)%Z -> splice1 index l = l.
Proof.
  intros Hi. unfold splice1. cbv zeta.
  rewrite (proj2 (Z.ltb_ge _ _)) by lia.
  rewrite Z.min_r, Nat2Z.id by lia.
  by rewrite take_ge, drop_ge, app_nil_r by lia.
Qed.

Lemma splice1_negativo l index :
  (- Z.of_nat (length l) <= index < 0)%Z ->
  splice1 index l = delete (Z.to_nat (Z.of_nat (length l) + index)) l.
Proof.
  intros Hi. rewrite <- splice1_dentro by lia.
  unfold splice1. cbv zeta.
  rewrite (proj2 (Z.ltb_lt _ _)), (proj2 (Z.ltb_ge _ _)) by lia.
  by rewrite Z.max_l, Z.min_l, Z2Nat.id by lia.
Qed.

Lemma splice1_muito_negativo l index :
  (index < - Z.of_nat (length l))%Z -> splice1 index l = drop 1 l.
Proof.
  intros Hi. unfold splice1. cbv zeta.
  rewrite (proj2 (Z.ltb_lt _ _)) by lia.
  by rewrite Z.max_r by lia.
Qed.

Lemma length_splice1 l index :
  length (splice1 index l) =
    if bool_decide (Z.of_nat (length l) <= index)%Z then length l else pred (length l).
Proof.
  case_bool_decide as H; [by rewrite splice1_fora|].
  unfold splice1. cbv zeta. rewrite length_app, length_take, length_drop.
  destruct (index <? 0)%Z eqn:E; [apply Z.ltb_lt in E|apply Z.ltb_ge in E]; lia.
Qed.

End Splice.

(** ** The laws of [localStorage] *)

Lemma getItem_setItem k v ls : getItem k (setItem k v ls) = Some v.
Proof. apply lookup_insert_eq. Qed.

Lemma getItem_setItem_ne k k' v ls : k <> k' -> getItem k' (setItem k v ls) = getItem k' ls.
Proof. apply lookup_insert_ne. Qed.

Lemma getItem_removeItem k ls : getItem k (removeItem k ls) = None.
Proof. apply lookup_delete_eq. Qed.

Lemma getItem_removeItem_ne k k' ls : k <> k' -> getItem k' (removeItem k ls) = getItem k' ls.
Proof. apply lookup_delete_ne. Qed.

#[export] Hint Rewrite getItem_setItem getItem_removeItem : js_rw.
#[export] Hint Rewrite getItem_setItem_ne getItem_removeItem_ne using done : js_rw.

(** ** The store *)

Section StorageFacts.
Context `{JV : Json (list ViagemRegistro)} `{JE : Json EventoConfig}.
Implicit Types (ls : localStorage) (vs : list ViagemRegistro) (e : EventoConfig).

Lemma obterViagens_setItem ls vs :
  obterViagens (setItem "viagens_carbono" (JSON_stringify vs) ls) = Some vs.
Proof.
  unfold obterViagens. rewrite getItem_setItem.
  by rewrite JSON_stringify_truthy, JSON_parse_stringify.
Qed.

(** The readers depend on their own key only. *)
Lemma obterViagens_outra_chave ls ls' :
  getItem "viagens_carbono" ls' = getItem "viagens_carbono" ls ->
  obterViagens ls' = obterViagens ls.
Proof. unfold obterViagens. by intros ->. Qed.

Lemma obterEvento_outra_chave ls ls' :
  getItem "evento_config" ls' = getItem "evento_config" ls ->
  obterEvento ls' = obterEvento ls.
Proof. unfold obterEvento. by intros ->. Qed.

Lemma obterEvento_setItem ls e :
  obterEvento (setItem "evento_config" (JSON_stringify e) ls) = Some (Some e).
Proof.
  unfold obterEvento. rewrite getItem_setItem.
  by rewrite JSON_stringify_truthy, JSON_parse_stringify.
Qed.

Lemma salvarViagem_Some ls vs v r agora :
  obterViagens ls = Some vs ->
  salvarViagem v r agora ls =
    Some (setItem "viagens_carbono" (JSON_stringify (vs ++ [dadosViagem v r agora])%list) ls).
Proof. unfold salvarViagem. by intros ->. Qed.

Lemma excluirViagem_Some ls vs index :
  obterViagens ls = Some vs ->
  excluirViagem index ls =
    Some (setItem "viagens_carbono" (JSON_stringify (splice1 index vs)) ls).
Proof. unfold excluirViagem. by intros ->. Qed.

(** [C16] A saved trip is read back: after [salvarViagem] the stored
    array is the former array followed by the new record, which carries the
    result and the time of the computation. *)
Theorem salvarViagem_obterViagens ls vs v r agora :
  obterViagens ls = Some vs ->
  exists ls', salvarViagem v r agora ls = Some ls' /\
    obterViagens ls' = Some (vs ++ [dadosViagem v r agora])%list /\
    a_resultado (dadosViagem v r agora) = Some r.
Proof.
  intros Hvs. eexists. split; [by apply salvarViagem_Some|].
  by rewrite obterViagens_setItem.
Qed.

(** [excluirViagem] with an index of the array removes exactly the
    element at that index. *)
Theorem excluirViagem_indice ls vs (i : nat) :
  obterViagens ls = Some vs -> i < length vs ->
  exists ls', excluirViagem (Z.of_nat i) ls = Some ls' /\
    obterViagens ls' = Some (delete i vs).
Proof.
  intros Hvs Hi. eexists. split; [by apply excluirViagem_Some|].
  by rewrite obterViagens_setItem, splice1_dentro.
Qed.

(** [C40] [excluirViagem] with an index past the end rewrites the array
    unchanged, and with a negative index it removes an element counted from
    the end. *)
Theorem excluirViagem_fora_do_array ls vs index :
  obterViagens ls = Some vs ->
  exists ls', excluirViagem index ls = Some ls' /\
    ((Z.of_nat (length vs) <= index)%Z -> obterViagens ls' = Some vs) /\
    ((- Z.of_nat (length vs) <= index < 0)%Z ->
       obterViagens ls' = Some (delete (Z.to_nat (Z.of_nat (length vs) + index)) vs)).
Proof.
  intros Hvs. eexists. split; [by apply excluirViagem_Some|].
  rewrite obterViagens_setItem.
  split; intros Hi; [by rewrite splice1_fora|by rewrite splice1_negativo].
Qed.

(** When the stored text is not what [JSON.parse] accepts, reading
    throws, and so do [salvarViagem] and [excluirViagem]: nothing is
    written. *)
Theorem viagens_corrompidas ls v r agora index :
  obterViagens ls = None ->
  salvarViagem v r agora ls = None /\ excluirViagem index ls = None.
Proof. unfold salvarViagem, excluirViagem. by intros ->. Qed.

(** The event is read back after [salvarEvento], and [null] after
    [removerEvento]. *)
Lemma evento_roundtrip ls e :
  obterEvento (salvarEvento e ls) = Some (Some e) /\
  obterEvento (removerEvento ls) = Some None.
Proof.
  split; [apply obterEvento_setItem|].
  unfold obterEvento, removerEvento. by rewrite getItem_removeItem.
Qed.

Lemma obterViagens_evento ls e :
  obterViagens (salvarEvento e ls) = obterViagens ls /\
  obterViagens (removerEvento ls) = obterViagens ls.
Proof.
  split.
  - by apply obterViagens_outra_chave, getItem_setItem_ne.
  - by apply obterViagens_outra_chave, getItem_removeItem_ne.
Qed.

(** Trips and event do not interfere: the methods on one leave the
    other as it is. *)
Theorem viagens_evento_independentes ls ls' e v r agora index :
  obterViagens (salvarEvento e ls) = obterViagens ls /\
  obterViagens (removerEvento ls) = obterViagens ls /\
  (salvarViagem v r agora ls = Some ls' -> obterEvento ls' = obterEvento ls) /\
  (excluirViagem index ls = Some ls' -> obterEvento ls' = obterEvento ls).
Proof.
  split_and!; try apply (obterViagens_evento ls e).
  - unfold salvarViagem. intros H. destruct (obterViagens ls); simplify_eq/=.
    by apply obterEvento_outra_chave, getItem_setItem_ne.
  - unfold excluirViagem. intros H. destruct (obterViagens ls); simplify_eq/=.
    by apply obterEvento_outra_chave, getItem_setItem_ne.
Qed.

Lemma bem_formado_setItem_viagens ls vs :
  bem_formado ls -> bem_formado (setItem "viagens_carbono" (JSON_stringify vs) ls).
Proof.
  intros [_ [oe He]]. split; [by rewrite obterViagens_setItem|].
  by rewrite (obterEvento_outra_chave ls), He by by apply getItem_setItem_ne.
Qed.

Lemma bem_formado_salvarViagem ls ls' v r agora :
  bem_formado ls -> salvarViagem v r agora ls = Some ls' -> bem_formado ls'.
Proof.
  intros Hb. pose proof Hb as [[vs Hvs] _].
  rewrite (salvarViagem_Some _ _ _ _ _ Hvs). intros [= <-].
  by apply bem_formado_setItem_viagens.
Qed.

Lemma bem_formado_excluirViagem ls ls' index :
  bem_formado ls -> excluirViagem index ls = Some ls' -> bem_formado ls'.
Proof.
  intros Hb. pose proof Hb as [[vs Hvs] _].
  rewrite (excluirViagem_Some _ _ _ Hvs). intros [= <-].
  by apply bem_formado_setItem_viagens.
Qed.

Lemma bem_formado_evento ls e :
  bem_formado ls -> bem_formado (salvarEvento e ls) /\ bem_formado (removerEvento ls).
Proof.
  intros [[vs Hvs] _].
  destruct (obterViagens_evento ls e) as [E1 E2].
  destruct (evento_roundtrip ls e) as [R1 R2].
  split; split; by rewrite ?E1, ?E2, ?R1, ?R2, ?Hvs.
Qed.

(** The methods keep the store readable: from a store that both
    readers accept, every method returns, and leaves such a store. *)
Theorem bem_formado_preservado ls e v r agora index :
  bem_formado ls ->
  bem_formado (salvarEvento e ls) /\ bem_formado (removerEvento ls) /\
  (exists ls', salvarViagem v r agora ls = Some ls' /\ bem_formado ls') /\
  (exists ls', excluirViagem index ls = Some ls' /\ bem_formado ls').
Proof.
  intros Hb. pose proof Hb as [[vs Hvs] _].
  destruct (bem_formado_evento ls e Hb) as [H1 H2]. split_and!; [done..| |].
  - eexists. split; [by apply salvarViagem_Some|by apply bem_formado_setItem_viagens].
  - eexists. split; [by apply excluirViagem_Some|by apply bem_formado_setItem_viagens].
Qed.

End StorageFacts.

(** ** A codec that satisfies the laws

    Any countable type has a printer and a parser with the two laws of
    [Json]: the code of the value, in binary behind a letter.  It stands for
    [JSON] wherever a theorem of this development is run on a store. *)

Definition ch0 : Ascii.ascii := Ascii.ascii_of_nat 48.
Definition ch1 : Ascii.ascii := Ascii.ascii_of_nat 49.
Definition chJ : Ascii.ascii := Ascii.ascii_of_nat 74.

Fixpoint pos_to_string (p : positive) : string :=
  match p with
  | xH => ""
  | xO p => String ch0 (pos_to_string p)
  | xI p => String ch1 (pos_to_string p)
  end.

Fixpoint string_to_pos (s : string) : option positive :=
  match s with
  | "" => Some xH
  | String c s =>
      if Ascii.eqb c ch0 then xO <$> string_to_pos s
      else if Ascii.eqb c ch1 then xI <$> string_to_pos s
      else None
  end.

Lemma string_to_pos_to_string p : string_to_pos (pos_to_string p) = Some p.
Proof. induction p as [p IH|p IH|]; simpl; by rewrite ?IH. Qed.

Definition codec_stringify `{Countable A} (x : A) : string :=
  String chJ (pos_to_string (encode x)).

Definition codec_parse `{Countable A} (s : string) : option A :=
  match s with
  | String c s => if Ascii.eqb c chJ then string_to_pos s ≫= decode else None
  | EmptyString => None
  end.

Lemma codec_parse_stringify `{Countable A} (x : A) :
  codec_parse (codec_stringify x) = Some x.
Proof.
  unfold codec_parse, codec_stringify. simpl.
  by rewrite string_to_pos_to_string; simpl; rewrite decode_encode.
Qed.

Definition json_countable `{Countable A} : Json A :=
  {| JSON_stringify := codec_stringify;
     JSON_parse := codec_parse;
     JSON_parse_stringify := codec_parse_stringify;
     JSON_stringify_truthy _ := eq_refl |}.

#[export] Instance Q_eq_dec : EqDecision Q.
Proof. solve_decision. Defined.
#[export] Instance TrechoViagem_eq_dec : EqDecision TrechoViagem.
Proof. solve_decision. Defined.
#[export] Instance ResultadoTrecho_eq_dec : EqDecision ResultadoTrecho.
Proof. solve_decision. Defined.
#[export] Instance CalculoResultado_eq_dec : EqDecision CalculoResultado.
Proof. solve_decision. Defined.
#[export] Instance EventoConfig_eq_dec : EqDecision EventoConfig.
Proof. solve_decision. Defined.
#[export] Instance ViagemRegistro_eq_dec : EqDecision ViagemRegistro.
Proof. solve_decision. Defined.

#[export] Instance Q_countable : Countable Q.
Proof.
  apply (inj_countable' (fun q => (Qnum q, Qden q)) (fun p => Qmake p.1 p.2)).
  by intros [].
Defined.

#[export] Instance TrechoViagem_countable : Countable TrechoViagem.
Proof.
  apply (inj_countable'
    (fun t => (meioTransporte t, distanciaKm t, origemCidade t, origemEstado t,
               Calculator.destinoCidade t, Calculator.destinoEstado t, cepOrigem t,
               tipoCombustivel t, numeroPassageiros t, classeVoo t, consumoMedio t))
    (fun '(a, b, c, d, e, f, g, h, i, j, k) => mkTrecho a b c d e f g h i j k)).
  by intros [].
Defined.

#[export] Instance ResultadoTrecho_countable : Countable ResultadoTrecho.
Proof.
  apply (inj_countable' (fun r => (trecho r, distancia r, emissao r))
    (fun '(a, b, c) => mkResultadoTrecho a b c)).
  by intros [].
Defined.

#[export] Instance CalculoResultado_countable : Countable CalculoResultado.
Proof.
  apply (inj_countable'
    (fun r => (emissaoCO2 r, creditosCarbono r, equivalenteArvores r,
               equivalenteKmCarro r, distanciaTotal r, trechos r))
    (fun '(a, b, c, d, e, f) => mkResultado a b c d e f)).
  by intros [].
Defined.

#[export] Instance EventoConfig_countable : Countable EventoConfig.
Proof.
  apply (inj_countable'
    (fun e => (ev_cidade e, ev_estado e, ev_pais e, ev_cep e, ev_nomeEvento e,
               ev_dataInicio e, ev_dataFim e))
    (fun '(a, b, c, d, e, f, g) => mkEvento a b c d e f g)).
  by intros [].
Defined.

#[export] Instance ViagemRegistro_countable : Countable ViagemRegistro.
Proof.
  apply (inj_countable'
    (fun v => (a_nome v, a_email v, a_cpf v, a_telefone v, a_destinoCidade v,
               a_destinoEstado v, a_destinoPais v, a_trechos v, a_dataViagem v,
               a_dataRetorno v, a_idaEVolta v, a_observacoes v, a_diasNoEvento v,
               a_resultado v, a_dataCalculo v))
    (fun '(a, b, c, d, e, f, g, h, i, j, k, l, m, n, o) =>
       mkRegistro a b c d e f g h i j k l m n o)).
  by intros [].
Defined.

#[export] Instance json_viagens : Json (list ViagemRegistro) := json_countable.
#[export] Instance json_evento : Json EventoConfig := json_countable.

(** ** Examples *)

Definition resultadoExemplo : CalculoResultado := mkResultado 4.8 0.005 1 25 100 [].

Definition registroExemplo (nome : string) : ViagemRegistro :=
  dadosViagem (objeto_ViagemData (viagemExemplo [] false)) resultadoExemplo nome.

Definition eventoExemplo : EventoConfig :=
  mkEvento "Vitória" "ES" "Brasil" (Some "29000-000") None None None.

Definition lojaExemplo (vs : list ViagemRegistro) : localStorage :=
  setItem "viagens_carbono" (JSON_stringify vs) ∅.

Lemma salvarViagem_obterViagens_witness :
  exists ls', salvarViagem (objeto_ViagemData (viagemExemplo [] false)) resultadoExemplo
                "2025-01-01T00:00:00.000Z" ∅ = Some ls' /\
    obterViagens ls' = Some [registroExemplo "2025-01-01T00:00:00.000Z"] /\
    a_resultado (registroExemplo "2025-01-01T00:00:00.000Z") = Some resultadoExemplo.
Proof. by apply (salvarViagem_obterViagens ∅ []). Defined.

Lemma excluirViagem_indice_witness :
  exists ls', excluirViagem 1 (lojaExemplo [registroExemplo "a"; registroExemplo "b"]) = Some ls' /\
    obterViagens ls' = Some [registroExemplo "a"].
Proof.
  apply (excluirViagem_indice _ [registroExemplo "a"; registroExemplo "b"] 1);
    [apply obterViagens_setItem|simpl; lia].
Defined.

Lemma excluirViagem_fora_do_array_witness :
  exists ls', excluirViagem (-1) (lojaExemplo [registroExemplo "a"; registroExemplo "b"]) = Some ls' /\
    ((2 <= -1)%Z -> obterViagens ls' = Some [registroExemplo "a"; registroExemplo "b"]) /\
    ((-2 <= -1 < 0)%Z -> obterViagens ls' = Some [registroExemplo "a"]).
Proof.
  apply (excluirViagem_fora_do_array _ [registroExemplo "a"; registroExemplo "b"] (-1)).
  apply obterViagens_setItem.
Defined.

Lemma viagens_corrompidas_witness :
  salvarViagem (registroExemplo "a") resultadoExemplo "b"
    (setItem "viagens_carbono" "[{" ∅) = None /\
  excluirViagem 0 (setItem "viagens_carbono" "[{" ∅) = None.
Proof. by apply viagens_corrompidas. Defined.

Lemma bem_formado_preservado_witness :
  bem_formado (salvarEvento eventoExemplo ∅) /\ bem_formado (removerEvento ∅) /\
  (exists ls', salvarViagem (registroExemplo "a") resultadoExemplo "b" ∅ = Some ls' /\
     bem_formado ls') /\
  (exists ls', excluirViagem 0 ∅ = Some ls' /\ bem_formado ls').
Proof. apply bem_formado_preservado. by split. Defined.
