(* ===== verification/Auth.v ===== *)
(** * Auth: the session flag and the login form

    [AuthService] keeps the session in [localStorage] under the key
    [admin_logged_in] and mirrors it in a [BehaviorSubject]; [LoginComponent]
    is the form in front of it.  The state of the service is the store, the
    current value of the subject and the route the router was last sent to.
    The theorems: which credentials log in, that the subject always agrees
    with the store, and that the session and the stored trips do not touch
    each other. *)

From S2P Require Import Prelude Calculator Storage.

Local Open Scope string_scope.

(** ** [AuthService] *)

Definition STORAGE_KEY : string := "admin_logged_in".
Definition DEFAULT_USERNAME : string := "admin".
Definition DEFAULT_PASSWORD : string := "admin123".

Record AuthService := mkAuth {
  storage : localStorage;
  isAuthenticatedSubject : bool;
  url : string
}.

Definition checkAuthStatus (ls : localStorage) : bool :=
  bool_decide (getItem STORAGE_KEY ls = Some "true").

(** The field initialiser and the constructor. *)
Definition novoAuthService (ls : localStorage) (url : string) : AuthService :=
  mkAuth ls (checkAuthStatus ls) url.

Definition login (username password : string) (s : AuthService) : bool * AuthService :=
  if bool_decide (username = DEFAULT_USERNAME) && bool_decide (password = DEFAULT_PASSWORD)
  then (true, mkAuth (setItem STORAGE_KEY "true" (storage s)) true (url s))
  else (false, s).

Definition logout (s : AuthService) : AuthService :=
  mkAuth (removeItem STORAGE_KEY (storage s)) false "/login".

Definition isAuthenticated (s : AuthService) : bool := checkAuthStatus (storage s).

(** ** [LoginComponent] *)

Record LoginComponent := mkLogin {
  username : string;
  password : string;
  errorMessage : string;
  loading : bool
}.

(** [loginForm.valid]: both controls carry [Validators.required]. *)
Definition loginForm_valid (c : LoginComponent) : bool :=
  truthy_str (username c) && truthy_str (password c).

(** [ngOnInit]: an authenticated visitor is sent to the administration. *)
Definition login_ngOnInit (s : AuthService) : LoginComponent * AuthService :=
  (mkLogin "" "" "" false,
   if isAuthenticated s then mkAuth (storage s) (isAuthenticatedSubject s) "/admin" else s).

Definition onSubmit (c : LoginComponent) (s : AuthService) : LoginComponent * AuthService :=
  if loginForm_valid c then
    let c1 := mkLogin (username c) (password c) "" true in
    let '(ok, s1) := login (username c) (password c) s in
    if ok then (c1, mkAuth (storage s1) (isAuthenticatedSubject s1) "/admin")
    else (mkLogin (username c) (password c) "Usuário ou senha incorretos!" false, s1)
  else (mkLogin (username c) (password c) "Preencha todos os campos!" (loading c), s).

(** ** The service as a transition system *)

(** What can happen to the service: its own methods, and writes of the
    rest of the application to the store, which never use the key of the
    session. *)
Inductive auth_evento :=
| EvLogin (username password : string)
| EvLogout
| EvSetItem (key value : string)
| EvRemoveItem (key : string).

Inductive auth_passo : AuthService -> auth_evento -> AuthService -> Prop :=
| passo_login u p s : auth_passo s (EvLogin u p) (login u p s).2
| passo_logout s : auth_passo s EvLogout (logout s)
| passo_setItem k v s :
    k <> STORAGE_KEY ->
    auth_passo s (EvSetItem k v)
      (mkAuth (setItem k v (storage s)) (isAuthenticatedSubject s) (url s))
| passo_removeItem k s :
    k <> STORAGE_KEY ->
    auth_passo s (EvRemoveItem k)
      (mkAuth (removeItem k (storage s)) (isAuthenticatedSubject s) (url s)).

Inductive auth_alcancavel (ls : localStorage) (u : string) : AuthService -> Prop :=
| auth_alc_novo : auth_alcancavel ls u (novoAuthService ls u)
| auth_alc_passo s e s' :
    auth_alcancavel ls u s -> auth_passo s e s' -> auth_alcancavel ls u s'.

(** The subject agrees with the store. *)
Definition auth_coerente (s : AuthService) : Prop :=
  isAuthenticatedSubject s = isAuthenticated s.

(** ** Facts *)

Lemma checkAuthStatus_setItem ls : checkAuthStatus (setItem STORAGE_KEY "true" ls) = true.
Proof. unfold checkAuthStatus. by rewrite getItem_setItem. Qed.

Lemma checkAuthStatus_removeItem ls : checkAuthStatus (removeItem STORAGE_KEY ls) = false.
Proof. unfold checkAuthStatus. by rewrite getItem_removeItem. Qed.

Lemma checkAuthStatus_outra_chave ls ls' :
  getItem STORAGE_KEY ls' = getItem STORAGE_KEY ls ->
  checkAuthStatus ls' = checkAuthStatus ls.
Proof. unfold checkAuthStatus. by intros ->. Qed.

Lemma login_cases u p s :
  (u = DEFAULT_USERNAME /\ p = DEFAULT_PASSWORD /\
     login u p s = (true, mkAuth (setItem STORAGE_KEY "true" (storage s)) true (url s))) \/
  ((u <> DEFAULT_USERNAME \/ p <> DEFAULT_PASSWORD) /\ login u p s = (false, s)).
Proof.
  unfold login. repeat case_bool_decide; simpl; auto.
Qed.

Lemma auth_passo_coerente s e s' : auth_passo s e s' -> auth_coerente s -> auth_coerente s'.
Proof.
  unfold auth_coerente, isAuthenticated.
  destruct 1 as [u p s | s | k v s Hk | k s Hk]; intros Hs; simpl.
  - destruct (login_cases u p s) as [(_ & _ & ->)|[_ ->]]; simpl; [|done].
    by rewrite checkAuthStatus_setItem.
  - by rewrite checkAuthStatus_removeItem.
  - rewrite Hs. symmetry. by apply checkAuthStatus_outra_chave, getItem_setItem_ne.
  - rewrite Hs. symmetry. by apply checkAuthStatus_outra_chave, getItem_removeItem_ne.
Qed.

(** [login] succeeds with the configured credentials and with no
    others; comparison is exact, so letter case and surrounding blanks
    matter. *)
Theorem login_sse_credenciais u p s :
  (login u p s).1 = true <-> u = "admin" /\ p = "admin123".
Proof.
  destruct (login_cases u p s) as [(-> & -> & ->)|[H ->]]; simpl; [done|].
  split; [done|]. intros [-> ->]. by destruct H.
Qed.

(** After a successful [login] the session is authenticated and
    the subject says so; after [logout] it is not, the subject says so, and
    the router is at the login page. *)
Theorem login_logout_sessao s :
  let s1 := (login "admin" "admin123" s).2 in
  isAuthenticated s1 = true /\ isAuthenticatedSubject s1 = true /\
  isAuthenticated (logout s1) = false /\ isAuthenticatedSubject (logout s1) = false /\
  url (logout s1) = "/login".
Proof.
  cbv zeta. unfold isAuthenticated. simpl.
  by rewrite checkAuthStatus_setItem, checkAuthStatus_removeItem.
Qed.

(** A failed [login] changes nothing: a session that exists
    stays. *)
Theorem login_falha_preserva u p s :
  (login u p s).1 = false -> (login u p s).2 = s.
Proof. by destruct (login_cases u p s) as [(_ & _ & ->)|[_ ->]]. Qed.

(** [C18] In every state the service reaches, whatever the store held at
    construction, the subject equals the flag in the store. *)
Theorem auth_invariante ls u s : auth_alcancavel ls u s -> auth_coerente s.
Proof.
  induction 1 as [ | s e s2 _ IH Hp]; [done|]. by eapply auth_passo_coerente.
Qed.

Section AuthStorage.
Context `{JV : Json (list ViagemRegistro)} `{JE : Json EventoConfig}.

(** The session and the stored data are independent: [login] and
    [logout] leave the trips and the event as they are, and the methods of
    the store leave the session as it is. *)
Theorem sessao_e_dados_independentes u p s e v r agora index ls' :
  obterViagens (storage (login u p s).2) = obterViagens (storage s) /\
  obterEvento (storage (logout s)) = obterEvento (storage s) /\
  obterViagens (storage (logout s)) = obterViagens (storage s) /\
  checkAuthStatus (salvarEvento e (storage s)) = isAuthenticated s /\
  (salvarViagem v r agora (storage s) = Some ls' -> checkAuthStatus ls' = isAuthenticated s) /\
  (excluirViagem index (storage s) = Some ls' -> checkAuthStatus ls' = isAuthenticated s).
Proof.
  unfold isAuthenticated, salvarViagem, excluirViagem. split_and!.
  - destruct (login_cases u p s) as [(_ & _ & ->)|[_ ->]]; simpl; [|done].
    by apply obterViagens_outra_chave, getItem_setItem_ne.
  - by apply obterEvento_outra_chave, getItem_removeItem_ne.
  - by apply obterViagens_outra_chave, getItem_removeItem_ne.
  - by apply checkAuthStatus_outra_chave, getItem_setItem_ne.
  - intros H. destruct (obterViagens (storage s)); simplify_eq/=.
    by apply checkAuthStatus_outra_chave, getItem_setItem_ne.
  - intros H. destruct (obterViagens (storage s)); simplify_eq/=.
    by apply checkAuthStatus_outra_chave, getItem_setItem_ne.
Qed.

End AuthStorage.

(** The login form: with an empty field nothing is asked of the
    service; with the right credentials the router goes to the
    administration; with wrong ones the form shows the error and the
    service is unchanged. *)
Theorem onSubmit_cases c s :
  let '(c', s') := onSubmit c s in
  (loginForm_valid c = false ->
     s' = s /\ errorMessage c' = "Preencha todos os campos!") /\
  (loginForm_valid c = true -> username c = "admin" -> password c = "admin123" ->
     url s' = "/admin" /\ isAuthenticated s' = true /\ errorMessage c' = "") /\
  (loginForm_valid c = true -> (username c <> "admin" \/ password c <> "admin123") ->
     s' = s /\ errorMessage c' = "Usuário ou senha incorretos!" /\ loading c' = false).
Proof.
  unfold onSubmit. destruct (loginForm_valid c); cbv zeta.
  - destruct (login_cases (username c) (password c) s) as [(Hu & Hp & ->)|[H ->]].
    + split_and!; [done| |intros _ [?|?]; done].
      intros _ _ _. unfold isAuthenticated. simpl. by rewrite checkAuthStatus_setItem.
    + split_and!; [done| |done]. intros _ Hu Hp. by destruct H.
  - by split_and!.
Qed.

Lemma login_falha_preserva_witness :
  (login "admin" "Admin123" (novoAuthService ∅ "/")).2 = novoAuthService ∅ "/".
Proof. by apply login_falha_preserva. Defined.

Lemma auth_invariante_witness :
  auth_coerente (logout (login "admin" "admin123" (novoAuthService ∅ "/")).2).
Proof.
  apply (auth_invariante ∅ "/").
  eapply auth_alc_passo; [|apply passo_logout].
  eapply auth_alc_passo; [apply auth_alc_novo|apply passo_login].
Defined.
