(* ===== verification/Formulario.v ===== *)
(** * Formulario: the trip form

    [FormularioComponent]: the reactive form with its validators, the list
    of legs the visitor edits, the computation and its submission.  The
    state of the component is a record of its fields, each handler a
    function on it.  The collaborators are arguments: the store for
    [carregarEvento] and [enviar], the HTTP clients for the postal-code and
    city lookups, the clock for [enviar].  A handler defers part of its work
    with [setTimeout]; the model runs the deferred part at once.  Messages
    shown with [alert] are appended to the field [fc_alertas].

    [Validators.email] is a parameter of the file: the theorems hold for
    every predicate on strings. *)

From stdpp Require Import pretty.
From S2P Require Import Prelude JsString Geocoding Cidades Calculator Storage.

Local Open Scope string_scope.

(** ** The form *)

(** [formulario.value]: one property per control of [inicializarFormulario]. *)
Record FormValue := mkForm {
  f_nome : string;
  f_email : string;
  f_cpf : string;
  f_telefone : string;
  f_destinoCidade : string;
  f_destinoEstado : string;
  f_destinoPais : string;
  f_diasNoEvento : option Q;
  f_idaEVolta : bool;
  f_observacoes : string
}.

Record FormularioComponent := mkComponente {
  fc_formulario : FormValue;
  fc_touched : gset string;
  fc_resultado : option CalculoResultado;
  fc_calculado : bool;
  fc_enviado : bool;
  fc_carregando : bool;
  fc_evento : option EventoConfig;
  fc_cidadesPorTrecho : gmap nat (list Cidade);
  fc_mostrarAutocompletePorTrecho : gmap nat bool;
  fc_trechos : list TrechoViagem;
  fc_enderecosCEP : gmap nat EnderecoCEP;
  fc_alertas : list string
}.

(** Assignments to the fields. *)
Definition com_formulario (f : FormValue) (c : FormularioComponent) :=
  mkComponente f (fc_touched c) (fc_resultado c) (fc_calculado c) (fc_enviado c)
    (fc_carregando c) (fc_evento c) (fc_cidadesPorTrecho c)
    (fc_mostrarAutocompletePorTrecho c) (fc_trechos c) (fc_enderecosCEP c) (fc_alertas c).

Definition com_trechos (ts : list TrechoViagem) (c : FormularioComponent) :=
  mkComponente (fc_formulario c) (fc_touched c) (fc_resultado c) (fc_calculado c)
    (fc_enviado c) (fc_carregando c) (fc_evento c) (fc_cidadesPorTrecho c)
    (fc_mostrarAutocompletePorTrecho c) ts (fc_enderecosCEP c) (fc_alertas c).

Definition com_alerta (msg : string) (c : FormularioComponent) :=
  mkComponente (fc_formulario c) (fc_touched c) (fc_resultado c) (fc_calculado c)
    (fc_enviado c) (fc_carregando c) (fc_evento c) (fc_cidadesPorTrecho c)
    (fc_mostrarAutocompletePorTrecho c) (fc_trechos c) (fc_enderecosCEP c)
    (fc_alertas c ++ [msg])%list.

Definition com_mostrarAutocomplete (m : gmap nat bool) (c : FormularioComponent) :=
  mkComponente (fc_formulario c) (fc_touched c) (fc_resultado c) (fc_calculado c)
    (fc_enviado c) (fc_carregando c) (fc_evento c) (fc_cidadesPorTrecho c)
    m (fc_trechos c) (fc_enderecosCEP c) (fc_alertas c).

(** [patchValue] of the three destination controls. *)
Definition patchDestino (e : EventoConfig) (f : FormValue) : FormValue :=
  mkForm (f_nome f) (f_email f) (f_cpf f) (f_telefone f)
    (ev_cidade e) (ev_estado e) (ev_pais e)
    (f_diasNoEvento f) (f_idaEVolta f) (f_observacoes f).

(** [criarTrechoVazio]. *)
Definition criarTrechoVazio : TrechoViagem :=
  mkTrecho "" (Some 0%Q) None None None None None (Some "") (Some 1%Q) (Some "") None.

(** The values the controls are created with. *)
Definition formInicial : FormValue := mkForm "" "" "" "" "" "" "Brasil" None false "".

(** [inicializarFormulario]: a new form group, and one empty leg. *)
Definition inicializarFormulario (c : FormularioComponent) : FormularioComponent :=
  mkComponente formInicial ∅ (fc_resultado c) (fc_calculado c) (fc_enviado c)
    (fc_carregando c) (fc_evento c) (fc_cidadesPorTrecho c)
    (fc_mostrarAutocompletePorTrecho c) [criarTrechoVazio] (fc_enderecosCEP c)
    (fc_alertas c).

(** The component as its field initialisers leave it. *)
Definition componenteNovo : FormularioComponent :=
  mkComponente formInicial ∅ None false false false None ∅ ∅ [] ∅ [].

(** ** Validators *)

Section Validators.
Context (Validators_email : string -> bool).

(** [Validators.required] on a text control. *)
Definition required (s : string) : bool := truthy_str s.

(** [Validators.minLength(n)]: an empty value passes. *)
Definition minLength (n : nat) (s : string) : bool :=
  negb (truthy_str s) || bool_decide (n <= js_length s)%nat.

(** [Validators.min(n)] on a numeric control: an empty value passes. *)
Definition min_validator (n : Q) (o : option Q) : bool :=
  match o with
  | Some x => Qle_bool n x
  | None => true
  end.

(** [Validators.required] on a numeric control. *)
Definition required_num (o : option Q) : bool :=
  match o with
  | Some _ => true
  | None => false
  end.

(** [formulario.get(campo)] and [control.valid]: [None] when the form has
    no such control. *)
Definition controle_valido (campo : string) (f : FormValue) : option bool :=
  if String.eqb campo "nome" then Some (required (f_nome f) && minLength 3 (f_nome f))
  else if String.eqb campo "email" then
    Some (required (f_email f) && (negb (truthy_str (f_email f)) || Validators_email (f_email f)))
  else if String.eqb campo "cpf" then Some (required (f_cpf f))
  else if String.eqb campo "telefone" then Some (required (f_telefone f))
  else if String.eqb campo "diasNoEvento" then
    Some (required_num (f_diasNoEvento f) && min_validator 1 (f_diasNoEvento f))
  else if String.eqb campo "destinoCidade" then Some true
  else if String.eqb campo "destinoEstado" then Some true
  else if String.eqb campo "destinoPais" then Some true
  else if String.eqb campo "idaEVolta" then Some true
  else if String.eqb campo "observacoes" then Some true
  else None.

(** [Object.keys(this.formulario.controls)]. *)
Definition controles : list string :=
  ["nome"; "email"; "cpf"; "telefone"; "destinoCidade"; "destinoEstado";
   "destinoPais"; "diasNoEvento"; "idaEVolta"; "observacoes"].

(** [!control || control.invalid]. *)
Definition campo_invalido (f : FormValue) (campo : string) : bool :=
  match controle_valido campo f with
  | Some ok => negb ok
  | None => true
  end.

(** [formulario.valid]. *)
Definition formulario_valid (f : FormValue) : bool :=
  forallb (fun campo => negb (campo_invalido f campo)) controles.

(** [marcarCamposInvalidos]. *)
Definition marcarCamposInvalidos (c : FormularioComponent) : FormularioComponent :=
  mkComponente (fc_formulario c)
    (fc_touched c ∪ list_to_set (filter (fun k => campo_invalido (fc_formulario c) k = true) controles))
    (fc_resultado c) (fc_calculado c) (fc_enviado c) (fc_carregando c) (fc_evento c)
    (fc_cidadesPorTrecho c) (fc_mostrarAutocompletePorTrecho c) (fc_trechos c)
    (fc_enderecosCEP c) (fc_alertas c).

(** The getter [campoInvalido]. *)
Definition campoInvalido (c : FormularioComponent) (campo : string) : bool :=
  match controle_valido campo (fc_formulario c) with
  | Some ok => negb ok && bool_decide (campo ∈ fc_touched c)
  | None => false
  end.

End Validators.

(** ** The legs *)

Definition adicionarTrecho (c : FormularioComponent) : FormularioComponent :=
  com_trechos (fc_trechos c ++ [criarTrechoVazio])%list c.

Definition removerTrecho (index : Z) (c : FormularioComponent) : FormularioComponent :=
  if bool_decide (1 < length (fc_trechos c))%nat
  then com_trechos (splice1 index (fc_trechos c)) c
  else c.

(** The arguments [campo] and [valor] of [atualizarTrecho]: the property
    that is assigned, with the value. *)
Inductive CampoTrecho :=
| CampoMeioTransporte (valor : option string)
| CampoDistanciaKm (valor : option Q)
| CampoOrigemCidade (valor : option string)
| CampoOrigemEstado (valor : option string)
| CampoDestinoCidade (valor : option string)
| CampoDestinoEstado (valor : option string)
| CampoCepOrigem (valor : option string)
| CampoTipoCombustivel (valor : option string)
| CampoNumeroPassageiros (valor : option Q)
| CampoClasseVoo (valor : option string)
| CampoConsumoMedio (valor : option Q).

(** [if (valor === '' || valor === null) valor = undefined]. *)
Definition valor_texto (valor : option string) : option string :=
  match valor with
  | Some s => if truthy_str s then Some s else None
  | None => None
  end.

(** The object without properties, which spreading [undefined] gives.  A
    missing [meioTransporte] is the empty string. *)
Definition trechoSemCampos : TrechoViagem :=
  mkTrecho "" None None None None None None None None None None.

(** [{ ...trecho, [campo]: valor }]. *)
Definition atribuirCampo (campo : CampoTrecho) (t : TrechoViagem) : TrechoViagem :=
  match campo with
  | CampoMeioTransporte v =>
      mkTrecho (default "" (valor_texto v)) (distanciaKm t) (origemCidade t) (origemEstado t)
        (destinoCidade t) (destinoEstado t) (cepOrigem t) (tipoCombustivel t)
        (numeroPassageiros t) (classeVoo t) (consumoMedio t)
  | CampoDistanciaKm v =>
      mkTrecho (meioTransporte t) v (origemCidade t) (origemEstado t)
        (destinoCidade t) (destinoEstado t) (cepOrigem t) (tipoCombustivel t)
        (numeroPassageiros t) (classeVoo t) (consumoMedio t)
  | CampoOrigemCidade v =>
      mkTrecho (meioTransporte t) (distanciaKm t) (valor_texto v) (origemEstado t)
        (destinoCidade t) (destinoEstado t) (cepOrigem t) (tipoCombustivel t)
        (numeroPassageiros t) (classeVoo t) (consumoMedio t)
  | CampoOrigemEstado v =>
      mkTrecho (meioTransporte t) (distanciaKm t) (origemCidade t) (valor_texto v)
        (destinoCidade t) (destinoEstado t) (cepOrigem t) (tipoCombustivel t)
        (numeroPassageiros t) (classeVoo t) (consumoMedio t)
  | CampoDestinoCidade v =>
      mkTrecho (meioTransporte t) (distanciaKm t) (origemCidade t) (origemEstado t)
        (valor_texto v) (destinoEstado t) (cepOrigem t) (tipoCombustivel t)
        (numeroPassageiros t) (classeVoo t) (consumoMedio t)
  | CampoDestinoEstado v =>
      mkTrecho (meioTransporte t) (distanciaKm t) (origemCidade t) (origemEstado t)
        (destinoCidade t) (valor_texto v) (cepOrigem t) (tipoCombustivel t)
        (numeroPassageiros t) (classeVoo t) (consumoMedio t)
  | CampoCepOrigem v =>
      mkTrecho (meioTransporte t) (distanciaKm t) (origemCidade t) (origemEstado t)
        (destinoCidade t) (destinoEstado t) (valor_texto v) (tipoCombustivel t)
        (numeroPassageiros t) (classeVoo t) (consumoMedio t)
  | CampoTipoCombustivel v =>
      mkTrecho (meioTransporte t) (distanciaKm t) (origemCidade t) (origemEstado t)
        (destinoCidade t) (destinoEstado t) (cepOrigem t) (valor_texto v)
        (numeroPassageiros t) (classeVoo t) (consumoMedio t)
  | CampoNumeroPassageiros v =>
      mkTrecho (meioTransporte t) (distanciaKm t) (origemCidade t) (origemEstado t)
        (destinoCidade t) (destinoEstado t) (cepOrigem t) (tipoCombustivel t)
        v (classeVoo t) (consumoMedio t)
  | CampoClasseVoo v =>
      mkTrecho (meioTransporte t) (distanciaKm t) (origemCidade t) (origemEstado t)
        (destinoCidade t) (destinoEstado t) (cepOrigem t) (tipoCombustivel t)
        (numeroPassageiros t) (valor_texto v) (consumoMedio t)
  | CampoConsumoMedio v =>
      mkTrecho (meioTransporte t) (distanciaKm t) (origemCidade t) (origemEstado t)
        (destinoCidade t) (destinoEstado t) (cepOrigem t) (tipoCombustivel t)
        (numeroPassageiros t) (classeVoo t) v
  end.

(** The clearing that follows a change of the means of transport. *)
Definition limparCampos (valor : string) (t : TrechoViagem) : TrechoViagem :=
  if decide (valor = "carro" \/ valor = "motocicleta" \/ valor = "onibus") then
    mkTrecho (meioTransporte t) (distanciaKm t) None None None None None
      (tipoCombustivel t) (numeroPassageiros t) None (consumoMedio t)
  else if decide (valor = "aviao" \/ valor = "trem") then
    mkTrecho (meioTransporte t) (distanciaKm t) None None None None None
      None None (classeVoo t) None
  else
    mkTrecho (meioTransporte t) (distanciaKm t) None None None None None
      None None None None.

Definition atualizarTrecho (index : nat) (campo : CampoTrecho) (c : FormularioComponent)
    : FormularioComponent :=
  let trechoAtualizado :=
    atribuirCampo campo (default trechoSemCampos (fc_trechos c !! index)) in
  let trechoAtualizado :=
    match campo with
    | CampoMeioTransporte v => limparCampos (default "" (valor_texto v)) trechoAtualizado
    | _ => trechoAtualizado
    end in
  com_trechos (take index (fc_trechos c) ++ [trechoAtualizado] ++
               drop (S index) (fc_trechos c))%list c.

(** [selecionarCidadeTrecho]; an index past the end of the array would leave
    holes in it, which the model does not represent: [None]. *)
Definition selecionarCidadeTrecho (index : nat) (cidade : Cidade) (c : FormularioComponent)
    : option FormularioComponent :=
  if bool_decide (index <= length (fc_trechos c))%nat then
    let t := default trechoSemCampos (fc_trechos c !! index) in
    let t' :=
      mkTrecho (meioTransporte t) (distanciaKm t) (Some (cid_nome cidade))
        (Some (cid_estado cidade)) (destinoCidade t) (destinoEstado t) (cepOrigem t)
        (tipoCombustivel t) (numeroPassageiros t) (classeVoo t) (consumoMedio t) in
    Some (com_mostrarAutocomplete
            (<[index := false]> (fc_mostrarAutocompletePorTrecho c))
            (com_trechos (take index (fc_trechos c) ++ [t'] ++
                          drop (S index) (fc_trechos c))%list c))
  else None.

(** ** Postal code and autocomplete *)

Definition aplicarMascaraCEP (cep : string) : string :=
  let cepLimpo := only_digits cep in
  replace_cep cepLimpo.

Definition buscarEnderecoPorCEPTrecho (http : http_client) (index : nat) (cep : string)
    (c : FormularioComponent) : FormularioComponent :=
  let cepLimpo := only_digits cep in
  if bool_decide (String.length cepLimpo = 8%nat) then
    match buscarCEP http cepLimpo with
    | Some endereco =>
        mkComponente (fc_formulario c) (fc_touched c) (fc_resultado c) (fc_calculado c)
          (fc_enviado c) (fc_carregando c) (fc_evento c) (fc_cidadesPorTrecho c)
          (fc_mostrarAutocompletePorTrecho c) (fc_trechos c)
          (<[index := endereco]> (fc_enderecosCEP c)) (fc_alertas c)
    | None => c
    end
  else c.

Definition atualizarCepTrecho (http : http_client) (index : nat) (cep : string)
    (c : FormularioComponent) : FormularioComponent :=
  let cepFormatado := aplicarMascaraCEP cep in
  buscarEnderecoPorCEPTrecho http index cepFormatado
    (atualizarTrecho index (CampoCepOrigem (Some cepFormatado)) c).

Definition configurarAutocompleteTrecho (ibge : ibge_client) (index : nat) (estado : string)
    (c : FormularioComponent) : FormularioComponent :=
  if truthy_str estado then
    mkComponente (fc_formulario c) (fc_touched c) (fc_resultado c) (fc_calculado c)
      (fc_enviado c) (fc_carregando c) (fc_evento c)
      (<[index := buscarCidadesPorEstado ibge estado]> (fc_cidadesPorTrecho c))
      (fc_mostrarAutocompletePorTrecho c) (fc_trechos c) (fc_enderecosCEP c) (fc_alertas c)
  else c.

Definition filtrarCidadesTrecho (index : nat) (valor : string) (c : FormularioComponent)
    : list Cidade :=
  let cidades := default [] (fc_cidadesPorTrecho c !! index) in
  let valorLower := toLowerCase valor in
  take 10 (filter (fun cid => includes valorLower (toLowerCase (cid_nome cid)) = true) cidades).

Definition esconderAutocompleteTrecho (index : nat) (c : FormularioComponent)
    : FormularioComponent :=
  com_mostrarAutocomplete (<[index := false]> (fc_mostrarAutocompletePorTrecho c)) c.

(** ** Presentation *)

Definition mostrarCamposCarro (trecho : TrechoViagem) : bool :=
  bool_decide (meioTransporte trecho = "carro").

Definition mostrarCamposAviao (trecho : TrechoViagem) : bool :=
  bool_decide (meioTransporte trecho = "aviao").

Definition meios : gmap string string :=
  list_to_map [
    ("aviao", "Avião");
    ("carro", "Carro");
    ("onibus", "Ônibus");
    ("trem", "Trem");
    ("metro", "Metrô");
    ("motocicleta", "Motocicleta");
    ("navio", "Navio/Barco")].

Definition formatarMeioTransporte (meio : string) : string :=
  str_or (meios !! meio) meio.

Definition trackByTrechoIndex (index : nat) (trecho : TrechoViagem) : nat := index.

Definition toggleIdaEVolta (c : FormularioComponent) : FormularioComponent :=
  let f := fc_formulario c in
  com_formulario
    (mkForm (f_nome f) (f_email f) (f_cpf f) (f_telefone f) (f_destinoCidade f)
       (f_destinoEstado f) (f_destinoPais f) (f_diasNoEvento f) (negb (f_idaEVolta f))
       (f_observacoes f)) c.

(** ** The event, the computation and the submission *)

Section Handlers.
Context (Validators_email : string -> bool).
Context `{JV : Json (list ViagemRegistro)} `{JE : Json EventoConfig}.

(** [carregarEvento]: [None] when reading the store throws. *)
Definition carregarEvento (ls : localStorage) (c : FormularioComponent)
    : option FormularioComponent :=
  evento ← obterEvento ls;
  let c1 :=
    mkComponente (fc_formulario c) (fc_touched c) (fc_resultado c) (fc_calculado c)
      (fc_enviado c) (fc_carregando c) evento (fc_cidadesPorTrecho c)
      (fc_mostrarAutocompletePorTrecho c) (fc_trechos c) (fc_enderecosCEP c)
      (fc_alertas c) in
  Some match evento with
       | Some e => com_formulario (patchDestino e (fc_formulario c1)) c1
       | None =>
           com_alerta
             "Atenção: Nenhum evento configurado. Entre em contato com o administrador." c1
       end.

Definition ngOnInit (ls : localStorage) (c : FormularioComponent)
    : option FormularioComponent :=
  carregarEvento ls (inicializarFormulario c).

(** The loop of [calcular] over the legs that have a means of transport.
    [i] counts those legs.  The loop assigns the destination of the event to
    plane and train legs that have none; the legs are the objects of
    [this.trechos], so the assignment is seen there, also when a later leg
    stops the loop with a message. *)
Fixpoint validarTrechos (evento : EventoConfig) (i : nat) (ts : list TrechoViagem)
    : list TrechoViagem * option string :=
  match ts with
  | [] => ([], None)
  | trecho :: resto =>
      if truthy_str (meioTransporte trecho) then
        let transporte := meioTransporte trecho in
        if decide (transporte = "aviao" \/ transporte = "trem") then
          if negb (truthy_ostr (origemCidade trecho)) || negb (truthy_ostr (origemEstado trecho))
          then (trecho :: resto,
                Some ("Trecho " ++ pretty (i + 1)%nat ++ ": Informe a cidade e estado de origem."))
          else
            let trecho' :=
              if negb (truthy_ostr (destinoCidade trecho)) then
                mkTrecho (meioTransporte trecho) (distanciaKm trecho) (origemCidade trecho)
                  (origemEstado trecho) (Some (ev_cidade evento)) (Some (ev_estado evento))
                  (cepOrigem trecho) (tipoCombustivel trecho) (numeroPassageiros trecho)
                  (classeVoo trecho) (consumoMedio trecho)
              else trecho in
            let '(resto', alerta) := validarTrechos evento (S i) resto in
            (trecho' :: resto', alerta)
        else if decide (transporte = "carro" \/ transporte = "motocicleta" \/
                        transporte = "onibus") then
          if negb (truthy_ostr (cepOrigem trecho))
          then (trecho :: resto,
                Some ("Trecho " ++ pretty (i + 1)%nat ++ ": Informe o CEP de origem."))
          else
            let '(resto', alerta) := validarTrechos evento (S i) resto in
            (trecho :: resto', alerta)
        else
          let '(resto', alerta) := validarTrechos evento (S i) resto in
          (trecho :: resto', alerta)
      else
        let '(resto', alerta) := validarTrechos evento i resto in
        (trecho :: resto', alerta)
  end.

(** [this.trechos.filter(t => t.meioTransporte)]. *)
Definition trechosValidos (ts : list TrechoViagem) : list TrechoViagem :=
  filter (fun t => truthy_str (meioTransporte t) = true) ts.

Definition camposObrigatorios : list string :=
  ["nome"; "email"; "cpf"; "telefone"; "diasNoEvento"].

(** [{ ...this.formulario.value, trechos: trechosValidos }], read as a
    [ViagemData]: the form has no control for the dates. *)
Definition dadosViagem_formulario (f : FormValue) (ts : list TrechoViagem) : ViagemData :=
  mkViagem (f_nome f) (f_email f) (f_cpf f) (f_telefone f) (f_destinoCidade f)
    (f_destinoEstado f) (f_destinoPais f) ts "" None (f_idaEVolta f)
    (Some (f_observacoes f)).

(** [calcular], up to the call of [calcularEmissao]: the component, and the
    trip the computation is asked for, if it is. *)
Definition calcular (c : FormularioComponent) : FormularioComponent * option ViagemData :=
  match fc_evento c with
  | None =>
      (com_alerta "Nenhum evento configurado. Entre em contato com o administrador." c, None)
  | Some evento =>
      if bool_decide (length (trechosValidos (fc_trechos c)) = 0%nat)
      then (com_alerta "Adicione pelo menos um meio de transporte." c, None)
      else
        let camposInvalidos :=
          filter (fun campo => campo_invalido Validators_email (fc_formulario c) campo = true)
                 camposObrigatorios in
        if bool_decide (0 < length camposInvalidos)%nat
        then (marcarCamposInvalidos Validators_email c, None)
        else
          let '(ts, alerta) := validarTrechos evento 0 (fc_trechos c) in
          match alerta with
          | Some msg => (com_alerta msg (com_trechos ts c), None)
          | None =>
              let f :=
                if negb (truthy_str (f_destinoCidade (fc_formulario c)))
                then patchDestino evento (fc_formulario c)
                else fc_formulario c in
              (mkComponente f (fc_touched c) (fc_resultado c) false (fc_enviado c) true
                 (fc_evento c) (fc_cidadesPorTrecho c) (fc_mostrarAutocompletePorTrecho c)
                 ts (fc_enderecosCEP c) (fc_alertas c),
               Some (dadosViagem_formulario f (trechosValidos ts)))
          end
  end.

(** The [next] callback of the subscription. *)
Definition calcular_next (resultado : CalculoResultado) (c : FormularioComponent)
    : FormularioComponent :=
  mkComponente (fc_formulario c) (fc_touched c) (Some resultado) true (fc_enviado c) false
    (fc_evento c) (fc_cidadesPorTrecho c) (fc_mostrarAutocompletePorTrecho c)
    (fc_trechos c) (fc_enderecosCEP c) (fc_alertas c).

(** The [error] callback. *)
Definition calcular_error (c : FormularioComponent) : FormularioComponent :=
  com_alerta "Erro ao calcular emissão. Tente novamente."
    (mkComponente (fc_formulario c) (fc_touched c) (fc_resultado c) (fc_calculado c)
       (fc_enviado c) false (fc_evento c) (fc_cidadesPorTrecho c)
       (fc_mostrarAutocompletePorTrecho c) (fc_trechos c) (fc_enderecosCEP c)
       (fc_alertas c)).

(** [calcular] with the answer of the calculator. *)
Definition calcular_e_receber `{G : Geocoder} (c : FormularioComponent) : FormularioComponent :=
  match calcular c with
  | (c1, Some dadosViagem) => calcular_next (calcularEmissao dadosViagem) c1
  | (c1, None) => c1
  end.

(** [this.formulario.value] as the object [salvarViagem] spreads. *)
Definition objeto_FormValue (f : FormValue) : ViagemRegistro :=
  {| a_nome := Some (f_nome f);
     a_email := Some (f_email f);
     a_cpf := Some (f_cpf f);
     a_telefone := Some (f_telefone f);
     a_destinoCidade := Some (f_destinoCidade f);
     a_destinoEstado := Some (f_destinoEstado f);
     a_destinoPais := Some (f_destinoPais f);
     a_trechos := None;
     a_dataViagem := None;
     a_dataRetorno := None;
     a_idaEVolta := Some (f_idaEVolta f);
     a_observacoes := Some (f_observacoes f);
     a_diasNoEvento := f_diasNoEvento f;
     a_resultado := None;
     a_dataCalculo := None |}.

(** [resetarFormulario]. *)
Definition resetarFormulario (c : FormularioComponent) : FormularioComponent :=
  inicializarFormulario
    (mkComponente (fc_formulario c) (fc_touched c) None false false (fc_carregando c)
       (fc_evento c) ∅ ∅ [criarTrechoVazio] ∅ (fc_alertas c)).

(** [enviar], up to the timer: [None] when [salvarViagem] throws. *)
Definition enviar (agora : string) (c : FormularioComponent) (ls : localStorage)
    : option (FormularioComponent * localStorage) :=
  match fc_resultado c with
  | Some resultado =>
      if formulario_valid Validators_email (fc_formulario c) then
        ls' ← salvarViagem (objeto_FormValue (fc_formulario c)) resultado agora ls;
        Some (mkComponente (fc_formulario c) (fc_touched c) (fc_resultado c) (fc_calculado c)
                true (fc_carregando c) (fc_evento c) (fc_cidadesPorTrecho c)
                (fc_mostrarAutocompletePorTrecho c) (fc_trechos c) (fc_enderecosCEP c)
                (fc_alertas c), ls')
      else Some (c, ls)
  | None => Some (c, ls)
  end.

End Handlers.

(** ** Facts: the postal-code mask *)

Section Mascara.
Implicit Types (cep : string).

(** The mask changes no digit, and masking twice is masking once. *)
Lemma aplicarMascaraCEP_digitos cep :
  only_digits (aplicarMascaraCEP cep) = only_digits cep /\
  aplicarMascaraCEP (aplicarMascaraCEP cep) = aplicarMascaraCEP cep.
Proof.
  unfold aplicarMascaraCEP.
  assert (only_digits (replace_cep (only_digits cep)) = only_digits cep) as E
    by by rewrite only_digits_replace_cep, only_digits_idem.
  split; [done|]. by rewrite E.
Qed.

(** A value with eight digits is shown as five digits, a hyphen
    and three digits; with five digits or fewer it is shown as its digits. *)
Theorem aplicarMascaraCEP_formato cep :
  let d := only_digits cep in
  (String.length d = 8%nat ->
     aplicarMascaraCEP cep = take_bytes 5 d ++ "-" ++ drop_bytes 5 d /\
     String.length (aplicarMascaraCEP cep) = 9%nat) /\
  ((String.length d <= 5)%nat -> aplicarMascaraCEP cep = d).
Proof.
  cbv zeta. unfold aplicarMascaraCEP.
  rewrite replace_cep_digits by apply digits_prefix_only_digits.
  split; intros Hlen.
  - rewrite bool_decide_eq_true_2 by lia. split; [done|].
    destruct (only_digits cep) as [|a [|b [|c [|d [|e [|f [|g [|h [|]]]]]]]]];
      simpl in Hlen; try lia. done.
  - by rewrite bool_decide_eq_false_2 by lia.
Qed.

Lemma buscarCEP_only_digits (http : http_client) cep :
  buscarCEP http (only_digits cep) = buscarCEP http cep.
Proof. unfold buscarCEP. by rewrite only_digits_idem. Qed.

(** The lookup of the masked value is the lookup of the typed
    value. *)
Theorem buscarCEP_mascara (http : http_client) cep :
  buscarCEP http (aplicarMascaraCEP cep) = buscarCEP http cep.
Proof.
  rewrite <- (buscarCEP_only_digits http (aplicarMascaraCEP cep)).
  rewrite (proj1 (aplicarMascaraCEP_digitos cep)). apply buscarCEP_only_digits.
Qed.

End Mascara.

(** ** Facts: the legs *)

Section Trechos.
Implicit Types (c : FormularioComponent) (t : TrechoViagem) (index i j : nat).

Lemma length_substituir {A} (l : list A) index (x : A) :
  length (take index l ++ [x] ++ drop (S index) l)%list =
    if bool_decide (index < length l)%nat then length l else S (length l).
Proof.
  rewrite !length_app, length_take, length_drop. simpl.
  case_bool_decide; lia.
Qed.

Lemma lookup_substituir {A} (l : list A) index (x : A) j :
  (index <= length l)%nat ->
  (take index l ++ [x] ++ drop (S index) l)%list !! j =
    if decide (j = index) then Some x else l !! j.
Proof.
  intros Hi. case_decide as Hj.
  - subst. rewrite lookup_app_r by (rewrite length_take; lia).
    rewrite length_take. by replace (index - index `min` length l)%nat with 0%nat by lia.
  - destruct (decide (j < index)%nat).
    + rewrite lookup_app_l by (rewrite length_take; lia). by rewrite lookup_take_lt.
    + rewrite lookup_app_r by (rewrite length_take; lia).
      rewrite length_take. replace (index `min` length l)%nat with index by lia.
      destruct (j - index)%nat as [|k] eqn:E; [lia|]. simpl.
      rewrite lookup_drop. f_equal. lia.
Qed.

(** [atualizarTrecho] on a leg of the list replaces that leg and
    no other; past the end of the list it appends a leg. *)
Theorem atualizarTrecho_posicao index campo c :
  let c' := atualizarTrecho index campo c in
  (index < length (fc_trechos c) ->
     length (fc_trechos c') = length (fc_trechos c) /\
     forall j, j <> index -> fc_trechos c' !! j = fc_trechos c !! j)%nat /\
  (length (fc_trechos c) <= index ->
     length (fc_trechos c') = S (length (fc_trechos c)) /\
     take (length (fc_trechos c)) (fc_trechos c') = fc_trechos c)%nat.
Proof.
  cbv zeta. unfold atualizarTrecho. cbn [fc_trechos com_trechos].
  split; intros Hi.
  - rewrite length_substituir, bool_decide_eq_true_2 by done. split; [done|].
    intros j Hj. rewrite lookup_substituir by lia. by rewrite decide_False.
  - rewrite length_substituir, bool_decide_eq_false_2 by lia. split; [done|].
    rewrite (take_ge (fc_trechos c) index), (drop_ge (fc_trechos c) (S index)) by lia.
    by rewrite take_app_length.
Qed.

Lemma valor_texto_default valor : default "" (valor_texto (Some valor)) = valor.
Proof.
  unfold valor_texto, truthy_str. destruct (String.eqb_spec valor "") as [->|]; done.
Qed.

(** Changing the means of transport of a leg clears its origin,
    its destination and its postal code, and the fields of the other family
    of transport: the flight class for road transport, fuel and passengers
    for plane and train. *)
Theorem atualizarTrecho_meioTransporte index valor c t :
  (index <= length (fc_trechos c))%nat ->
  fc_trechos (atualizarTrecho index (CampoMeioTransporte (Some valor)) c) !! index = Some t ->
  meioTransporte t = valor /\
  origemCidade t = None /\ origemEstado t = None /\ destinoCidade t = None /\
  destinoEstado t = None /\ cepOrigem t = None /\
  (valor = "carro" \/ valor = "motocicleta" \/ valor = "onibus" -> classeVoo t = None) /\
  (valor = "aviao" \/ valor = "trem" ->
     tipoCombustivel t = None /\ numeroPassageiros t = None /\ consumoMedio t = None).
Proof.
  intros Hi. unfold atualizarTrecho. cbn [fc_trechos com_trechos].
  rewrite lookup_substituir, decide_True by done.
  rewrite !valor_texto_default. intros [= <-].
  unfold limparCampos. repeat case_decide; simpl; split_and!;
    try done; try tauto; try apply valor_texto_default.
  intros [->| ->]; by destruct H as [?|[?|?]].
Qed.

(** The last leg cannot be removed; with two legs or more
    [removerTrecho] removes the leg at the index. *)
Theorem removerTrecho_guarda (i : nat) c :
  (length (fc_trechos c) <= 1 -> removerTrecho (Z.of_nat i) c = c)%nat /\
  (1 < length (fc_trechos c) -> i < length (fc_trechos c) ->
     fc_trechos (removerTrecho (Z.of_nat i) c) = delete i (fc_trechos c))%nat.
Proof.
  unfold removerTrecho. split.
  - intros H. by rewrite bool_decide_eq_false_2 by lia.
  - intros H Hi. rewrite bool_decide_eq_true_2 by done.
    cbn [fc_trechos com_trechos]. by apply splice1_dentro.
Qed.

Lemma length_removerTrecho (z : Z) c :
  (1 <= length (fc_trechos c) -> 1 <= length (fc_trechos (removerTrecho z c)))%nat.
Proof.
  unfold removerTrecho. case_bool_decide as H; [|done].
  cbn [fc_trechos com_trechos]. rewrite length_splice1. case_bool_decide; lia.
Qed.

End Trechos.

(** ** Facts: validation *)

(** A leg that [calcular] lets through: a plane or train leg has its origin,
    a road leg its postal code. *)
Definition trecho_completo (t : TrechoViagem) : bool :=
  if decide (meioTransporte t = "aviao" \/ meioTransporte t = "trem")
  then truthy_ostr (origemCidade t) && truthy_ostr (origemEstado t)
  else if decide (meioTransporte t = "carro" \/ meioTransporte t = "motocicleta" \/
                  meioTransporte t = "onibus")
  then truthy_ostr (cepOrigem t)
  else true.

(** What the loop of [calcular] may change in a leg: the destination, when
    there is none, becomes the one of the event. *)
Definition destino_preenchido (evento : EventoConfig) (t t' : TrechoViagem) : Prop :=
  t' = t \/
  (truthy_ostr (destinoCidade t) = false /\
   t' = mkTrecho (meioTransporte t) (distanciaKm t) (origemCidade t) (origemEstado t)
          (Some (ev_cidade evento)) (Some (ev_estado evento)) (cepOrigem t)
          (tipoCombustivel t) (numeroPassageiros t) (classeVoo t) (consumoMedio t)).

(** The assignment of the loop to a leg it lets through. *)
Definition preencherDestino (evento : EventoConfig) (t : TrechoViagem) : TrechoViagem :=
  if decide (meioTransporte t = "aviao" \/ meioTransporte t = "trem") then
    if negb (truthy_ostr (destinoCidade t)) then
      mkTrecho (meioTransporte t) (distanciaKm t) (origemCidade t) (origemEstado t)
        (Some (ev_cidade evento)) (Some (ev_estado evento)) (cepOrigem t)
        (tipoCombustivel t) (numeroPassageiros t) (classeVoo t) (consumoMedio t)
    else t
  else t.

(** The message of the loop for a leg it stops at. *)
Definition mensagemTrecho (i : nat) (t : TrechoViagem) : string :=
  if decide (meioTransporte t = "aviao" \/ meioTransporte t = "trem")
  then "Trecho " ++ pretty (i + 1)%nat ++ ": Informe a cidade e estado de origem."
  else "Trecho " ++ pretty (i + 1)%nat ++ ": Informe o CEP de origem.".

Section Validacao.
Context (Validators_email : string -> bool).
Implicit Types (c : FormularioComponent) (f : FormValue) (t : TrechoViagem)
  (ts : list TrechoViagem) (e : EventoConfig) (v : ViagemData).

Lemma destino_preenchido_completo e t t' :
  destino_preenchido e t t' ->
  meioTransporte t' = meioTransporte t /\ trecho_completo t' = trecho_completo t.
Proof. by intros [->|[_ ->]]. Qed.

Lemma filter_nil_Forall {A} (P : A -> Prop) `{forall x, Decision (P x)} (l : list A) :
  filter P l = [] <-> Forall (fun x => ~ P x) l.
Proof.
  induction l as [|x l IH]; [by rewrite filter_nil, Forall_nil|].
  rewrite filter_cons, Forall_cons. case_decide; [naive_solver|]. by rewrite IH; intuition.
Qed.

Lemma Forall2_destino_refl e ts : Forall2 (destino_preenchido e) ts ts.
Proof. induction ts; constructor; [by left|done]. Qed.

(** One turn of the loop. *)
Lemma validarTrechos_cons e i t ts :
  validarTrechos e i (t :: ts) =
    if truthy_str (meioTransporte t) then
      if trecho_completo t
      then (preencherDestino e t :: (validarTrechos e (S i) ts).1,
            (validarTrechos e (S i) ts).2)
      else (t :: ts, Some (mensagemTrecho i t))
    else (t :: (validarTrechos e i ts).1, (validarTrechos e i ts).2).
Proof.
  simpl. unfold trecho_completo, preencherDestino, mensagemTrecho.
  destruct (truthy_str (meioTransporte t)); [|by destruct (validarTrechos e i ts)].
  repeat case_decide; try tauto.
  - destruct (truthy_ostr (origemCidade t)), (truthy_ostr (origemEstado t)); simpl; try done.
    by destruct (validarTrechos e (S i) ts).
  - destruct (truthy_ostr (cepOrigem t)); simpl; [|done].
    by destruct (validarTrechos e (S i) ts).
  - by destruct (validarTrechos e (S i) ts).
Qed.

Lemma preencherDestino_destino e t : destino_preenchido e t (preencherDestino e t).
Proof.
  unfold preencherDestino. case_decide; [|by left].
  destruct (truthy_ostr (destinoCidade t)) eqn:E; simpl; [by left|by right].
Qed.

Lemma validarTrechos_Forall2 e i ts :
  Forall2 (destino_preenchido e) ts (validarTrechos e i ts).1.
Proof.
  revert i. induction ts as [|t ts IH]; intros i; [constructor|].
  rewrite validarTrechos_cons.
  destruct (truthy_str _); [destruct (trecho_completo t)|]; simpl;
    auto using Forall2_destino_refl, preencherDestino_destino, Forall2_cons_2.
  constructor; [by left|done].
Qed.

Lemma validarTrechos_length e i ts : length (validarTrechos e i ts).1 = length ts.
Proof. symmetry. by eapply Forall2_length, validarTrechos_Forall2. Qed.

(** When the loop ends without a message every leg with a means of
    transport is complete. *)
Lemma validarTrechos_completo e i ts :
  (validarTrechos e i ts).2 = None ->
  Forall (fun t => truthy_str (meioTransporte t) = true -> trecho_completo t = true) ts.
Proof.
  revert i. induction ts as [|t ts IH]; intros i; [constructor|].
  rewrite validarTrechos_cons.
  destruct (truthy_str _) eqn:Hm; [destruct (trecho_completo t) eqn:Ht|]; simpl; [|done|];
    intros H; constructor; eauto; by rewrite ?Hm.
Qed.

(** A message of the loop names a leg that is not complete. *)
Lemma validarTrechos_alerta e i ts msg :
  (validarTrechos e i ts).2 = Some msg ->
  Exists (fun t => truthy_str (meioTransporte t) = true /\ trecho_completo t = false) ts.
Proof.
  revert i. induction ts as [|t ts IH]; intros i; [done|].
  rewrite validarTrechos_cons.
  destruct (truthy_str _) eqn:Hm; [destruct (trecho_completo t) eqn:Ht|]; simpl; intros H;
    first [by apply Exists_cons_hd | apply Exists_cons_tl; eauto].
Qed.

(** The fields [calcular] checks are all the fields that have validators. *)
Lemma camposObrigatorios_valid f :
  filter (fun campo => campo_invalido Validators_email f campo = true) camposObrigatorios = []
  <-> formulario_valid Validators_email f = true.
Proof.
  rewrite filter_nil_Forall. unfold formulario_valid.
  rewrite <- Is_true_true, forallb_True.
  unfold camposObrigatorios, controles. rewrite !Forall_cons, !Forall_nil.
  change (campo_invalido Validators_email f "destinoCidade") with false.
  change (campo_invalido Validators_email f "destinoEstado") with false.
  change (campo_invalido Validators_email f "destinoPais") with false.
  change (campo_invalido Validators_email f "idaEVolta") with false.
  change (campo_invalido Validators_email f "observacoes") with false.
  generalize (campo_invalido Validators_email f "nome"),
    (campo_invalido Validators_email f "email"), (campo_invalido Validators_email f "cpf"),
    (campo_invalido Validators_email f "telefone"),
    (campo_invalido Validators_email f "diasNoEvento").
  intros [] [] [] [] []; simpl; naive_solver.
Qed.

Lemma trechosValidos_preenchido e ts ts' :
  Forall2 (destino_preenchido e) ts ts' ->
  Forall2 (destino_preenchido e) (trechosValidos ts) (trechosValidos ts').
Proof.
  unfold trechosValidos. induction 1 as [|t t' ts ts' Ht _ IH]; [constructor|].
  rewrite !filter_cons. destruct (destino_preenchido_completo _ _ _ Ht) as [-> _].
  case_decide; [by constructor|done].
Qed.

Lemma completos_preenchidos e ts ts' :
  Forall2 (destino_preenchido e) ts ts' ->
  Forall (fun t => truthy_str (meioTransporte t) = true -> trecho_completo t = true) ts ->
  Forall (fun t => truthy_str (meioTransporte t) = true /\ trecho_completo t = true)
    (trechosValidos ts').
Proof.
  unfold trechosValidos. induction 1 as [|t t' ts ts' Ht _ IH]; [constructor|].
  intros [Hc1 Hc2]%Forall_cons.
  destruct (destino_preenchido_completo _ _ _ Ht) as [Hm Hcomp].
  rewrite filter_cons. case_decide as Hv; [|by apply IH].
  constructor; [|by apply IH]. split; [done|]. rewrite Hcomp. apply Hc1. by rewrite <- Hm.
Qed.

Lemma validarTrechos_validos e ts :
  (validarTrechos e 0 ts).2 = None ->
  Forall (fun t => truthy_str (meioTransporte t) = true /\ trecho_completo t = true)
    (trechosValidos (validarTrechos e 0 ts).1).
Proof.
  intros Hok. eapply completos_preenchidos;
    [apply validarTrechos_Forall2|by eapply validarTrechos_completo].
Qed.

(** The branches of [calcular]. *)
Lemma calcular_cases c :
  match fc_evento c with
  | None =>
      calcular Validators_email c =
        (com_alerta "Nenhum evento configurado. Entre em contato com o administrador." c, None)
  | Some e =>
      if bool_decide (trechosValidos (fc_trechos c) = []) then
        calcular Validators_email c =
          (com_alerta "Adicione pelo menos um meio de transporte." c, None)
      else if negb (formulario_valid Validators_email (fc_formulario c)) then
        calcular Validators_email c = (marcarCamposInvalidos Validators_email c, None)
      else
        match (validarTrechos e 0 (fc_trechos c)).2 with
        | Some msg =>
            calcular Validators_email c =
              (com_alerta msg (com_trechos (validarTrechos e 0 (fc_trechos c)).1 c), None)
        | None =>
            exists c' v, calcular Validators_email c = (c', Some v) /\
              fc_trechos c' = (validarTrechos e 0 (fc_trechos c)).1 /\
              v_trechos v = trechosValidos (fc_trechos c') /\
              fc_carregando c' = true /\ fc_calculado c' = false /\
              fc_resultado c' = fc_resultado c /\
              v_idaEVolta v = f_idaEVolta (fc_formulario c) /\
              (v_destinoCidade v, v_destinoEstado v, v_destinoPais v) =
                if truthy_str (f_destinoCidade (fc_formulario c))
                then (f_destinoCidade (fc_formulario c), f_destinoEstado (fc_formulario c),
                      f_destinoPais (fc_formulario c))
                else (ev_cidade e, ev_estado e, ev_pais e)
        end
  end.
Proof.
  unfold calcular. destruct (fc_evento c) as [e|]; [|done].
  rewrite (bool_decide_ext (length (trechosValidos (fc_trechos c)) = 0%nat)
             (trechosValidos (fc_trechos c) = [])) by apply length_zero_iff_nil.
  case_bool_decide as Hv; [done|].
  destruct (formulario_valid _ _) eqn:Hf; simpl.
  - apply camposObrigatorios_valid in Hf. rewrite Hf. simpl.
    destruct (validarTrechos e 0 (fc_trechos c)) as [ts [msg|]]; simpl; [done|].
    eexists _, _. split; [done|]. simpl.
    by destruct (truthy_str (f_destinoCidade (fc_formulario c))).
  - rewrite bool_decide_eq_true_2; [done|].
    destruct (filter _ camposObrigatorios) eqn:E; [|simpl; lia].
    apply camposObrigatorios_valid in E. congruence.
Qed.

End Validacao.

(** ** The component as a transition system *)

Section Componente.
Context (Validators_email : string -> bool).
Context `{JV : Json (list ViagemRegistro)} `{JE : Json EventoConfig}.
Implicit Types (c : FormularioComponent) (ls : localStorage).

(** One handler runs. *)
Inductive fc_passo : FormularioComponent -> FormularioComponent -> Prop :=
| fp_adicionarTrecho c : fc_passo c (adicionarTrecho c)
| fp_removerTrecho index c : fc_passo c (removerTrecho index c)
| fp_atualizarTrecho index campo c : fc_passo c (atualizarTrecho index campo c)
| fp_selecionarCidadeTrecho index cidade c c' :
    selecionarCidadeTrecho index cidade c = Some c' -> fc_passo c c'
| fp_atualizarCepTrecho http index cep c : fc_passo c (atualizarCepTrecho http index cep c)
| fp_configurarAutocompleteTrecho ibge index estado c :
    fc_passo c (configurarAutocompleteTrecho ibge index estado c)
| fp_esconderAutocompleteTrecho index c : fc_passo c (esconderAutocompleteTrecho index c)
| fp_toggleIdaEVolta c : fc_passo c (toggleIdaEVolta c)
| fp_calcular c : fc_passo c (calcular Validators_email c).1
| fp_calcular_next resultado c : fc_passo c (calcular_next resultado c)
| fp_calcular_error c : fc_passo c (calcular_error c)
| fp_enviar agora c ls c' ls' :
    enviar Validators_email agora c ls = Some (c', ls') -> fc_passo c c'
| fp_resetarFormulario c : fc_passo c (resetarFormulario c)
| fp_valor f c : fc_passo c (com_formulario f c).

(** The states of the component after [ngOnInit]. *)
Inductive fc_alcancavel : FormularioComponent -> Prop :=
| fa_ngOnInit ls c : ngOnInit ls componenteNovo = Some c -> fc_alcancavel c
| fa_passo c c' : fc_alcancavel c -> fc_passo c c' -> fc_alcancavel c'.

(** There is always a leg to edit, and the flags [calculado] and [enviado]
    are raised only when there is a result. *)
Definition fc_invariante c : Prop :=
  (1 <= length (fc_trechos c))%nat /\
  (fc_calculado c = true -> is_Some (fc_resultado c)) /\
  (fc_enviado c = true -> is_Some (fc_resultado c)).

Lemma fc_invariante_ngOnInit ls c : ngOnInit ls componenteNovo = Some c -> fc_invariante c.
Proof.
  unfold ngOnInit, carregarEvento. destruct (obterEvento ls) as [[e|]|]; intros [= <-];
    by split_and!.
Qed.

Lemma fc_invariante_com_trechos ts c :
  (1 <= length ts)%nat -> fc_invariante c -> fc_invariante (com_trechos ts c).
Proof. intros Hts (_ & H2 & H3). by split_and!. Qed.

Lemma fc_invariante_calcular c :
  fc_invariante c -> fc_invariante (calcular Validators_email c).1.
Proof.
  intros (H1 & H2 & H3). unfold calcular.
  destruct (fc_evento c) as [e|]; [|by split_and!].
  case_bool_decide; [by split_and!|]. case_bool_decide; [by split_and!|].
  pose proof (validarTrechos_length e 0 (fc_trechos c)) as Hl.
  destruct (validarTrechos e 0 (fc_trechos c)) as [ts [msg|]]; simpl in *;
    split_and!; simpl; try done; lia.
Qed.

Lemma fc_invariante_atualizarTrecho index campo c :
  fc_invariante c -> fc_invariante (atualizarTrecho index campo c).
Proof.
  intros (H1 & H2 & H3). unfold atualizarTrecho. cbv zeta.
  apply fc_invariante_com_trechos; [|done].
  rewrite length_substituir. case_bool_decide; lia.
Qed.

Lemma fc_passo_invariante c c' : fc_passo c c' -> fc_invariante c -> fc_invariante c'.
Proof.
  destruct 1 as [c|index c|index campo c|index cidade c c' Hs|http index cep c
                |ibge index estado c|index c|c|c|r c|c|agora c ls c' ls' He|c|f c];
    intros Hinv; pose proof Hinv as (H1 & H2 & H3).
  - apply fc_invariante_com_trechos; [rewrite length_app; simpl; lia|done].
  - split_and!; [by apply length_removerTrecho|..];
      unfold removerTrecho; by case_bool_decide.
  - by apply fc_invariante_atualizarTrecho.
  - unfold selecionarCidadeTrecho in Hs. case_bool_decide; [|done].
    injection Hs as <-. split_and!; [|done..].
    cbn [fc_trechos com_trechos com_mostrarAutocomplete].
    rewrite length_app. simpl. lia.
  - unfold atualizarCepTrecho, buscarEnderecoPorCEPTrecho.
    assert (fc_invariante (atualizarTrecho index
              (CampoCepOrigem (Some (aplicarMascaraCEP cep))) c)) as Ha
      by by apply fc_invariante_atualizarTrecho.
    cbv zeta. case_bool_decide; [|done]. by destruct (buscarCEP _ _).
  - unfold configurarAutocompleteTrecho. by destruct (truthy_str estado).
  - done.
  - done.
  - by apply fc_invariante_calcular.
  - by split_and!.
  - done.
  - unfold enviar in He. destruct (fc_resultado c) as [r|] eqn:Hr; [|by simplify_eq].
    destruct (formulario_valid _ _); [|by simplify_eq].
    destruct (salvarViagem _ _ _ _); simplify_eq/=. split_and!; simpl; by rewrite ?Hr.
  - by split_and!.
  - done.
Qed.

(** [C19] In every state the form reaches there is at least one leg, and
    the flags [calculado] and [enviado] are raised only when the component
    holds a result. *)
Theorem fc_invariante_sempre c : fc_alcancavel c -> fc_invariante c.
Proof.
  induction 1 as [ls c Hi|c c' _ IH Hp];
    [by eapply fc_invariante_ngOnInit|by eapply fc_passo_invariante].
Qed.

(** When [calcular] asks for the computation, the event is
    configured, the form is valid, the trip has the legs with a means of
    transport and they are all complete: every plane or train leg has its
    origin and every road leg its postal code. *)
Theorem calcular_pedido c c' v :
  calcular Validators_email c = (c', Some v) ->
  exists e, fc_evento c = Some e /\
    formulario_valid Validators_email (fc_formulario c) = true /\
    v_trechos v <> [] /\
    Forall (fun t => truthy_str (meioTransporte t) = true /\ trecho_completo t = true)
      (v_trechos v) /\
    Forall2 (destino_preenchido e) (trechosValidos (fc_trechos c)) (v_trechos v) /\
    fc_carregando c' = true /\ fc_calculado c' = false.
Proof.
  intros Hc. pose proof (calcular_cases Validators_email c) as H. rewrite Hc in H.
  destruct (fc_evento c) as [e|]; [|done]. exists e.
  case_bool_decide as Hv; [done|].
  destruct (formulario_valid _ _); [|done]. simpl in H.
  destruct (validarTrechos e 0 (fc_trechos c)).2 eqn:Hok; [done|].
  destruct H as (c1 & v1 & [= <- <-] & Hts & Hvt & Hcar & Hcal & _).
  pose proof (trechosValidos_preenchido e _ _ (validarTrechos_Forall2 e 0 (fc_trechos c))) as H2.
  rewrite Hvt, Hts. split_and!; try done.
  - intros E. rewrite E in H2. by apply Forall2_nil_inv_r in H2.
  - by apply validarTrechos_validos.
Qed.

(** [C29] [calcular] asks for nothing exactly when no event is
    configured, no leg has a means of transport, a field of the form is
    invalid or a leg is incomplete; the result the component holds is then
    left as it is. *)
Theorem calcular_recusa c :
  ((calcular Validators_email c).2 = None <->
     fc_evento c = None \/ trechosValidos (fc_trechos c) = [] \/
     formulario_valid Validators_email (fc_formulario c) = false \/
     Exists (fun t => truthy_str (meioTransporte t) = true /\ trecho_completo t = false)
       (fc_trechos c)) /\
  ((calcular Validators_email c).2 = None ->
     fc_resultado (calcular Validators_email c).1 = fc_resultado c /\
     fc_calculado (calcular Validators_email c).1 = fc_calculado c).
Proof.
  pose proof (calcular_cases Validators_email c) as H.
  destruct (fc_evento c) as [e|]; [|rewrite H; split; [split|]; auto].
  case_bool_decide as Hv; [rewrite H; split; [split|]; auto|].
  destruct (formulario_valid _ _) eqn:Hf; simpl in H; [|rewrite H; split; [split|]; auto].
  destruct (validarTrechos e 0 (fc_trechos c)).2 as [msg|] eqn:Hok.
  - rewrite H. split; [split|]; auto. intros _. do 3 right.
    by eapply validarTrechos_alerta.
  - destruct H as (c1 & v1 & -> & _). split; [split|]; [done| |done].
    intros [?|[?|[?|Hex]]]; try done. exfalso.
    pose proof (validarTrechos_completo e 0 _ Hok) as Hall.
    apply Exists_exists in Hex as (t & Hin & Hm & Hc).
    rewrite Forall_forall in Hall. specialize (Hall t Hin Hm). congruence.
Qed.

(** [enviar] stores the values of the form with the result and the
    time; the form has no control for the legs, so the stored record has no
    property [trechos]: the legs are kept only inside the result. *)
Theorem enviar_registro agora c ls r vs :
  fc_resultado c = Some r ->
  formulario_valid Validators_email (fc_formulario c) = true ->
  obterViagens ls = Some vs ->
  exists c' ls' reg, enviar Validators_email agora c ls = Some (c', ls') /\
    fc_enviado c' = true /\
    obterViagens ls' = Some (vs ++ [reg])%list /\
    a_trechos reg = None /\ a_resultado reg = Some r /\ a_dataCalculo reg = Some agora /\
    a_nome reg = Some (f_nome (fc_formulario c)).
Proof.
  intros Hr Hf Hvs. unfold enviar. rewrite Hr, Hf.
  rewrite (salvarViagem_Some _ _ _ _ _ Hvs). simpl.
  eexists _, _, _. split; [done|]. rewrite obterViagens_setItem. by split_and!.
Qed.

(** Without a result, or with an invalid form, [enviar] does
    nothing. *)
Theorem enviar_guarda agora c ls :
  fc_resultado c = None \/ formulario_valid Validators_email (fc_formulario c) = false ->
  enviar Validators_email agora c ls = Some (c, ls).
Proof.
  unfold enviar. intros [-> | ->]; [done|]. by destruct (fc_resultado c).
Qed.

(** The list of the autocomplete has ten entries at most, all of
    them cities of the leg whose name contains the typed text, letter case
    aside. *)
Theorem filtrarCidadesTrecho_limite index valor c cid :
  (length (filtrarCidadesTrecho index valor c) <= 10)%nat /\
  (cid ∈ filtrarCidadesTrecho index valor c ->
     cid ∈ default [] (fc_cidadesPorTrecho c !! index) /\
     includes (toLowerCase valor) (toLowerCase (cid_nome cid)) = true).
Proof.
  unfold filtrarCidadesTrecho. cbv zeta. split.
  - rewrite length_take. lia.
  - intros Hin%subseteq_take%list_elem_of_filter. tauto.
Qed.

End Componente.

(** ** Examples *)

(** A stand-in for [Validators.email]. *)
Definition emailSimples (s : string) : bool := includes "@" s.

Definition formExemplo : FormValue :=
  mkForm "Ana Souza" "ana@example.org" "000.000.000-00" "27 99999-0000" "" ""
    "Brasil" (Some 2%Q) true "".

Definition trechoCarroExemplo : TrechoViagem :=
  mkTrecho "carro" (Some 0%Q) None None None None (Some "29100-000") (Some "etanol")
    (Some 2%Q) None None.

Definition trechoAviaoExemplo : TrechoViagem :=
  mkTrecho "aviao" (Some 0%Q) (Some "São Paulo") (Some "SP") None None None None None
    (Some "economica") None.

Definition componenteExemplo (ts : list TrechoViagem) : FormularioComponent :=
  mkComponente formExemplo ∅ None false false false (Some eventoExemplo) ∅ ∅ ts ∅ [].

Lemma atualizarTrecho_meioTransporte_witness :
  let t := mkTrecho "aviao" (Some 0%Q) None None None None None None None None None in
  meioTransporte t = "aviao" /\
  origemCidade t = None /\ origemEstado t = None /\ destinoCidade t = None /\
  destinoEstado t = None /\ cepOrigem t = None /\
  ("aviao" = "carro" \/ "aviao" = "motocicleta" \/ "aviao" = "onibus" -> classeVoo t = None) /\
  ("aviao" = "aviao" \/ "aviao" = "trem" ->
     tipoCombustivel t = None /\ numeroPassageiros t = None /\ consumoMedio t = None).
Proof.
  apply (atualizarTrecho_meioTransporte 0 "aviao" (componenteExemplo [trechoCarroExemplo]));
    [simpl; lia|done].
Defined.

Lemma fc_invariante_sempre_witness :
  fc_invariante
    (adicionarTrecho
       (com_alerta "Atenção: Nenhum evento configurado. Entre em contato com o administrador."
          (inicializarFormulario componenteNovo))).
Proof.
  apply (fc_invariante_sempre emailSimples).
  eapply fa_passo; [|apply fp_adicionarTrecho].
  by apply (fa_ngOnInit emailSimples ∅).
Defined.

Lemma calcular_pedido_witness :
  exists e, fc_evento (componenteExemplo [trechoCarroExemplo; trechoAviaoExemplo]) = Some e /\
    formulario_valid emailSimples formExemplo = true /\
    [trechoCarroExemplo; preencherDestino eventoExemplo trechoAviaoExemplo] <> [] /\
    Forall (fun t => truthy_str (meioTransporte t) = true /\ trecho_completo t = true)
      [trechoCarroExemplo; preencherDestino eventoExemplo trechoAviaoExemplo] /\
    Forall2 (destino_preenchido e)
      (trechosValidos [trechoCarroExemplo; trechoAviaoExemplo])
      [trechoCarroExemplo; preencherDestino eventoExemplo trechoAviaoExemplo] /\
    true = true /\ false = false.
Proof.
  apply (calcular_pedido emailSimples
           (componenteExemplo [trechoCarroExemplo; trechoAviaoExemplo])
           (calcular emailSimples
              (componenteExemplo [trechoCarroExemplo; trechoAviaoExemplo])).1
           (dadosViagem_formulario (patchDestino eventoExemplo formExemplo)
              [trechoCarroExemplo; preencherDestino eventoExemplo trechoAviaoExemplo])).
  reflexivity.
Defined.

Lemma enviar_registro_witness :
  exists c' ls' reg,
    enviar emailSimples "2025-01-01T00:00:00.000Z"
      (calcular_next resultadoExemplo (componenteExemplo [trechoCarroExemplo])) ∅
      = Some (c', ls') /\
    fc_enviado c' = true /\
    obterViagens ls' = Some ([] ++ [reg])%list /\
    a_trechos reg = None /\ a_resultado reg = Some resultadoExemplo /\
    a_dataCalculo reg = Some "2025-01-01T00:00:00.000Z" /\
    a_nome reg = Some "Ana Souza".
Proof. by apply (enviar_registro emailSimples). Defined.

Lemma enviar_guarda_witness :
  enviar emailSimples "2025-01-01T00:00:00.000Z" (componenteExemplo [trechoCarroExemplo]) ∅
    = Some (componenteExemplo [trechoCarroExemplo], ∅).
Proof. apply enviar_guarda. by left. Defined.
