(* ===== verification/Admin.v ===== *)
(** * Admin: the administration page

    [AdminComponent]: the form that configures the event, the list of the
    stored trips with its totals, and the exports.  The state of the
    component is a record of its fields; the store, the session and the
    answers to [confirm] are arguments of the handlers.  The printing of
    numbers and dates ([String(n)], [toFixed], [toLocaleDateString]) is a
    parameter of the export: the theorems hold for every printer.

    The file ends with a reader of one line of comma-separated values, which
    is the specification the export is checked against. *)

From Stdlib Require Import Ascii.
From stdpp Require Import pretty.
From S2P Require Import Prelude JsString Geocoding Cidades Calculator Storage Auth Formulario.

Local Open Scope string_scope.

(** ** The event form *)

(** [eventoForm.value]; [None] is [null], the value of a control after
    [reset]. *)
Record EventoForm := mkEventoForm {
  ef_nomeEvento : option string;
  ef_cidade : option string;
  ef_estado : option string;
  ef_pais : option string;
  ef_cep : option string;
  ef_dataInicio : option string;
  ef_dataFim : option string
}.

Record AdminComponent := mkAdmin {
  ad_viagens : list ViagemRegistro;
  ad_totalEmissao : Q;
  ad_totalCreditos : Q;
  ad_totalArvores : Q;
  ad_eventoForm : EventoForm;
  ad_eventoAtual : option EventoConfig;
  ad_alertas : list string
}.

(** [inicializarFormularioEvento]. *)
Definition eventoFormInicial : EventoForm :=
  mkEventoForm (Some "") (Some "") (Some "") (Some "Brasil") (Some "") (Some "") (Some "").

Definition adminNovo : AdminComponent := mkAdmin [] 0 0 0 eventoFormInicial None [].

(** [eventoForm.valid]: four controls carry [Validators.required]. *)
Definition eventoForm_valid (f : EventoForm) : bool :=
  truthy_ostr (ef_cidade f) && truthy_ostr (ef_estado f) &&
  truthy_ostr (ef_pais f) && truthy_ostr (ef_cep f).

(** The subscription of [configurarMascaraCEP], run on the value of the
    control [cep]. *)
Definition mascararCEP (f : EventoForm) : EventoForm :=
  match ef_cep f with
  | Some cep =>
      if truthy_str cep then
        let cepLimpo := only_digits cep in
        let cepFormatado := replace_cep cepLimpo in
        mkEventoForm (ef_nomeEvento f) (ef_cidade f) (ef_estado f) (ef_pais f)
          (Some cepFormatado) (ef_dataInicio f) (ef_dataFim f)
      else f
  | None => f
  end.

(** The administrator types in the control [cep]. *)
Definition digitarCEP (cep : string) (f : EventoForm) : EventoForm :=
  mascararCEP (mkEventoForm (ef_nomeEvento f) (ef_cidade f) (ef_estado f) (ef_pais f)
                 (Some cep) (ef_dataInicio f) (ef_dataFim f)).

(** [eventoForm.patchValue(evento)]: a property the object does not have
    leaves its control as it is. *)
Definition patchEvento (e : EventoConfig) (f : EventoForm) : EventoForm :=
  mascararCEP
    (mkEventoForm
       (match ev_nomeEvento e with Some s => Some s | None => ef_nomeEvento f end)
       (Some (ev_cidade e)) (Some (ev_estado e)) (Some (ev_pais e))
       (match ev_cep e with Some s => Some s | None => ef_cep f end)
       (match ev_dataInicio e with Some s => Some s | None => ef_dataInicio f end)
       (match ev_dataFim e with Some s => Some s | None => ef_dataFim f end)).

(** [this.eventoForm.value] as an [EventoConfig]. *)
Definition eventoDoFormulario (f : EventoForm) : EventoConfig :=
  mkEvento (default "" (ef_cidade f)) (default "" (ef_estado f)) (default "" (ef_pais f))
    (ef_cep f) (ef_nomeEvento f) (ef_dataInicio f) (ef_dataFim f).

(** ** Totals *)

(** [calcularTotais]. *)
Definition calcularTotais (a : AdminComponent) : AdminComponent :=
  mkAdmin (ad_viagens a)
    (foldl (fun sum v => sum + num_or (emissaoCO2 <$> a_resultado v) 0)%Q 0%Q (ad_viagens a))
    (foldl (fun sum v => sum + num_or (creditosCarbono <$> a_resultado v) 0)%Q 0%Q
           (ad_viagens a))
    (foldl (fun sum v => sum + num_or (equivalenteArvores <$> a_resultado v) 0)%Q 0%Q
           (ad_viagens a))
    (ad_eventoForm a) (ad_eventoAtual a) (ad_alertas a).

(** ** Handlers *)

Section Handlers.
Context `{JV : Json (list ViagemRegistro)} `{JE : Json EventoConfig}.

(** [carregarViagens]: [None] when reading the store throws. *)
Definition carregarViagens (ls : localStorage) (a : AdminComponent) : option AdminComponent :=
  viagens ← obterViagens ls;
  Some (calcularTotais
          (mkAdmin viagens (ad_totalEmissao a) (ad_totalCreditos a) (ad_totalArvores a)
             (ad_eventoForm a) (ad_eventoAtual a) (ad_alertas a))).

Definition admin_carregarEvento (ls : localStorage) (a : AdminComponent)
    : option AdminComponent :=
  evento ← obterEvento ls;
  Some (mkAdmin (ad_viagens a) (ad_totalEmissao a) (ad_totalCreditos a) (ad_totalArvores a)
          (match evento with
           | Some e => patchEvento e (ad_eventoForm a)
           | None => ad_eventoForm a
           end)
          evento (ad_alertas a)).

Definition admin_ngOnInit (ls : localStorage) (a : AdminComponent) : option AdminComponent :=
  a1 ← admin_carregarEvento ls
         (mkAdmin (ad_viagens a) (ad_totalEmissao a) (ad_totalCreditos a)
            (ad_totalArvores a) eventoFormInicial (ad_eventoAtual a) (ad_alertas a));
  carregarViagens ls a1.

Definition admin_salvarEvento (a : AdminComponent) (ls : localStorage)
    : AdminComponent * localStorage :=
  if eventoForm_valid (ad_eventoForm a) then
    let evento := eventoDoFormulario (ad_eventoForm a) in
    (mkAdmin (ad_viagens a) (ad_totalEmissao a) (ad_totalCreditos a) (ad_totalArvores a)
       (ad_eventoForm a) (Some evento)
       (ad_alertas a ++ ["Evento configurado com sucesso!"])%list,
     salvarEvento evento ls)
  else
    (mkAdmin (ad_viagens a) (ad_totalEmissao a) (ad_totalCreditos a) (ad_totalArvores a)
       (ad_eventoForm a) (ad_eventoAtual a)
       (ad_alertas a ++ ["Preencha pelo menos cidade, estado, país e CEP."])%list,
     ls).

(** [confirmado] is the answer to [confirm]. *)
Definition admin_removerEvento (confirmado : bool) (a : AdminComponent) (ls : localStorage)
    : AdminComponent * localStorage :=
  if confirmado then
    (mkAdmin (ad_viagens a) (ad_totalEmissao a) (ad_totalCreditos a) (ad_totalArvores a)
       (mkEventoForm None None None (Some "Brasil") None None None) None (ad_alertas a),
     removerEvento ls)
  else (a, ls).

Definition admin_excluirViagem (confirmado : bool) (index : Z) (a : AdminComponent)
    (ls : localStorage) : option (AdminComponent * localStorage) :=
  if confirmado then
    ls' ← excluirViagem index ls;
    a' ← carregarViagens ls' a;
    Some (a', ls')
  else Some (a, ls).

Definition limparTodos (confirmado : bool) (a : AdminComponent) (ls : localStorage)
    : option (AdminComponent * localStorage) :=
  if confirmado then
    let ls' := removeItem "viagens_carbono" ls in
    a' ← carregarViagens ls' a;
    Some (a', ls')
  else Some (a, ls).

Definition admin_logout (confirmado : bool) (s : AuthService) : AuthService :=
  if confirmado then logout s else s.

End Handlers.

(** ** Presentation *)

(** The table of [formatarMeioTransporte], written a second time in this
    component. *)
Definition admin_meios : gmap string string :=
  list_to_map [
    ("aviao", "Avião");
    ("carro", "Carro");
    ("onibus", "Ônibus");
    ("trem", "Trem");
    ("metro", "Metrô");
    ("motocicleta", "Motocicleta");
    ("navio", "Navio/Barco")].

Definition admin_formatarMeioTransporte (meio : string) : string :=
  str_or (admin_meios !! meio) meio.

(** ** Export *)

(** [array.join(sep)]. *)
Fixpoint join (sep : string) (l : list string) : string :=
  match l with
  | [] => ""
  | [x] => x
  | x :: r => x ++ sep ++ join sep r
  end.

(** A template literal prints a missing value as [undefined]. *)
Definition modelo (o : option string) : string := default "undefined" o.

(** The name of the downloaded file: the date of [toISOString], before the
    letter T. *)
Definition nomeArquivo (agora extensao : string) : string :=
  "dados_carbono_" ++ modelo (nth_part (split_on "T" agora) 0) ++ "." ++ extensao.

(** A cell of the sheet. *)
Inductive Campo :=
| CTexto (s : string)
| CNumero (x : Q).

Definition aspas : ascii := ascii_of_nat 34.
Definition nova_linha : ascii := ascii_of_nat 10.
Definition virgula : ascii := ascii_of_nat 44.

(** The replacement of every quote by two quotes; the quote is written as
    a character code. *)
Fixpoint dobrarAspas (s : string) : string :=
  match s with
  | "" => ""
  | String c r =>
      if Ascii.eqb c aspas then String aspas (String aspas (dobrarAspas r))
      else String c (dobrarAspas r)
  end.

(** The escaping of a cell. *)
Definition escaparCampo (campoStr : string) : string :=
  if includes_char virgula campoStr || includes_char aspas campoStr ||
     includes_char nova_linha campoStr
  then String aspas (dobrarAspas campoStr ++ String aspas "")
  else campoStr.

Definition headers : list string :=
  ["Nome"; "Email"; "CPF"; "Telefone"; "Trechos (Origem → Destino)"; "Destino (Cidade)";
   "Destino (Estado)"; "Destino (País)"; "Data Viagem"; "Data Retorno"; "Ida e Volta";
   "Distância Total (km)"; "Emissão CO₂ (kg)"; "Créditos de Carbono (tCO₂)";
   "Árvores Equivalentes"; "Observações"].

Section Exportacao.
Context (Number_toString : Q -> string) (toFixed : nat -> Q -> string)
  (toLocaleDateString : string -> string).

(** [String(campo || '')]. *)
Definition campoStr (campo : Campo) : string :=
  match campo with
  | CTexto s => s
  | CNumero x => if truthy_num x then Number_toString x else ""
  end.

(** The description of leg [i] of a stored trip. *)
Definition trechoInfo (viagem : ViagemRegistro) (i : nat) (t : TrechoViagem) : string :=
  let origem :=
    if truthy_ostr (origemCidade t)
    then modelo (origemCidade t) ++ ", " ++ modelo (origemEstado t)
    else if truthy_ostr (cepOrigem t) then "CEP: " ++ modelo (cepOrigem t)
    else "" in
  let destino :=
    if truthy_ostr (destinoCidade t)
    then modelo (destinoCidade t) ++ ", " ++ modelo (destinoEstado t)
    else modelo (a_destinoCidade viagem) ++ ", " ++ modelo (a_destinoEstado viagem) in
  "Trecho " ++ pretty (i + 1)%nat ++ ": " ++ admin_formatarMeioTransporte (meioTransporte t) ++
  " (" ++ origem ++ " → " ++ destino ++ ")".

Definition trechosInfo (viagem : ViagemRegistro) : string :=
  str_or (join "; " <$> (imap (trechoInfo viagem) <$> a_trechos viagem)) "N/A".

(** [formatarData]. *)
Definition formatarData (data : string) : string :=
  if negb (truthy_str data) then "-" else toLocaleDateString data.

(** The row of a stored trip. *)
Definition linhaViagem (viagem : ViagemRegistro) : list Campo :=
  [CTexto (str_or (a_nome viagem) "");
   CTexto (str_or (a_email viagem) "");
   CTexto (str_or (a_cpf viagem) "");
   CTexto (str_or (a_telefone viagem) "");
   CTexto (trechosInfo viagem);
   CTexto (str_or (a_destinoCidade viagem) "");
   CTexto (str_or (a_destinoEstado viagem) "");
   CTexto (str_or (a_destinoPais viagem) "");
   CTexto (match a_dataViagem viagem with
           | Some d => if truthy_str d then toLocaleDateString d else ""
           | None => ""
           end);
   CTexto (match a_dataRetorno viagem with
           | Some d => if truthy_str d then toLocaleDateString d else ""
           | None => ""
           end);
   CTexto (if default false (a_idaEVolta viagem) then "Sim" else "Não");
   CNumero (num_or (distanciaTotal <$> a_resultado viagem) 0);
   CNumero (num_or (emissaoCO2 <$> a_resultado viagem) 0);
   CNumero (num_or (creditosCarbono <$> a_resultado viagem) 0);
   CNumero (num_or (equivalenteArvores <$> a_resultado viagem) 0);
   CTexto (str_or (a_observacoes viagem) "")].

(** The row of the totals. *)
Definition linhaTotais (a : AdminComponent) : list Campo :=
  [CTexto ""; CTexto ""; CTexto ""; CTexto ""; CTexto ""; CTexto ""; CTexto ""; CTexto "";
   CTexto ""; CTexto ""; CTexto "";
   CTexto "TOTAIS";
   CTexto (toFixed 2 (ad_totalEmissao a));
   CTexto (toFixed 3 (ad_totalCreditos a));
   CTexto (Number_toString (ad_totalArvores a));
   CTexto ""].

(** A row as text. *)
Definition linhaCsv (linha : list Campo) : string :=
  join "," ((fun campo => escaparCampo (campoStr campo)) <$> linha).

(** [exportarParaExcel]: the name of the file and its content, without the
    byte-order mark. *)
Definition exportarParaExcel (agora : string) (a : AdminComponent) : string * string :=
  let linhas := ((linhaViagem <$> ad_viagens a) ++ [linhaTotais a])%list in
  let csvContent := join (String nova_linha "") (join "," headers :: (linhaCsv <$> linhas)) in
  (nomeArquivo agora "csv", csvContent).

End Exportacao.

(** [exportarDados]: the name of the file and the exported object. *)
Record DadosExportados := mkDados {
  ex_viagens : list ViagemRegistro;
  ex_totalEmissao : Q;
  ex_totalCreditos : Q;
  ex_totalArvores : Q;
  ex_dataExportacao : string
}.

Definition exportarDados (agora : string) (a : AdminComponent) : string * DadosExportados :=
  (nomeArquivo agora "json",
   mkDados (ad_viagens a) (ad_totalEmissao a) (ad_totalCreditos a) (ad_totalArvores a) agora).

(** ** A reader of comma-separated values

    One line in the format of RFC 4180: cells separated by commas; a cell
    that starts with a quote runs to the closing quote, and a doubled quote
    inside it stands for one quote. *)

Inductive leitor :=
| InicioDoCampo
| SemAspas
| EntreAspas
| AspasEntreAspas.

Fixpoint ler_linha (st : leitor) (atual : string) (s : string) : list string :=
  match s with
  | "" => [atual]
  | String c r =>
      match st with
      | InicioDoCampo =>
          if Ascii.eqb c aspas then ler_linha EntreAspas "" r
          else if Ascii.eqb c virgula then atual :: ler_linha InicioDoCampo "" r
          else ler_linha SemAspas (String c "") r
      | SemAspas =>
          if Ascii.eqb c virgula then atual :: ler_linha InicioDoCampo "" r
          else ler_linha SemAspas (atual ++ String c "") r
      | EntreAspas =>
          if Ascii.eqb c aspas then ler_linha AspasEntreAspas atual r
          else ler_linha EntreAspas (atual ++ String c "") r
      | AspasEntreAspas =>
          if Ascii.eqb c aspas then ler_linha EntreAspas (atual ++ String aspas "") r
          else if Ascii.eqb c virgula then atual :: ler_linha InicioDoCampo "" r
          else ler_linha SemAspas (atual ++ String c "") r
      end
  end.

Definition ler_csv (s : string) : list string := ler_linha InicioDoCampo "" s.

(** ** Facts: the reader and the escaping *)

Section Csv.
Implicit Types (s f atual resto : string) (c : ascii).

Lemma app_String c s t : String c s ++ t = String c (s ++ t).
Proof. done. Qed.

Lemma app_snoc atual c f : (atual ++ String c "") ++ f = atual ++ String c f.
Proof. induction atual as [|d atual IH]; [done|]. by rewrite !app_String, IH. Qed.

Lemma app_vazio s : s ++ "" = s.
Proof. induction s as [|c s IH]; [done|]. by rewrite app_String, IH. Qed.

Lemma app_assoc_string s t u : s ++ (t ++ u) = (s ++ t) ++ u.
Proof. induction s as [|c s IH]; [done|]. by rewrite !app_String, IH. Qed.

(** The end of a cell: the end of the line, or a comma and what follows. *)
Definition fim_campo (atual resto : string) : list string :=
  match resto with
  | "" => [atual]
  | String _ t => atual :: ler_linha InicioDoCampo "" t
  end.

Definition resto_valido (resto : string) : Prop :=
  resto = "" \/ exists t, resto = String virgula t.

Lemma ler_sem_aspas f atual resto :
  includes_char virgula f = false ->
  ler_linha SemAspas atual (f ++ resto) = ler_linha SemAspas (atual ++ f) resto.
Proof.
  revert atual. induction f as [|c f IH]; intros atual Hf; [by rewrite app_vazio|].
  simpl in Hf. apply orb_false_iff in Hf as [Hc Hf].
  rewrite app_String. simpl. rewrite Hc, IH by done. by rewrite app_snoc.
Qed.

Lemma ler_sem_aspas_fim atual resto :
  resto_valido resto -> ler_linha SemAspas atual resto = fim_campo atual resto.
Proof. by intros [->|[t ->]]. Qed.

Lemma ler_inicio_fim resto :
  resto_valido resto -> ler_linha InicioDoCampo "" resto = fim_campo "" resto.
Proof. by intros [->|[t ->]]. Qed.

Lemma ler_aspas_fim atual resto :
  resto_valido resto -> ler_linha AspasEntreAspas atual resto = fim_campo atual resto.
Proof. by intros [->|[t ->]]. Qed.

Lemma ler_entre_aspas f atual resto :
  ler_linha EntreAspas atual (dobrarAspas f ++ String aspas resto) =
    ler_linha AspasEntreAspas (atual ++ f) resto.
Proof.
  revert atual. induction f as [|c f IH]; intros atual; [by rewrite app_vazio|].
  simpl. destruct (Ascii.eqb c aspas) eqn:Hc.
  - apply Ascii.eqb_eq in Hc as ->. rewrite !app_String. simpl.
    by rewrite IH, app_snoc.
  - rewrite app_String. simpl. by rewrite Hc, IH, app_snoc.
Qed.

Lemma ler_entre_aspas_fim f resto :
  resto_valido resto ->
  ler_linha InicioDoCampo "" (String aspas (dobrarAspas f ++ String aspas "") ++ resto) =
    fim_campo f resto.
Proof.
  intros Hr. rewrite app_String, <- app_assoc_string, app_String.
  change (ler_linha InicioDoCampo "" (String aspas ?s)) with (ler_linha EntreAspas "" s).
  by rewrite ler_entre_aspas, ler_aspas_fim.
Qed.

(** A cell as [escaparCampo] writes it is read back as it was. *)
Lemma ler_escaparCampo f resto :
  resto_valido resto ->
  ler_linha InicioDoCampo "" (escaparCampo f ++ resto) = fim_campo f resto.
Proof.
  intros Hr. unfold escaparCampo.
  destruct (includes_char virgula f) eqn:Hv; [by apply ler_entre_aspas_fim|].
  destruct (includes_char aspas f) eqn:Ha; [by apply ler_entre_aspas_fim|].
  destruct (includes_char nova_linha f) eqn:Hn; [by apply ler_entre_aspas_fim|].
  cbn [orb]. destruct f as [|c f]; [by apply ler_inicio_fim|].
  simpl in Hv, Ha. apply orb_false_iff in Hv as [Hv1 Hv2], Ha as [Ha1 Ha2].
  rewrite app_String. simpl. rewrite Ha1, Hv1.
  by rewrite ler_sem_aspas, ler_sem_aspas_fim.
Qed.

Lemma join_cons sep x y l : join sep (x :: y :: l) = x ++ sep ++ join sep (y :: l).
Proof. done. Qed.

(** A line of escaped cells is read back cell by cell. *)
Lemma ler_csv_join (campos : list string) :
  campos <> [] -> ler_csv (join "," (escaparCampo <$> campos)) = campos.
Proof.
  unfold ler_csv. induction campos as [|f [|g campos] IH]; intros Hne; [done|..].
  - simpl. rewrite <- (app_vazio (escaparCampo f)). by rewrite ler_escaparCampo by by left.
  - rewrite !fmap_cons, join_cons.
    rewrite ler_escaparCampo by (right; by eexists).
    simpl. f_equal. by apply IH.
Qed.

End Csv.

(** ** Facts: the export *)

Section ExportFacts.
Context (Number_toString : Q -> string) (toFixed : nat -> Q -> string)
  (toLocaleDateString : string -> string).
Implicit Types (v : ViagemRegistro) (a : AdminComponent) (linha : list Campo).

Lemma ler_csv_linhaCsv linha :
  linha <> [] ->
  ler_csv (linhaCsv Number_toString linha) = campoStr Number_toString <$> linha.
Proof.
  intros Hne. unfold linhaCsv.
  rewrite (list_fmap_compose (campoStr Number_toString) escaparCampo).
  apply ler_csv_join. by destruct linha.
Qed.

(** Every row of the sheet can be read back: read as a line of
    comma-separated values, the row of a trip and the row of the totals give
    back the texts of their cells, one for each of the sixteen headers,
    whatever commas, quotes and line breaks the texts contain. *)
Theorem exportar_linha_legivel v a :
  let lv := linhaViagem toLocaleDateString v in
  let lt := linhaTotais Number_toString toFixed a in
  ler_csv (linhaCsv Number_toString lv) = campoStr Number_toString <$> lv /\
  ler_csv (linhaCsv Number_toString lt) = campoStr Number_toString <$> lt /\
  length lv = length headers /\ length lt = length headers.
Proof. cbv zeta. split_and!; [by apply ler_csv_linhaCsv..|done|done]. Qed.

(** A number that is zero is written as an empty cell: the row of
    a trip whose result has no emission shows nothing in the emission
    column. *)
Theorem exportar_zero_vazio v r :
  a_resultado v = Some r -> emissaoCO2 r == 0 ->
  (campoStr Number_toString <$> linhaViagem toLocaleDateString v) !! 12%nat
    = Some "".
Proof.
  intros Hr Hz. unfold linhaViagem. rewrite Hr. simpl. f_equal.
  unfold num_or, truthy_num. by rewrite (proj2 (Qeq_bool_iff _ _) Hz).
Qed.

(** A stored trip without the property [trechos], or with no leg, is
    described as N/A in the column of the legs. *)
Lemma trechosInfo_sem_trechos v :
  a_trechos v = None \/ a_trechos v = Some [] -> trechosInfo v = "N/A".
Proof. unfold trechosInfo. by intros [-> | ->]. Qed.

End ExportFacts.

(** ** Facts: the totals *)

(** The totals are the sums over the listed trips. *)
Definition ad_coerente (a : AdminComponent) : Prop :=
  ad_totalEmissao a == sumQ ((fun v => num_or (emissaoCO2 <$> a_resultado v) 0) <$> ad_viagens a) /\
  ad_totalCreditos a ==
    sumQ ((fun v => num_or (creditosCarbono <$> a_resultado v) 0) <$> ad_viagens a) /\
  ad_totalArvores a ==
    sumQ ((fun v => num_or (equivalenteArvores <$> a_resultado v) 0) <$> ad_viagens a).

Section Totais.
Context `{JV : Json (list ViagemRegistro)} `{JE : Json EventoConfig}.
Implicit Types (a : AdminComponent) (ls : localStorage) (vs : list ViagemRegistro).

Lemma calcularTotais_coerente a : ad_coerente (calcularTotais a).
Proof. unfold ad_coerente, calcularTotais. simpl. split_and!; rewrite foldl_sumQ; ring. Qed.

Lemma carregarViagens_Some ls a vs :
  obterViagens ls = Some vs ->
  exists a', carregarViagens ls a = Some a' /\ ad_viagens a' = vs /\ ad_coerente a'.
Proof.
  intros Hvs. unfold carregarViagens. rewrite Hvs. simpl.
  eexists. split; [done|]. split; [done|]. apply calcularTotais_coerente.
Qed.

Lemma carregarViagens_coerente ls a a' : carregarViagens ls a = Some a' -> ad_coerente a'.
Proof.
  unfold carregarViagens. destruct (obterViagens ls); intros [= <-].
  apply calcularTotais_coerente.
Qed.

(** One handler of the page runs. *)
Inductive ad_passo : AdminComponent -> AdminComponent -> Prop :=
| ap_carregarViagens ls a a' : carregarViagens ls a = Some a' -> ad_passo a a'
| ap_carregarEvento ls a a' : admin_carregarEvento ls a = Some a' -> ad_passo a a'
| ap_salvarEvento a ls : ad_passo a (admin_salvarEvento a ls).1
| ap_removerEvento confirmado a ls : ad_passo a (admin_removerEvento confirmado a ls).1
| ap_excluirViagem confirmado index a ls a' ls' :
    admin_excluirViagem confirmado index a ls = Some (a', ls') -> ad_passo a a'
| ap_limparTodos confirmado a ls a' ls' :
    limparTodos confirmado a ls = Some (a', ls') -> ad_passo a a'
| ap_digitar (f : EventoForm) a :
    ad_passo a (mkAdmin (ad_viagens a) (ad_totalEmissao a) (ad_totalCreditos a)
                  (ad_totalArvores a) f (ad_eventoAtual a) (ad_alertas a)).

Inductive ad_alcancavel : AdminComponent -> Prop :=
| aa_ngOnInit ls a : admin_ngOnInit ls adminNovo = Some a -> ad_alcancavel a
| aa_passo a a' : ad_alcancavel a -> ad_passo a a' -> ad_alcancavel a'.

Lemma ad_passo_coerente a a' : ad_passo a a' -> ad_coerente a -> ad_coerente a'.
Proof.
  destruct 1 as [ls a a' H|ls a a' H|a ls|confirmado a ls|confirmado index a ls a' ls' H
                |confirmado a ls a' ls' H|f a]; intros Ha.
  - by eapply carregarViagens_coerente.
  - unfold admin_carregarEvento in H. by destruct (obterEvento ls); simplify_eq/=.
  - unfold admin_salvarEvento. by destruct (eventoForm_valid _).
  - unfold admin_removerEvento. by destruct confirmado.
  - unfold admin_excluirViagem in H. destruct confirmado; [|by simplify_eq].
    destruct (excluirViagem index ls) as [l1|]; [|done]. simpl in H.
    destruct (carregarViagens l1 a) as [a1|] eqn:E; simplify_eq/=.
    by eapply carregarViagens_coerente.
  - unfold limparTodos in H. destruct confirmado; [|by simplify_eq]. cbv zeta in H.
    destruct (carregarViagens _ a) as [a1|] eqn:E; simplify_eq/=.
    by eapply carregarViagens_coerente.
  - done.
Qed.

(** [C20] In every state of the page the three totals are the sums of
    the results of the listed trips, a trip without result counting for
    nothing. *)
Theorem ad_totais_coerentes a : ad_alcancavel a -> ad_coerente a.
Proof.
  induction 1 as [ls a Hi|a a' _ IH Hp]; [|by eapply ad_passo_coerente].
  unfold admin_ngOnInit in Hi. destruct (admin_carregarEvento _ _) as [a1|]; [|done].
  by eapply carregarViagens_coerente.
Qed.

(** Deleting the trip at an index of the list removes that trip
    from the store and from the page, and the totals are those of the trips
    that remain. *)
Theorem admin_excluirViagem_indice (i : nat) a ls vs :
  obterViagens ls = Some vs -> (i < length vs)%nat ->
  exists a' ls', admin_excluirViagem true (Z.of_nat i) a ls = Some (a', ls') /\
    obterViagens ls' = Some (delete i vs) /\ ad_viagens a' = delete i vs /\
    ad_coerente a'.
Proof.
  intros Hvs Hi. unfold admin_excluirViagem.
  rewrite (excluirViagem_Some _ _ _ Hvs). simpl.
  rewrite splice1_dentro by done.
  destruct (carregarViagens_Some (setItem "viagens_carbono" (JSON_stringify (delete i vs)) ls)
              a (delete i vs)) as (a' & -> & Hv & Hc); [apply obterViagens_setItem|].
  simpl. eexists _, _. split; [done|]. by rewrite obterViagens_setItem.
Qed.

(** After [limparTodos] the list is empty and the totals are
    zero. *)
Theorem limparTodos_vazio a ls :
  exists a', limparTodos true a ls = Some (a', removeItem "viagens_carbono" ls) /\
    ad_viagens a' = [] /\ ad_totalEmissao a' = 0%Q /\ ad_totalCreditos a' = 0%Q /\
    ad_totalArvores a' = 0%Q.
Proof.
  unfold limparTodos, carregarViagens, obterViagens. cbv zeta.
  rewrite getItem_removeItem. simpl. eexists. by split_and!.
Qed.

(** The event the administrator saves is the event the page and
    the store hold afterwards; with a required field empty nothing is
    stored. *)
Theorem admin_salvarEvento_cases a ls :
  let '(a', ls') := admin_salvarEvento a ls in
  (eventoForm_valid (ad_eventoForm a) = true ->
     obterEvento ls' = Some (Some (eventoDoFormulario (ad_eventoForm a))) /\
     ad_eventoAtual a' = Some (eventoDoFormulario (ad_eventoForm a)) /\
     ev_cidade (eventoDoFormulario (ad_eventoForm a)) <> "") /\
  (eventoForm_valid (ad_eventoForm a) = false -> ls' = ls /\ ad_eventoAtual a' = ad_eventoAtual a).
Proof.
  unfold admin_salvarEvento. destruct (eventoForm_valid _) eqn:Hv; [|by split].
  split; [|done]. intros _. split_and!; [apply obterEvento_setItem|done|].
  unfold eventoForm_valid in Hv. destruct (ad_eventoForm a) as [? [c|] ? ? ? ? ?]; [|done].
  simpl in *. intros ->. done.
Qed.

End Totais.

(** The two tables of [formatarMeioTransporte] agree. *)
Lemma admin_formatarMeioTransporte_igual meio :
  admin_formatarMeioTransporte meio = formatarMeioTransporte meio.
Proof. done. Qed.

(** ** Examples *)

(** Printers that stand for [String(n)], [toFixed] and
    [toLocaleDateString]. *)
Definition imprimirInteiro (x : Q) : string := pretty (Qfloor x).
Definition imprimirFixo (casas : nat) (x : Q) : string := pretty (Qfloor x).
Definition imprimirData (data : string) : string := data.

Definition eventoFormExemplo : EventoForm :=
  mkEventoForm (Some "Congresso") (Some "Vitória") (Some "ES") (Some "Brasil")
    (Some "29000-000") None None.

Lemma exportar_zero_vazio_witness :
  (campoStr imprimirInteiro <$>
     linhaViagem imprimirData
       (dadosViagem (objeto_ViagemData (viagemExemplo [] false))
          (mkResultado 0 0 0 0 0 []) "2025-01-01")) !! 12%nat = Some "".
Proof. by apply (exportar_zero_vazio imprimirInteiro imprimirData _ (mkResultado 0 0 0 0 0 [])). Defined.

Lemma ad_totais_coerentes_witness :
  ad_coerente (admin_salvarEvento
                 (calcularTotais (mkAdmin [] 0 0 0 eventoFormInicial None [])) ∅).1.
Proof.
  apply ad_totais_coerentes.
  eapply aa_passo; [|apply ap_salvarEvento].
  by apply (aa_ngOnInit ∅).
Defined.

Lemma admin_excluirViagem_indice_witness :
  exists a' ls',
    admin_excluirViagem true 0 adminNovo (lojaExemplo [registroExemplo "a"; registroExemplo "b"])
      = Some (a', ls') /\
    obterViagens ls' = Some [registroExemplo "b"] /\
    ad_viagens a' = [registroExemplo "b"] /\ ad_coerente a'.
Proof.
  apply (admin_excluirViagem_indice 0 adminNovo _ [registroExemplo "a"; registroExemplo "b"]);
    [apply obterViagens_setItem|simpl; lia].
Defined.
