(* ===== verification/Pipeline.v ===== *)
(** * Pipeline: the calculator with the real geocoding service

    [CarbonCalculatorService] is constructed with [GeocodingService]; the
    instance [geocodingService] below is that injection.  The environment is
    the family [http]: [http i] is the HTTP client as the request issued for
    leg number [i] sees it, so that two legs with the same postal code may
    get different replies.  The theorems are the end-to-end properties of a
    trip computation: which distance each kind of leg resolves to, and that
    a failed lookup degrades one leg and no other. *)

From S2P Require Import Prelude JsString Geocoding Calculator.

Local Open Scope string_scope.
Local Open Scope Q_scope.

(** The injected service: [calcularDistanciaCEP] with the client of the
    request, [calcularDistancia] as it is. *)
Definition geocodingService (http : nat -> http_client) : Geocoder :=
  {| geo_calcularDistanciaCEP req cep destinoCidade destinoEstado :=
       calcularDistanciaCEP (http req) cep destinoCidade destinoEstado;
     geo_calcularDistancia := calcularDistancia |}.

(** A client whose every request fails. *)
Definition httpFalha : http_client := fun _ => HttpError.

(** A client that answers every request with one address. *)
Definition httpEndereco (e : EnderecoCEP) : http_client := fun _ => HttpOk e.

(** Replace the client of request [i]. *)
Definition comCliente (i : nat) (c : http_client) (http : nat -> http_client)
    : nat -> http_client :=
  fun j => if decide (j = i) then c else http j.

#[export] Instance geocodingService_laws http : GeocoderLaws (geocodingService http).
Proof.
  split; intros; simpl.
  - apply distanciaDoEndereco_range.
  - pose proof (calcularDistancia_bounds oc oe op dc de dp). lra.
Qed.

Section Pipeline.
Context (http : nat -> http_client).
Implicit Types (t : TrechoViagem) (v : ViagemData) (i : nat) (e : EnderecoCEP).

(** A road leg with a postal code and no explicit distance asks ViaCEP. *)
Lemma calcularDistanciaTrecho_rodoviario t v i cep :
  num_pos (distanciaKm t) = false -> modoRodoviario (meioTransporte t) ->
  cepOrigem t = Some cep -> cep <> "" ->
  calcularDistanciaTrecho (G := geocodingService http) t v i =
    calcularDistanciaCEP (http i) (only_digits cep)
      (v_destinoCidade v) (v_destinoEstado v).
Proof.
  intros Hd Hm Hc Hne. rewrite calcularDistanciaTrecho_cases, Hd, Hc.
  rewrite decide_True by done. simpl.
  by rewrite (proj2 (truthy_str_true cep) Hne).
Qed.

(** A plane or train leg with an origin and no explicit distance uses the
    city cascade, from Brazil. *)
Lemma calcularDistanciaTrecho_cidades t v i oc oe :
  num_pos (distanciaKm t) = false -> modoCidade (meioTransporte t) ->
  origemCidade t = Some oc -> oc <> "" -> origemEstado t = Some oe -> oe <> "" ->
  calcularDistanciaTrecho (G := geocodingService http) t v i =
    calcularDistancia oc oe "Brasil"
      (str_or (destinoCidade t) (v_destinoCidade v))
      (str_or (destinoEstado t) (v_destinoEstado v)) (v_destinoPais v).
Proof.
  intros Hd Hm Hoc Hoc' Hoe Hoe'. rewrite calcularDistanciaTrecho_cases, Hd, Hoc, Hoe.
  rewrite decide_False by by apply modoCidade_not_rodoviario.
  rewrite decide_True by done. simpl.
  by rewrite (proj2 (truthy_str_true oc) Hoc'), (proj2 (truthy_str_true oe) Hoe').
Qed.

(** [C9] Fallback cascade: a road leg whose postal code resolves to a
    city of the destination's state, other than the destination city and
    without a positive entry in the metropolitan table, is 80 km long. *)
Theorem trecho_rodoviario_80 t v i cep e :
  num_pos (distanciaKm t) = false -> modoRodoviario (meioTransporte t) ->
  cepOrigem t = Some cep -> cep <> "" ->
  buscarCEP (http i) (only_digits cep) = Some e -> uf e = v_destinoEstado v ->
  toLowerCase (localidade e) <> toLowerCase (v_destinoCidade v) ->
  obterDistanciasRegiaoMetropolitana
    (localidade e) (uf e) (v_destinoCidade v) (v_destinoEstado v) <= 0 ->
  calcularDistanciaTrecho (G := geocodingService http) t v i = 80.
Proof.
  intros Hd Hm Hc Hne Hb Hu Hl Ht.
  rewrite (calcularDistanciaTrecho_rodoviario t v i cep) by done.
  unfold calcularDistanciaCEP, distanciaDoEndereco. rewrite Hb. cbv zeta.
  rewrite (bool_decide_false (_ ≠ _)) by naive_solver.
  rewrite bool_decide_false by congruence.
  case_num_gt; [lra|done].
Qed.

(** [C10] Intra-city shortcut: a road leg whose postal code resolves
    to the destination city, letter case aside, is 10 km long. *)
Theorem trecho_rodoviario_10 t v i cep e :
  num_pos (distanciaKm t) = false -> modoRodoviario (meioTransporte t) ->
  cepOrigem t = Some cep -> cep <> "" ->
  buscarCEP (http i) (only_digits cep) = Some e -> uf e = v_destinoEstado v ->
  toLowerCase (localidade e) = toLowerCase (v_destinoCidade v) ->
  calcularDistanciaTrecho (G := geocodingService http) t v i = 10.
Proof.
  intros Hd Hm Hc Hne Hb Hu Hl.
  rewrite (calcularDistanciaTrecho_rodoviario t v i cep) by done.
  unfold calcularDistanciaCEP, distanciaDoEndereco. rewrite Hb. cbv zeta.
  rewrite (bool_decide_false (_ ≠ _)) by naive_solver.
  by rewrite bool_decide_true.
Qed.

(** [C34] The origin of a plane or train leg is always taken to
    be in Brazil: for an event in any other country every such leg with an
    origin is 5000 km long, also when it starts in the event's country. *)
Theorem trecho_exterior_5000 t v i oc oe :
  num_pos (distanciaKm t) = false -> modoCidade (meioTransporte t) ->
  origemCidade t = Some oc -> oc <> "" -> origemEstado t = Some oe -> oe <> "" ->
  v_destinoPais v <> "Brasil" ->
  calcularDistanciaTrecho (G := geocodingService http) t v i = 5000.
Proof.
  intros Hd Hm Hoc Hoc' Hoe Hoe' Hp.
  rewrite (calcularDistanciaTrecho_cidades t v i oc oe) by done.
  unfold calcularDistancia. by rewrite bool_decide_true by naive_solver.
Qed.

(** Ranges: without an explicit distance a road leg is
    between 0 and 100 km long, and a plane or train leg with an origin is
    between 300 and 5000 km long, so never unresolved. *)
Theorem trecho_faixas t v i :
  num_pos (distanciaKm t) = false ->
  (modoRodoviario (meioTransporte t) ->
     0 <= calcularDistanciaTrecho (G := geocodingService http) t v i <= 100) /\
  (modoCidade (meioTransporte t) ->
     truthy_ostr (origemCidade t) = true -> truthy_ostr (origemEstado t) = true ->
     300 <= calcularDistanciaTrecho (G := geocodingService http) t v i <= 5000).
Proof.
  intros Hd. rewrite calcularDistanciaTrecho_cases, Hd. split.
  - intros Hm. rewrite decide_True by done.
    case_match; [apply distanciaDoEndereco_range|lra].
  - intros Hm -> ->. rewrite decide_False by by apply modoCidade_not_rodoviario.
    rewrite decide_True by done. apply calcularDistancia_bounds.
Qed.

(** The client of another request does not matter to a leg. *)
Lemma calcularTrecho_comCliente_ne v i j c t :
  j <> i ->
  calcularTrecho (G := geocodingService (comCliente i c http)) v j t =
  calcularTrecho (G := geocodingService http) v j t.
Proof.
  intros Hj. unfold calcularTrecho, calcularDistanciaTrecho. simpl.
  unfold comCliente. by rewrite decide_False.
Qed.

(** A road leg whose request fails has distance and emission 0. *)
Lemma calcularTrecho_falha v i t :
  num_pos (distanciaKm t) = false -> modoRodoviario (meioTransporte t) ->
  calcularTrecho (G := geocodingService (comCliente i httpFalha http)) v i t =
    mkResultadoTrecho t 0 (calcularEmissaoTrecho t 0).
Proof.
  intros Hd Hm. unfold calcularTrecho.
  assert (calcularDistanciaTrecho
            (G := geocodingService (comCliente i httpFalha http)) t v i = 0) as ->; [|done].
  rewrite calcularDistanciaTrecho_cases, Hd, decide_True by done.
  case_match; [|done]. simpl. unfold comCliente. rewrite decide_True by done.
  by apply calcularDistanciaCEP_sem_resposta.
Qed.

(** [C5] Degradation resilience: when the request of leg [i]
    fails, every other leg of the report is what it is when the request
    succeeds, and leg [i], if it is a road leg without explicit distance,
    is reported with distance 0 and emission 0; nothing is raised. *)
Theorem falha_isolada v i :
  let r := calcularEmissao (G := geocodingService http) v in
  let r' := calcularEmissao (G := geocodingService (comCliente i httpFalha http)) v in
  (forall j, j <> i -> trechos r' !! j = trechos r !! j) /\
  (forall t, v_trechos v !! i = Some t ->
     num_pos (distanciaKm t) = false -> modoRodoviario (meioTransporte t) ->
     exists r'i, trechos r' !! i = Some r'i /\
       trecho r'i = t /\ distancia r'i == 0 /\ emissao r'i == 0).
Proof.
  cbv zeta. rewrite !calcularEmissao_unfold.
  unfold processarCalculoMultiploTrechos. cbn [trechos]. split.
  - intros j Hj. rewrite !list_lookup_fmap, !list_lookup_imap.
    destruct (v_trechos v !! j) as [t|]; [|done].
    cbn [fmap option_fmap option_map]. by rewrite calcularTrecho_comCliente_ne.
  - intros t Ht Hd Hm. rewrite list_lookup_fmap, list_lookup_imap, Ht.
    cbn [fmap option_fmap option_map].
    rewrite calcularTrecho_falha by done. eexists; split; [done|].
    cbn [trecho distancia emissao]. rewrite calcularEmissaoTrecho_linear.
    split_and!; [done|by vm_compute|]. rewrite Qmult_0_r. by vm_compute.
Qed.

End Pipeline.

(** ** A trip of three legs

    A shared car on ethanol from Vila Velha, a business-class flight from
    São Paulo and a bus whose postal-code lookup fails, for an event in
    Vitória, ES; the round trip is asked for. *)

Definition trechoCarro : TrechoViagem :=
  mkTrecho "carro" (Some 0) None None None None (Some "29100-000")
    (Some "etanol") (Some 2) None None.

Definition trechoAviao : TrechoViagem :=
  mkTrecho "aviao" None (Some "São Paulo") (Some "SP") None None None None None
    (Some "executiva") None.

Definition trechoOnibus : TrechoViagem :=
  mkTrecho "onibus" None None None None None (Some "29.160-000") None None None None.

Definition viagemTresTrechos : ViagemData :=
  viagemExemplo [trechoCarro; trechoAviao; trechoOnibus] true.

Definition clientesExemplo : nat -> http_client :=
  comCliente 2 httpFalha (fun _ => viacepVilaVelha).

(** The report of the example trip: 15 km by car, 800 km by
    plane and 0 km for the bus whose lookup failed; the totals are those of
    the two resolved legs, doubled for the round trip. *)
Theorem viagemTresTrechos_resultado :
  let r := calcularEmissao (G := geocodingService clientesExemplo) viagemTresTrechos in
  distancia <$> trechos r = [15; 800; 0] /\
  Forall2 Qeq (emissao <$> trechos r) [0.86; 408; 0] /\
  emissaoCO2 r == 817.73 /\ creditosCarbono r == 0.818 /\
  equivalenteArvores r == 38 /\ equivalenteKmCarro r == 4259 /\
  distanciaTotal r == 1630.
Proof. vm_compute. split_and!; try done. by repeat constructor. Qed.

Lemma trecho_rodoviario_80_witness :
  calcularDistanciaTrecho (G := geocodingService (fun _ => viacepVilaVelha))
    trechoCarro (viagemExemplo [] false) 0 = 15 /\
  calcularDistanciaTrecho (G := geocodingService (fun _ => viacepVilaVelha))
    trechoCarro
    (mkViagem "" "" "" "" "Linhares" "ES" "Brasil" [] "" None false None) 0 = 80.
Proof.
  split; [by vm_compute|].
  by apply (trecho_rodoviario_80 _ _ _ _ "29100-000" enderecoVilaVelha);
    try (left; reflexivity).
Defined.

Lemma trecho_rodoviario_10_witness :
  calcularDistanciaTrecho (G := geocodingService (fun _ => viacepVilaVelha))
    trechoCarro
    (mkViagem "" "" "" "" "vila velha" "ES" "Brasil" [] "" None false None) 0 = 10.
Proof.
  by apply (trecho_rodoviario_10 _ _ _ _ "29100-000" enderecoVilaVelha);
    try (left; reflexivity).
Defined.

Lemma trecho_exterior_5000_witness :
  calcularDistanciaTrecho (G := geocodingService (fun _ => viacepVilaVelha))
    trechoAviao
    (mkViagem "" "" "" "" "Lisboa" "LX" "Portugal" [] "" None false None) 0 = 5000.
Proof.
  by apply (trecho_exterior_5000 _ _ _ _ "São Paulo" "SP"); try (left; reflexivity).
Defined.

Lemma trecho_faixas_witness :
  300 <= calcularDistanciaTrecho (G := geocodingService (fun _ => viacepVilaVelha))
           trechoAviao (viagemExemplo [] false) 0 <= 5000.
Proof.
  by apply (trecho_faixas (fun _ => viacepVilaVelha) trechoAviao); try (left; reflexivity).
Defined.
