(* ===== verification/Sistema.v ===== *)
(** * Sistema: the components together

    The properties that need more than one component: what the validation
    of the form guarantees to the calculator and the geocoding service, how
    the event goes from the administration page to the form, how a
    submitted trip reaches the administration page and its export, and that
    the store stays readable whatever the pages do. *)

From S2P Require Import Prelude JsString Geocoding Calculator Storage Auth.
From S2P Require Import Formulario Admin Pipeline.

Local Open Scope string_scope.
Local Open Scope Q_scope.

(** ** The store under all the pages *)

Section Loja.
Context `{JV : Json (list ViagemRegistro)} `{JE : Json EventoConfig}.
Implicit Types (ls : localStorage).

(** A write of some page or service to the store. *)
Inductive escrita : localStorage -> localStorage -> Prop :=
| es_salvarViagem v r agora ls ls' : salvarViagem v r agora ls = Some ls' -> escrita ls ls'
| es_excluirViagem index ls ls' : excluirViagem index ls = Some ls' -> escrita ls ls'
| es_limparTodos ls : escrita ls (removeItem "viagens_carbono" ls)
| es_salvarEvento e ls : escrita ls (salvarEvento e ls)
| es_removerEvento ls : escrita ls (removerEvento ls)
| es_login u p s : escrita (storage s) (storage (login u p s).2)
| es_logout s : escrita (storage s) (storage (logout s)).

Inductive loja_alcancavel : localStorage -> Prop :=
| la_vazia : loja_alcancavel ∅
| la_escrita ls ls' : loja_alcancavel ls -> escrita ls ls' -> loja_alcancavel ls'.

(** The store is readable, and the flag of the session is absent or
    [true]. *)
Definition loja_integra ls : Prop :=
  bem_formado ls /\
  (getItem STORAGE_KEY ls = None \/ getItem STORAGE_KEY ls = Some "true").

Lemma bem_formado_outras_chaves ls ls' :
  getItem "viagens_carbono" ls' = getItem "viagens_carbono" ls ->
  getItem "evento_config" ls' = getItem "evento_config" ls ->
  bem_formado ls -> bem_formado ls'.
Proof.
  intros H1 H2 [Hv He]. split.
  - by rewrite (obterViagens_outra_chave ls).
  - by rewrite (obterEvento_outra_chave ls).
Qed.

Lemma escrita_bem_formado ls ls' : escrita ls ls' -> bem_formado ls -> bem_formado ls'.
Proof.
  destruct 1 as [v r agora ls ls' H|index ls ls' H|ls|e ls|ls|u p s|s]; intros Hb.
  - by eapply bem_formado_salvarViagem.
  - by eapply bem_formado_excluirViagem.
  - destruct Hb as [_ He]. split.
    + unfold obterViagens. by rewrite getItem_removeItem.
    + by rewrite (obterEvento_outra_chave ls) by by apply getItem_removeItem_ne.
  - by apply bem_formado_evento.
  - by apply (bem_formado_evento ls eventoExemplo).
  - destruct (login_cases u p s) as [(_ & _ & ->)|[_ ->]]; [|done]. simpl.
    eapply bem_formado_outras_chaves; [..|done]; by apply getItem_setItem_ne.
  - simpl. eapply bem_formado_outras_chaves; [..|done]; by apply getItem_removeItem_ne.
Qed.

Lemma escrita_sessao ls ls' :
  escrita ls ls' ->
  getItem STORAGE_KEY ls = None \/ getItem STORAGE_KEY ls = Some "true" ->
  getItem STORAGE_KEY ls' = None \/ getItem STORAGE_KEY ls' = Some "true".
Proof.
  destruct 1 as [v r agora ls ls' H|index ls ls' H|ls|e ls|ls|u p s|s]; intros Hs.
  - unfold salvarViagem in H. destruct (obterViagens ls); simplify_eq/=.
    by rewrite getItem_setItem_ne.
  - unfold excluirViagem in H. destruct (obterViagens ls); simplify_eq/=.
    by rewrite getItem_setItem_ne.
  - by rewrite getItem_removeItem_ne.
  - unfold salvarEvento. by rewrite getItem_setItem_ne.
  - unfold removerEvento. by rewrite getItem_removeItem_ne.
  - destruct (login_cases u p s) as [(_ & _ & ->)|[_ ->]]; [|done]. simpl.
    right. apply getItem_setItem.
  - simpl. left. apply getItem_removeItem.
Qed.

(** Starting from the empty store, whatever the pages and the
    services write, in any order, the store stays readable: [obterViagens]
    and [obterEvento] never throw, and the flag of the session is absent or
    [true]. *)
Theorem loja_sempre_integra ls : loja_alcancavel ls -> loja_integra ls.
Proof.
  induction 1 as [|ls ls' _ [Hb Hs] He].
  - split; [by split|by left].
  - split; [by eapply escrita_bem_formado|by eapply escrita_sessao].
Qed.

End Loja.

(** ** From the form to the calculator *)

Section Pedido.
Context (Validators_email : string -> bool) (http : nat -> http_client).
Implicit Types (c : FormularioComponent) (v : ViagemData) (t : TrechoViagem).

Lemma trecho_completo_cidade t :
  trecho_completo t = true -> modoCidade (meioTransporte t) ->
  truthy_ostr (origemCidade t) = true /\ truthy_ostr (origemEstado t) = true.
Proof.
  unfold trecho_completo, modoCidade. intros H Hm.
  rewrite decide_True in H by done. by apply andb_true_iff in H.
Qed.

Lemma trecho_completo_rodoviario t :
  trecho_completo t = true -> modoRodoviario (meioTransporte t) ->
  truthy_ostr (cepOrigem t) = true.
Proof.
  unfold trecho_completo. intros H Hm.
  rewrite decide_False in H by (intros Hc; by apply (modoCidade_not_rodoviario _ Hc)).
  by rewrite decide_True in H.
Qed.

(** [C11] What the validation of the form guarantees: when [calcular]
    asks for the computation the form is valid, the trip has at least one
    leg, every leg has a means of transport, and with the geocoding service
    behind the calculator a plane or train leg without explicit distance
    resolves to between 300 and 5000 km, never to an unresolved 0, and a road
    leg has its postal code and resolves to between 0 and 100 km. *)
Theorem pedido_validado c c' v :
  calcular Validators_email c = (c', Some v) ->
  formulario_valid Validators_email (fc_formulario c) = true /\
  v_trechos v <> [] /\
  forall i t, v_trechos v !! i = Some t ->
    meioTransporte t <> "" /\
    (num_pos (distanciaKm t) = false ->
       (modoCidade (meioTransporte t) ->
          300 <= calcularDistanciaTrecho (G := geocodingService http) t v i <= 5000) /\
       (modoRodoviario (meioTransporte t) ->
          truthy_ostr (cepOrigem t) = true /\
          0 <= calcularDistanciaTrecho (G := geocodingService http) t v i <= 100)).
Proof.
  intros Hc. destruct (calcular_pedido _ _ _ _ Hc) as (e & _ & Hf & Hne & Hall & _).
  split; [done|]. split; [done|]. intros i t Hi.
  rewrite Forall_lookup in Hall. destruct (Hall i t Hi) as [Hm Hcomp].
  split; [by apply truthy_str_true|]. intros Hd.
  destruct (trecho_faixas http t v i Hd) as [Hr Hcid]. split.
  - intros Hmc. destruct (trecho_completo_cidade t Hcomp Hmc). by apply Hcid.
  - intros Hmr. split; [by apply trecho_completo_rodoviario|by apply Hr].
Qed.

End Pedido.

(** ** From the administration page to the form, and back *)

Section Paginas.
Context (Validators_email : string -> bool).
Context `{JV : Json (list ViagemRegistro)} `{JE : Json EventoConfig}.
Context (Number_toString : Q -> string) (toLocaleDateString : string -> string).
Implicit Types (a : AdminComponent) (c : FormularioComponent) (ls : localStorage).

(** [C39] The event the administrator saves is the event the form
    loads: after [salvarEvento] with a valid form, [ngOnInit] of the trip
    form finds the event, fills the destination with it and shows no
    message, so that [calcular] no longer refuses for lack of an event. *)
Theorem evento_chega_ao_formulario a ls :
  eventoForm_valid (ad_eventoForm a) = true ->
  let e := eventoDoFormulario (ad_eventoForm a) in
  exists c, ngOnInit (admin_salvarEvento a ls).2 componenteNovo = Some c /\
    fc_evento c = Some e /\
    f_destinoCidade (fc_formulario c) = ev_cidade e /\
    f_destinoEstado (fc_formulario c) = ev_estado e /\
    f_destinoPais (fc_formulario c) = ev_pais e /\
    fc_alertas c = [].
Proof.
  intros Hv. cbv zeta. unfold admin_salvarEvento. rewrite Hv. simpl.
  unfold ngOnInit, carregarEvento. rewrite (proj1 (evento_roundtrip ls _)). simpl.
  eexists. by split_and!.
Qed.

(** [C30] A submitted trip reaches the administration page with its
    result, and without its legs: after [enviar], [carregarViagens] lists
    the record last, the total emission has grown by the emission of the
    result, and the export describes the legs of the record as N/A. *)
Theorem viagem_enviada_no_admin agora c ls r vs a a0 :
  fc_resultado c = Some r ->
  formulario_valid Validators_email (fc_formulario c) = true ->
  obterViagens ls = Some vs -> carregarViagens ls a0 = Some a ->
  exists c' ls' a' reg,
    enviar Validators_email agora c ls = Some (c', ls') /\
    carregarViagens ls' a = Some a' /\
    ad_viagens a' = (vs ++ [reg])%list /\
    a_resultado reg = Some r /\
    ad_totalEmissao a' == ad_totalEmissao a + emissaoCO2 r /\
    (campoStr Number_toString <$> linhaViagem toLocaleDateString reg) !! 4%nat = Some "N/A".
Proof.
  intros Hr Hf Hvs Ha.
  destruct (enviar_registro Validators_email agora c ls r vs Hr Hf Hvs)
    as (c' & ls' & reg & He & _ & Hvs' & Ht & Hres & _).
  destruct (carregarViagens_Some ls' a _ Hvs') as (a' & Ha' & Hv' & Hc' & _).
  exists c', ls', a', reg. split_and!; try done.
  - rewrite Hc', Hv', fmap_app, sumQ_app. csimpl. rewrite sumQ_cons, sumQ_nil, Hres. simpl.
    destruct (carregarViagens_Some ls a0 _ Hvs) as (a1 & Ha1 & Hv1 & Hc1 & _).
    rewrite Ha in Ha1. injection Ha1 as <-. rewrite Hc1, Hv1.
    unfold num_or, truthy_num. destruct (Qeq_bool (emissaoCO2 r) 0) eqn:E; simpl; [|lra].
    apply Qeq_bool_iff in E. lra.
  - unfold linhaViagem. simpl. f_equal. apply trechosInfo_sem_trechos. by left.
Qed.

End Paginas.

(** ** Examples *)

Lemma loja_sempre_integra_witness :
  loja_integra (storage (login "admin" "admin123"
                           (novoAuthService (salvarEvento eventoExemplo ∅) "/")).2).
Proof.
  apply loja_sempre_integra.
  eapply la_escrita; [|apply (es_login "admin" "admin123")].
  eapply la_escrita; [apply la_vazia|apply es_salvarEvento].
Defined.

Lemma pedido_validado_witness :
  let c := componenteExemplo [trechoCarroExemplo; trechoAviaoExemplo] in
  let v := dadosViagem_formulario (patchDestino eventoExemplo formExemplo)
             [trechoCarroExemplo; preencherDestino eventoExemplo trechoAviaoExemplo] in
  formulario_valid emailSimples (fc_formulario c) = true /\
  v_trechos v <> [] /\
  forall i t, v_trechos v !! i = Some t ->
    meioTransporte t <> "" /\
    (num_pos (distanciaKm t) = false ->
       (modoCidade (meioTransporte t) ->
          300 <= calcularDistanciaTrecho (G := geocodingService (fun _ => httpFalha)) t v i
              <= 5000) /\
       (modoRodoviario (meioTransporte t) ->
          truthy_ostr (cepOrigem t) = true /\
          0 <= calcularDistanciaTrecho (G := geocodingService (fun _ => httpFalha)) t v i
            <= 100)).
Proof.
  apply (pedido_validado emailSimples (fun _ => httpFalha)
           (componenteExemplo [trechoCarroExemplo; trechoAviaoExemplo])
           (calcular emailSimples
              (componenteExemplo [trechoCarroExemplo; trechoAviaoExemplo])).1).
  reflexivity.
Defined.

Lemma evento_chega_ao_formulario_witness :
  let a := mkAdmin [] 0 0 0 eventoFormExemplo None [] in
  let e := eventoDoFormulario eventoFormExemplo in
  exists c, ngOnInit (admin_salvarEvento a ∅).2 componenteNovo = Some c /\
    fc_evento c = Some e /\
    f_destinoCidade (fc_formulario c) = ev_cidade e /\
    f_destinoEstado (fc_formulario c) = ev_estado e /\
    f_destinoPais (fc_formulario c) = ev_pais e /\
    fc_alertas c = [].
Proof. by apply (evento_chega_ao_formulario (mkAdmin [] 0 0 0 eventoFormExemplo None []) ∅). Defined.

Lemma viagem_enviada_no_admin_witness :
  let a := calcularTotais (mkAdmin [] 0 0 0 eventoFormInicial None []) in
  exists c' ls' a' reg,
    enviar emailSimples "2025-01-01T00:00:00.000Z"
      (calcular_next resultadoExemplo (componenteExemplo [trechoCarroExemplo])) ∅
      = Some (c', ls') /\
    carregarViagens ls' a = Some a' /\
    ad_viagens a' = ([] ++ [reg])%list /\
    a_resultado reg = Some resultadoExemplo /\
    ad_totalEmissao a' == ad_totalEmissao a + emissaoCO2 resultadoExemplo /\
    (campoStr imprimirInteiro <$> linhaViagem imprimirData reg) !! 4%nat = Some "N/A".
Proof.
  by apply (viagem_enviada_no_admin emailSimples imprimirInteiro imprimirData
              "2025-01-01T00:00:00.000Z" _ ∅ resultadoExemplo [] _ adminNovo).
Defined.
