(* ===== verification/Tipos.v ===== *)
(** * Tipos: the shape of the figures the calculator reports

    [processarCalculoMultiploTrechos] rounds every figure of the report
    before it returns it: the emission to hundredths of a kilogram, the
    credits to thousandths of a tonne, the distances, the trees and the
    car kilometres to whole numbers.  This file states that shape as a
    decidable predicate on [CalculoResultado] and shows that every report
    the service builds has it, whatever the trip and the geocoding service;
    the pages that store, list and export the report receive nothing else. *)

From S2P Require Import Prelude Calculator.

Local Open Scope Q_scope.

(** ** Grids *)

(** A whole number. *)
Definition inteiro (x : Q) : bool := Qeq_bool x (inject_Z (Qfloor x)).

(** A multiple of [1 / k]: with [k = 100], a number of at most two
    decimal places. *)
Definition na_grade (k : positive) (x : Q) : bool := inteiro (x * inject_Z (Zpos k)).

(** The result of one leg, as the report lists it. *)
Definition trecho_bem_tipado (r : ResultadoTrecho) : bool :=
  inteiro (distancia r) && na_grade 100 (emissao r).

(** The report. *)
Definition resultado_bem_tipado (r : CalculoResultado) : bool :=
  na_grade 100 (emissaoCO2 r) && na_grade 1000 (creditosCarbono r) &&
  inteiro (equivalenteArvores r) && inteiro (equivalenteKmCarro r) &&
  inteiro (distanciaTotal r) && forallb trecho_bem_tipado (trechos r).

(** ** Facts *)

Section Grades.
Implicit Types (x y : Q) (z : Z) (k : positive).

Lemma inteiro_inject_Z z : inteiro (inject_Z z) = true.
Proof. unfold inteiro. rewrite Qfloor_Z. apply Qeq_bool_refl. Qed.

Lemma inteiro_spec x : inteiro x = true <-> exists z, x == inject_Z z.
Proof.
  unfold inteiro. rewrite Qeq_bool_iff. split; [by eexists|].
  intros [z Hz]. by rewrite Hz, Qfloor_Z.
Qed.

#[export] Instance inteiro_proper : Proper (Qeq ==> eq) inteiro.
Proof.
  intros x y E. unfold inteiro. apply Qeqb_comp; [exact E|].
  by rewrite (Qfloor_comp x y E).
Qed.

#[export] Instance na_grade_proper k : Proper (Qeq ==> eq) (na_grade k).
Proof.
  intros x y E. unfold na_grade. apply inteiro_proper, Qmult_comp; [exact E|reflexivity].
Qed.

Lemma inteiro_Math_round x : inteiro (Math_round x) = true.
Proof. apply inteiro_inject_Z. Qed.

Lemma inteiro_Math_ceil x : inteiro (Math_ceil x) = true.
Proof. apply inteiro_inject_Z. Qed.

(** Rounding after scaling by [k] and dividing by [k] lands on the grid. *)
Lemma na_grade_div k z : na_grade k (inject_Z z / inject_Z (Zpos k)) = true.
Proof.
  unfold na_grade.
  assert (inject_Z z / inject_Z (Z.pos k) * inject_Z (Z.pos k) == inject_Z z) as ->.
  { field. discriminate. }
  apply inteiro_inject_Z.
Qed.

Lemma na_grade_round k x : na_grade k (Math_round x / inject_Z (Zpos k)) = true.
Proof. apply na_grade_div. Qed.

(** A whole number is on every grid. *)
Lemma inteiro_na_grade k x : inteiro x = true -> na_grade k x = true.
Proof.
  rewrite inteiro_spec. intros [z Hz]. unfold na_grade. rewrite Hz, <- inject_Z_mult.
  apply inteiro_inject_Z.
Qed.

(** What the predicate says of a number: between two neighbours of the
    grid there is nothing. *)
Lemma na_grade_spec k x :
  na_grade k x = true <-> exists z, x == inject_Z z / inject_Z (Zpos k).
Proof.
  unfold na_grade. rewrite inteiro_spec. split; intros [z Hz]; exists z.
  - rewrite <- Hz. field. discriminate.
  - rewrite Hz. field. discriminate.
Qed.

End Grades.

#[export] Hint Resolve inteiro_Math_round inteiro_Math_ceil na_grade_round : js.

(** ** The report is well typed *)

(** A leg whose figures were rounded as the report rounds them. *)
Lemma trecho_arredondado_bem_tipado t d e :
  trecho_bem_tipado
    {| trecho := t; distancia := Math_round d; emissao := Math_round (e * 100) / 100 |} = true.
Proof.
  unfold trecho_bem_tipado. simpl. by rewrite inteiro_Math_round, (na_grade_round 100).
Qed.

(** A report is well typed when its legs are and its own figures were
    rounded as the service rounds them. *)
Lemma resultado_arredondado_bem_tipado e c a k d ts :
  forallb trecho_bem_tipado ts = true ->
  resultado_bem_tipado
    {| emissaoCO2 := Math_round e / 100; creditosCarbono := Math_round c / 1000;
       equivalenteArvores := Math_ceil a; equivalenteKmCarro := Math_round k;
       distanciaTotal := Math_round d; trechos := ts |} = true.
Proof.
  intros Hts. unfold resultado_bem_tipado. simpl.
  by rewrite (na_grade_round 100), (na_grade_round 1000), inteiro_Math_ceil,
    !inteiro_Math_round, Hts.
Qed.

(** [C14] Typing: every figure of a report built by
    [processarCalculoMultiploTrechos] is on its grid, for all legs' results
    whatever, rounded or not: the emission and the emission of each leg have
    at most two decimal places, the credits at most three, and the total
    distance, the distance of each leg, the trees and the car kilometres are
    whole numbers. *)
Theorem processar_bem_tipado v rs :
  resultado_bem_tipado (processarCalculoMultiploTrechos v rs) = true.
Proof.
  apply resultado_arredondado_bem_tipado.
  induction rs as [|r rs IH]; [done|].
  cbn [fmap list_fmap forallb]. by rewrite trecho_arredondado_bem_tipado.
Qed.

(** The same of the report of a trip, with any geocoding service: its
    legs are those of the trip, each with its rounded figures. *)
Theorem calcularEmissao_bem_tipado `{G : Geocoder} v :
  resultado_bem_tipado (calcularEmissao v) = true.
Proof.
  rewrite calcularEmissao_unfold. apply resultado_arredondado_bem_tipado.
  apply forallb_forall. intros r [r0 [<- _]]%in_map_iff. apply trecho_arredondado_bem_tipado.
Qed.

(** On its grid a number is a fixed point of the rounding that puts
    numbers there. *)
Lemma inteiro_round_id (x : Q) : inteiro x = true -> Math_round x == x.
Proof.
  rewrite inteiro_spec. intros [z Hz].
  rewrite (Math_round_proper _ _ Hz), Math_round_Z. by symmetry.
Qed.

Lemma na_grade_round_id (k : positive) (x : Q) :
  na_grade k x = true -> Math_round (x * inject_Z (Zpos k)) / inject_Z (Zpos k) == x.
Proof.
  unfold na_grade. intros H. rewrite (inteiro_round_id _ H). field. discriminate.
Qed.

(** A report that is well typed reads the same after it is rounded
    again: on the grid of hundredths, rounding to hundredths changes
    nothing. *)
Theorem bem_tipado_estavel r :
  resultado_bem_tipado r = true ->
  Math_round (emissaoCO2 r * 100) / 100 == emissaoCO2 r /\
  Math_round (creditosCarbono r * 1000) / 1000 == creditosCarbono r /\
  Math_round (distanciaTotal r) == distanciaTotal r.
Proof.
  unfold resultado_bem_tipado. rewrite !andb_true_iff.
  intros [[[[[He Hc] _] _] Hd] _]. split_and!.
  - apply (na_grade_round_id 100 _ He).
  - apply (na_grade_round_id 1000 _ Hc).
  - by apply inteiro_round_id.
Qed.

Lemma bem_tipado_estavel_witness :
  let r := @calcularEmissao (geocoderConstante 80 500)
             (viagemExemplo [trechoExemplo "carro" (Some 15)] true) in
  Math_round (emissaoCO2 r * 100) / 100 == emissaoCO2 r /\
  Math_round (creditosCarbono r * 1000) / 1000 == creditosCarbono r /\
  Math_round (distanciaTotal r) == distanciaTotal r.
Proof. apply bem_tipado_estavel. by vm_compute. Defined.
