(* ===== verification/App.v ===== *)
(** * App: the shell, its menu and the routes

    [AppComponent] of [app.component.ts] is the header every page shares:
    it mirrors the session of [AuthService] in its field [isAuthenticated]
    and shows the links that fit it.  [app.routes.ts] is the table the
    router resolves a URL with.  The router itself is library code: its
    matching and its redirects are modelled from its contract, for tables
    of the kind the application has (paths of one segment, no parameters, no
    children).  The guard [authGuard] the table names is not among the
    sources: it is a parameter, and the theorems hold for every guard. *)

From S2P Require Import Prelude Storage Auth.

Local Open Scope string_scope.

(** ** The routes *)

(** The components a route mounts. *)
Inductive Pagina := PaginaFormulario | PaginaLogin | PaginaAdmin.

(** The guards a route names. *)
Inductive Guarda := authGuard.

(** A [Route] of the router, with the properties the table uses. *)
Record Route := mkRoute {
  path : string;
  component : option Pagina;
  canActivate : list Guarda;
  redirectTo : option string
}.

(** The constant [routes]. *)
Definition routes : list Route := [
  mkRoute "" (Some PaginaFormulario) [] None;
  mkRoute "login" (Some PaginaLogin) [] None;
  mkRoute "admin" (Some PaginaAdmin) [authGuard] None;
  mkRoute "**" None [] (Some "")
].

(** A URL without its leading slash: ["/admin"] names the route ["admin"]. *)
Definition segmento (url : string) : string :=
  match url with
  | String c r => if Ascii.eqb c (Ascii.ascii_of_nat 47) then r else url
  | EmptyString => url
  end.

(** A route matches a URL when its path is the wildcard or the URL. *)
Definition corresponde (url : string) (r : Route) : bool :=
  bool_decide (path r = "**") || bool_decide (path r = url).

(** The outcome of a navigation. *)
Inductive Navegacao :=
| Ativa (p : Pagina)
| Bloqueada (p : Pagina)
| SemRota
| SemCombustivel.

(** The router: the first route that matches decides; a redirect starts
    again with its target; a guard that refuses blocks the navigation. *)
Fixpoint resolver_em (rs : list Route) (fuel : nat) (guarda : Guarda -> bool) (url : string)
    : Navegacao :=
  match fuel with
  | O => SemCombustivel
  | S fuel =>
      match List.find (corresponde url) rs with
      | None => SemRota
      | Some r =>
          match redirectTo r with
          | Some destino => resolver_em rs fuel guarda destino
          | None =>
              match component r with
              | Some p => if forallb guarda (canActivate r) then Ativa p else Bloqueada p
              | None => SemRota
              end
          end
      end
  end.

Definition resolver : nat -> (Guarda -> bool) -> string -> Navegacao := resolver_em routes.

(** A table whose redirects lead to routes that do not redirect. *)
Definition redireciona_uma_vez (rs : list Route) : bool :=
  forallb (fun r =>
    match redirectTo r with
    | None => true
    | Some destino =>
        match List.find (corresponde destino) rs with
        | Some r' => bool_decide (redirectTo r' = None)
        | None => true
        end
    end) rs.

(** ** [AppComponent] *)

Record AppComponent := mkApp {
  title : string;
  app_isAuthenticated : bool
}.

(** The field initialisers. *)
Definition appNovo : AppComponent := mkApp "Credit Carb" false.

(** The callback given to [isAuthenticated$.subscribe]. *)
Definition app_next (isAuth : bool) (a : AppComponent) : AppComponent :=
  mkApp (title a) isAuth.

(** [ngOnInit]: a [BehaviorSubject] delivers its current value to a new
    subscriber at once. *)
Definition app_ngOnInit (s : AuthService) (a : AppComponent) : AppComponent :=
  app_next (isAuthenticatedSubject s) a.

(** [logout]: the service calls [next(false)], which the subscription
    delivers. *)
Definition app_logout (s : AuthService) (a : AppComponent) : AuthService * AppComponent :=
  (logout s, app_next false a).

(** A link of the header. *)
Record Link := mkLink {
  rotulo : string;
  routerLink : option string;
  click : bool
}.

(** The [nav] of the template: which links [*ngIf] leaves. *)
Definition menu (a : AppComponent) : list Link :=
  [mkLink "Formulário" (Some "/") false] ++
  (if negb (app_isAuthenticated a) then [mkLink "Administrador" (Some "/login") false] else []) ++
  (if app_isAuthenticated a then [mkLink "Administrador" (Some "/admin") false] else []) ++
  (if app_isAuthenticated a then [mkLink "Sair" None true] else []).

(** ** The shell and the service together *)

(** What the subscription delivers to the shell when the service takes a
    step: the service calls [next] in a successful [login] and in [logout],
    and nowhere else. *)
Definition app_entrega (s : AuthService) (e : auth_evento) (a : AppComponent) : AppComponent :=
  match e with
  | EvLogin u p => if (login u p s).1 then app_next true a else a
  | EvLogout => app_next false a
  | EvSetItem _ _ | EvRemoveItem _ => a
  end.

Inductive app_alcancavel (ls : localStorage) (u : string) : AuthService * AppComponent -> Prop :=
| app_alc_init :
    app_alcancavel ls u (novoAuthService ls u, app_ngOnInit (novoAuthService ls u) appNovo)
| app_alc_passo s a e s' :
    app_alcancavel ls u (s, a) -> auth_passo s e s' ->
    app_alcancavel ls u (s', app_entrega s e a).

(** The shell shows the session the store holds. *)
Definition app_coerente (sa : AuthService * AppComponent) : Prop :=
  app_isAuthenticated sa.2 = isAuthenticated sa.1 /\ auth_coerente sa.1.

(** ** Facts about the routes *)

Section Rotas.
Implicit Types (rs : list Route) (r : Route) (url : string) (g : Guarda -> bool) (n : nat).

(** The route of the table that decides a URL. *)
Lemma find_routes url :
  List.find (corresponde url) routes =
    Some (if decide (url = "") then mkRoute "" (Some PaginaFormulario) [] None
          else if decide (url = "login") then mkRoute "login" (Some PaginaLogin) [] None
          else if decide (url = "admin") then mkRoute "admin" (Some PaginaAdmin) [authGuard] None
          else mkRoute "**" None [] (Some "")).
Proof.
  unfold routes, corresponde. simpl.
  repeat case_decide; subst; simpl; try done;
    repeat (case_bool_decide; simplify_eq/=; try done).
Qed.

Lemma resolver_em_S rs n g url :
  resolver_em rs (S n) g url =
    match List.find (corresponde url) rs with
    | None => SemRota
    | Some r =>
        match redirectTo r with
        | Some destino => resolver_em rs n g destino
        | None =>
            match component r with
            | Some p => if forallb g (canActivate r) then Ativa p else Bloqueada p
            | None => SemRota
            end
        end
    end.
Proof. done. Qed.

(** One step of the router on the table of the application. *)
Lemma resolver_S n g url :
  resolver (S n) g url =
    if decide (url = "") then Ativa PaginaFormulario
    else if decide (url = "login") then Ativa PaginaLogin
    else if decide (url = "admin")
         then if g authGuard then Ativa PaginaAdmin else Bloqueada PaginaAdmin
    else resolver n g "".
Proof.
  unfold resolver. rewrite resolver_em_S, find_routes.
  repeat case_decide; simpl; try done. by rewrite andb_true_r.
Qed.

Lemma find_corresponde rs url r :
  List.find (corresponde url) rs = Some r -> r ∈ rs.
Proof. intros H. apply list_elem_of_In. by apply List.find_some in H as [? _]. Qed.

(** With a table that redirects once, two rounds decide every URL. *)
Lemma resolver_em_duas rs n g url :
  redireciona_uma_vez rs = true ->
  resolver_em rs (2 + n) g url = resolver_em rs 2 g url /\
  resolver_em rs 2 g url <> SemCombustivel.
Proof.
  intros Hrs. change (2 + n)%nat with (S (S n)). rewrite !(resolver_em_S rs (S _)).
  destruct (List.find (corresponde url) rs) as [r|] eqn:Hr; [|done].
  destruct (redirectTo r) as [destino|] eqn:Hd; [|by repeat case_match].
  apply find_corresponde in Hr.
  unfold redireciona_uma_vez in Hrs. rewrite forallb_forall in Hrs.
  specialize (Hrs r (proj1 (list_elem_of_In _ _) Hr)). rewrite Hd in Hrs.
  rewrite !resolver_em_S.
  destruct (List.find (corresponde destino) rs) as [r'|]; [|done].
  apply bool_decide_eq_true in Hrs. rewrite Hrs. by repeat case_match.
Qed.

End Rotas.

(** ** Facts about the shell *)

Lemma app_passo_coerente s a e s' :
  auth_passo s e s' -> app_coerente (s, a) -> app_coerente (s', app_entrega s e a).
Proof.
  intros Hp [Ha Hs]. pose proof (auth_passo_coerente _ _ _ Hp Hs) as Hs'.
  split; [|done]. unfold auth_coerente in *. simpl in *.
  rewrite <- Hs'. destruct Hp as [u p s | s | k v s Hk | k s Hk]; simpl; try done.
  - destruct (login_cases u p s) as [(_ & _ & ->)|[_ ->]]; simpl; [done|]. by rewrite Ha.
  - by rewrite Ha.
  - by rewrite Ha.
Qed.

(** ** Theorems *)

(** In every state the service and the shell reach together, from
    whatever the store held when the page was loaded, the flag of the shell is
    the session of the store. *)
Theorem app_invariante ls u sa : app_alcancavel ls u sa -> app_coerente sa.
Proof.
  induction 1 as [|s a e s' _ IH Hp]; [done|]. by apply app_passo_coerente.
Qed.

(** [C21] The menu follows the session: in every reachable state the header
    links to the administration exactly when the store holds a session, to
    the login page exactly when it does not, and offers to leave exactly
    when there is a session to leave. *)
Theorem menu_segue_sessao ls u s a :
  app_alcancavel ls u (s, a) ->
  (mkLink "Administrador" (Some "/admin") false ∈ menu a <-> isAuthenticated s = true) /\
  (mkLink "Administrador" (Some "/login") false ∈ menu a <-> isAuthenticated s = false) /\
  (mkLink "Sair" None true ∈ menu a <-> isAuthenticated s = true) /\
  mkLink "Formulário" (Some "/") false ∈ menu a.
Proof.
  intros [Ha _]%app_invariante. simpl in Ha. rewrite <- Ha. unfold menu.
  destruct (app_isAuthenticated a); simpl; set_solver.
Qed.

(** [C22] Only the guard opens the administration: whatever the URL and
    the number of redirects, the router mounts [AdminComponent] only for the
    URL of its route and only when [authGuard] accepts; when the guard
    refuses, nothing is mounted for that URL. *)
Theorem admin_so_com_guarda n g url :
  (resolver n g url = Ativa PaginaAdmin -> url = "admin" /\ g authGuard = true) /\
  (g authGuard = false -> resolver (S n) g "admin" = Bloqueada PaginaAdmin).
Proof.
  split.
  - destruct n as [|[|n]]; [done|..]; rewrite !resolver_S;
      repeat case_decide; try done; by destruct (g authGuard).
  - intros Hg. by rewrite resolver_S, Hg.
Qed.

(** The form and the login page are public, and every URL that is
    no route of the table ends at the form. *)
Theorem rotas_publicas g url :
  resolver 2 g "" = Ativa PaginaFormulario /\
  resolver 2 g "login" = Ativa PaginaLogin /\
  (url <> "" -> url <> "login" -> url <> "admin" -> resolver 2 g url = Ativa PaginaFormulario).
Proof.
  split_and!; [done..|]. intros H1 H2 H3. rewrite !resolver_S.
  by rewrite !decide_False, decide_True by done.
Qed.

(** [C32] Termination of the router: the table of the application
    redirects once, and on every such table two rounds decide every URL;
    more fuel changes nothing and the fuel never runs out. *)
Theorem resolver_termina n g url :
  redireciona_uma_vez routes = true /\
  resolver (2 + n) g url = resolver 2 g url /\
  resolver 2 g url <> SemCombustivel /\ resolver 2 g url <> SemRota.
Proof.
  assert (redireciona_uma_vez routes = true) as Hrs by done.
  destruct (resolver_em_duas routes n g url Hrs) as [H1 H2].
  split_and!; [done..|].
  rewrite !resolver_S. repeat case_decide; try done. by destruct (g authGuard).
Qed.

Section Navegacao.
Context (g : AuthService -> Guarda -> bool).

(** The URLs the code navigates to have routes of their own: after
    [logout] the router mounts the login page, whatever the guard; after a
    successful [onSubmit] of the login form it mounts the administration
    when the guard accepts a stored session and blocks it otherwise. *)
Theorem navegacao_resolve c s :
  resolver 2 (g (logout s)) (segmento (url (logout s))) = Ativa PaginaLogin /\
  (loginForm_valid c = true -> username c = "admin" -> password c = "admin123" ->
   let s' := (onSubmit c s).2 in
   isAuthenticated s' = true /\
   resolver 2 (g s') (segmento (url s')) =
     if g s' authGuard then Ativa PaginaAdmin else Bloqueada PaginaAdmin).
Proof.
  split; [simpl; by rewrite resolver_S|].
  intros Hv Hu Hp. unfold onSubmit. rewrite Hv, Hu, Hp. cbv zeta.
  destruct (login_cases "admin" "admin123" s) as [(_ & _ & ->)|[[?|?] _]]; [|done..].
  split; [|simpl; by rewrite resolver_S].
  unfold isAuthenticated. simpl. by rewrite checkAuthStatus_setItem.
Qed.

End Navegacao.

Lemma app_invariante_witness :
  app_coerente (logout (login "admin" "admin123" (novoAuthService ∅ "/")).2,
                app_next false (app_next true (app_ngOnInit (novoAuthService ∅ "/") appNovo))).
Proof.
  apply (app_invariante ∅ "/").
  eapply (app_alc_passo _ _ _ _ EvLogout); [|apply passo_logout].
  eapply (app_alc_passo _ _ _ _ (EvLogin "admin" "admin123")); [apply app_alc_init|apply passo_login].
Defined.

Lemma menu_segue_sessao_witness :
  let s := novoAuthService ∅ "/" in
  let a := app_ngOnInit s appNovo in
  (mkLink "Administrador" (Some "/admin") false ∈ menu a <-> isAuthenticated s = true) /\
  (mkLink "Administrador" (Some "/login") false ∈ menu a <-> isAuthenticated s = false) /\
  (mkLink "Sair" None true ∈ menu a <-> isAuthenticated s = true) /\
  mkLink "Formulário" (Some "/") false ∈ menu a.
Proof. apply (menu_segue_sessao ∅ "/"). apply app_alc_init. Defined.

Lemma navegacao_resolve_witness :
  let g (s : AuthService) (_ : Guarda) := isAuthenticated s in
  let s := novoAuthService ∅ "/" in
  resolver 2 (g (logout s)) (segmento (url (logout s))) = Ativa PaginaLogin.
Proof.
  apply (navegacao_resolve (fun s _ => isAuthenticated s)
           (mkLogin "admin" "admin123" "" false) (novoAuthService ∅ "/")).
Defined.
