(* ===== verification/Opcoes.v ===== *)
(** * Opcoes: what the form offers and what it validates

    The static tables of [FormularioComponent]: the options of its select
    boxes ([meiosTransporte], [tiposCombustivel], [classesVoo],
    [estadosBrasil]) and the validators [inicializarFormulario] gives the
    controls, with the one method that would change them,
    [atualizarValidadoresTransporte].  The theorems tie the tables to the
    services behind the form: every option has an emission factor of its
    own, a label, and, for a state, a code the city search understands; the
    validity of a control is the conjunction of its validators; and the
    validators never change. *)

From S2P Require Import Prelude JsString Geocoding Calculator Storage Formulario Admin.

Local Open Scope string_scope.

(** ** The options *)

Record Opcao := mkOpcao {
  value : string;
  label : string
}.

Definition meiosTransporte : list Opcao := [
  mkOpcao "aviao" "Avião";
  mkOpcao "carro" "Carro";
  mkOpcao "onibus" "Ônibus";
  mkOpcao "trem" "Trem";
  mkOpcao "metro" "Metrô";
  mkOpcao "motocicleta" "Motocicleta";
  mkOpcao "navio" "Navio/Barco"
].

Definition tiposCombustivel : list Opcao := [
  mkOpcao "gasolina" "Gasolina";
  mkOpcao "etanol" "Etanol";
  mkOpcao "diesel" "Diesel";
  mkOpcao "eletrico" "Elétrico";
  mkOpcao "hibrido" "Híbrido"
].

Definition classesVoo : list Opcao := [
  mkOpcao "economica" "Econômica";
  mkOpcao "executiva" "Executiva";
  mkOpcao "primeira" "Primeira Classe"
].

Definition estadosBrasil : list string := [
  "AC"; "AL"; "AP"; "AM"; "BA"; "CE"; "DF"; "ES"; "GO"; "MA";
  "MT"; "MS"; "MG"; "PA"; "PB"; "PR"; "PE"; "PI"; "RJ"; "RN";
  "RS"; "RO"; "RR"; "SC"; "SP"; "SE"; "TO"
].

(** The list of the same name of [AdminComponent]. *)
Definition admin_estadosBrasil : list string := [
  "AC"; "AL"; "AP"; "AM"; "BA"; "CE"; "DF"; "ES"; "GO"; "MA";
  "MT"; "MS"; "MG"; "PA"; "PB"; "PR"; "PE"; "PI"; "RJ"; "RN";
  "RS"; "RO"; "RR"; "SC"; "SP"; "SE"; "TO"
].

(** [configurarAutocomplete]: its body is a comment. *)
Definition configurarAutocomplete (c : FormularioComponent) : FormularioComponent := c.

(** ** The validators *)

(** The validators the form uses. *)
Inductive Validador :=
| V_required
| V_minLength (n : nat)
| V_email
| V_min (n : Q).

(** The value of a control. *)
Inductive Valor :=
| VTexto (s : string)
| VNumero (o : option Q)
| VBooleano (b : bool).

(** The group [inicializarFormulario] builds: the validators of each
    control, in the order of the source. *)
Definition validadoresIniciais : list (string * list Validador) := [
  ("nome", [V_required; V_minLength 3]);
  ("email", [V_required; V_email]);
  ("cpf", [V_required]);
  ("telefone", [V_required]);
  ("destinoCidade", []);
  ("destinoEstado", []);
  ("destinoPais", []);
  ("diasNoEvento", [V_required; V_min 1]);
  ("idaEVolta", []);
  ("observacoes", [])
].

(** The validators of the controls of a form group. *)
Definition Validadores := gmap string (list Validador).

(** [control?.clearValidators()] and [control?.setValidators(vs)], where
    [control] is [formulario.get(campo)]: nothing happens when the group has
    no such control. *)
Definition setValidators (campo : string) (vs : list Validador) (g : Validadores)
    : Validadores :=
  match g !! campo with
  | Some _ => <[campo := vs]> g
  | None => g
  end.

Definition clearValidators (campo : string) (g : Validadores) : Validadores :=
  setValidators campo [] g.

(** [atualizarValidadoresTransporte].  [updateValueAndValidity] computes
    the validity again, which the model does at every reading. *)
Definition atualizarValidadoresTransporte (meioTransporte : string) (g : Validadores)
    : Validadores :=
  let g := clearValidators "distanciaKm" g in
  let g := clearValidators "tipoCombustivel" g in
  let g := clearValidators "numeroPassageiros" g in
  let g := clearValidators "classeVoo" g in
  let g :=
    if bool_decide (meioTransporte = "carro")
    then setValidators "numeroPassageiros" [V_required; V_min 1]
           (setValidators "tipoCombustivel" [V_required] g)
    else g in
  let g :=
    if bool_decide (meioTransporte = "aviao")
    then setValidators "classeVoo" [V_required] g
    else g in
  setValidators "distanciaKm" [V_min 0] g.

Section Validacao.
Context (Validators_email : string -> bool).

(** One validator on one value. *)
Definition valida (x : Valor) (v : Validador) : bool :=
  match v, x with
  | V_required, VTexto s => required s
  | V_required, VNumero o => required_num o
  | V_required, VBooleano _ => true
  | V_minLength n, VTexto s => minLength n s
  | V_minLength _, _ => true
  | V_email, VTexto s => negb (truthy_str s) || Validators_email s
  | V_email, _ => true
  | V_min n, VNumero o => min_validator n o
  | V_min _, _ => true
  end.

(** [formulario.get(campo)?.value]. *)
Definition valor_do_controle (campo : string) (f : FormValue) : option Valor :=
  if String.eqb campo "nome" then Some (VTexto (f_nome f))
  else if String.eqb campo "email" then Some (VTexto (f_email f))
  else if String.eqb campo "cpf" then Some (VTexto (f_cpf f))
  else if String.eqb campo "telefone" then Some (VTexto (f_telefone f))
  else if String.eqb campo "destinoCidade" then Some (VTexto (f_destinoCidade f))
  else if String.eqb campo "destinoEstado" then Some (VTexto (f_destinoEstado f))
  else if String.eqb campo "destinoPais" then Some (VTexto (f_destinoPais f))
  else if String.eqb campo "diasNoEvento" then Some (VNumero (f_diasNoEvento f))
  else if String.eqb campo "idaEVolta" then Some (VBooleano (f_idaEVolta f))
  else if String.eqb campo "observacoes" then Some (VTexto (f_observacoes f))
  else None.

(** The validity of a control under the validators [g]: the reference
    definition [controle_valido] is compared with. *)
Definition valido_com (g : Validadores) (campo : string) (f : FormValue) : option bool :=
  vs ← g !! campo;
  x ← valor_do_controle campo f;
  Some (forallb (valida x) vs).

End Validacao.

(** ** Proof-side definitions *)

(** The key of [fatoresEmissao] that belongs to a leg. *)
Definition chaveFator (t : TrechoViagem) : string :=
  if bool_decide (meioTransporte t = "aviao") then "aviao-" ++ default "" (classeVoo t)
  else if bool_decide (meioTransporte t = "carro") then "carro-" ++ default "" (tipoCombustivel t)
  else meioTransporte t.

(** The leg that carries three options and nothing else. *)
Definition trechoDasOpcoes (m c k : Opcao) : TrechoViagem :=
  mkTrecho (value m) None None None None None None (Some (value c)) None (Some (value k)) None.

(** The table has the factor of the leg under its key. *)
Definition fator_na_tabela (t : TrechoViagem) : bool :=
  match fatoresEmissao !! chaveFator t with
  | Some x => Qeq_bool x (obterFatorEmissaoTrecho t)
  | None => false
  end.

(** ** Facts *)

Lemma forallb_elem_of {A} (f : A -> bool) (l : list A) x :
  forallb f l = true -> x ∈ l -> f x = true.
Proof. rewrite forallb_forall. intros H Hx. by apply H, list_elem_of_In. Qed.

(** The factor and its key read three fields of a leg. *)
Lemma fator_na_tabela_campos t t' :
  meioTransporte t = meioTransporte t' -> tipoCombustivel t = tipoCombustivel t' ->
  classeVoo t = classeVoo t' -> fator_na_tabela t = fator_na_tabela t'.
Proof.
  intros Hm Hc Hk. unfold fator_na_tabela, chaveFator, obterFatorEmissaoTrecho.
  by rewrite Hm, Hc, Hk.
Qed.

Lemma opcoes_verificadas :
  forallb (fun m => forallb (fun c => forallb (fun k =>
    fator_na_tabela (trechoDasOpcoes m c k)) classesVoo) tiposCombustivel) meiosTransporte
  = true.
Proof. by vm_compute. Qed.

Lemma labels_verificados :
  forallb (fun o => String.eqb (formatarMeioTransporte (value o)) (label o) &&
                    String.eqb (admin_formatarMeioTransporte (value o)) (label o))
    meiosTransporte = true.
Proof. by vm_compute. Qed.

Lemma estados_verificados :
  forallb (fun uf => bool_decide (is_Some (obterCodigoEstado uf))) estadosBrasil = true.
Proof. by vm_compute. Qed.

(** The group of the form has none of the controls
    [atualizarValidadoresTransporte] asks for. *)
Lemma setValidators_ausente campo vs (g : Validadores) :
  g !! campo = None -> setValidators campo vs g = g.
Proof. intros H. unfold setValidators. by rewrite H. Qed.

(** ** Theorems *)

(** [C28] Every combination of options the form offers has an emission
    factor of its own in the table of the calculator: for a leg that carries
    a means of transport, a fuel and a class from the lists, the factor
    [obterFatorEmissaoTrecho] returns is the entry of the table under the
    key of the leg, never one of the defaults. *)
Theorem opcoes_tem_fator m c k t :
  m ∈ meiosTransporte -> c ∈ tiposCombustivel -> k ∈ classesVoo ->
  meioTransporte t = value m -> tipoCombustivel t = Some (value c) ->
  classeVoo t = Some (value k) ->
  exists x, fatoresEmissao !! chaveFator t = Some x /\ (x == obterFatorEmissaoTrecho t)%Q.
Proof.
  intros Hm Hc Hk Htm Htc Htk.
  pose proof (forallb_elem_of _ _ _ (forallb_elem_of _ _ _
    (forallb_elem_of _ _ _ opcoes_verificadas Hm) Hc) Hk) as H.
  cbv beta in H. rewrite <- (fator_na_tabela_campos t (trechoDasOpcoes m c k)) in H by done.
  unfold fator_na_tabela in H. destruct (fatoresEmissao !! chaveFator t) as [x|]; [|done].
  exists x. split; [done|]. by apply Qeq_bool_iff.
Qed.

(** The labels agree: the form and the administration page print a
    means of transport of the list with the label the select box shows. *)
Theorem opcoes_tem_label o :
  o ∈ meiosTransporte ->
  formatarMeioTransporte (value o) = label o /\
  admin_formatarMeioTransporte (value o) = label o.
Proof.
  intros Ho. pose proof (forallb_elem_of _ _ _ labels_verificados Ho) as H.
  apply andb_true_iff in H as [H1 H2]. by rewrite !String.eqb_eq in *.
Qed.

(** The states offered are the states the city search knows: the
    list has the 27 federative units, none twice, the two pages offer the
    same list, and a state is in the list exactly when [obterCodigoEstado]
    has a code for it. *)
Theorem estadosBrasil_codigo uf :
  (uf ∈ estadosBrasil <-> is_Some (obterCodigoEstado uf)) /\
  NoDup estadosBrasil /\ length estadosBrasil = 27%nat /\
  admin_estadosBrasil = estadosBrasil.
Proof.
  split_and!; [split| |done..].
  - intros H. pose proof (forallb_elem_of _ _ _ estados_verificados H) as Hb.
    cbv beta in Hb. by apply bool_decide_eq_true in Hb.
  - unfold obterCodigoEstado. intros [c Hc].
    destruct (estados !! uf) as [c'|] eqn:E; [|done].
    apply elem_of_list_to_map_2 in E.
    by apply (list_elem_of_fmap_2 fst) in E.
  - apply (bool_decide_unpack _). by vm_compute.
Qed.

(** Of the seven means of transport offered, the resolver of
    distances estimates five; a leg by metro or by ship counts as 0 km, and
    so as no emission, unless its distance is typed in. *)
Theorem opcoes_sem_estimativa `{G : Geocoder} o t v i :
  o ∈ meiosTransporte -> meioTransporte t = value o -> num_pos (distanciaKm t) = false ->
  (modoRodoviario (value o) \/ modoCidade (value o)) \/
  ((value o = "metro" \/ value o = "navio") /\
   calcularDistanciaTrecho t v i = 0%Q /\ (calcularEmissaoTrecho t 0 == 0)%Q).
Proof.
  intros Ho Ht Hd. unfold meiosTransporte in Ho. set_unfold in Ho.
  unfold modoRodoviario, modoCidade, calcularDistanciaTrecho. rewrite Hd, Ht.
  destruct_or!; subst o; simpl; auto 7; right; (split; [auto|]); (split; [done|]);
    unfold calcularEmissaoTrecho; case_match; q_lra.
Qed.

Section ValidacaoFacts.
Context (Validators_email : string -> bool).

(** Equivalence with the reference: the validity the model gives a
    control is the conjunction of the validators [inicializarFormulario]
    attaches to it, and the controls of the model are those of the group. *)
Theorem controle_valido_referencia campo f :
  controle_valido Validators_email campo f =
    valido_com Validators_email (list_to_map validadoresIniciais) campo f /\
  controles = validadoresIniciais.*1.
Proof.
  split; [|done]. unfold controle_valido, valido_com, valor_do_controle.
  repeat match goal with
  | |- context [String.eqb campo ?k] =>
      destruct (String.eqb_spec campo k) as [->|?];
        [set (vs := _ !! _); vm_compute in vs; subst vs;
         cbn [mbind option_bind forallb valida String.eqb Ascii.eqb Bool.eqb];
         by rewrite ?andb_true_r|]
  end.
  destruct (_ !! campo) as [vs|] eqn:E; [|done].
  apply elem_of_list_to_map_2 in E. unfold validadoresIniciais in E. set_solver.
Qed.

(** [C31] [atualizarValidadoresTransporte] changes nothing: the group has
    no control of the names it asks for, so the validators stay those of
    [inicializarFormulario] and the fields of a leg are validated by
    [calcular] alone. *)
Theorem atualizarValidadoresTransporte_nada meioTransporte :
  atualizarValidadoresTransporte meioTransporte (list_to_map validadoresIniciais) =
    list_to_map validadoresIniciais.
Proof.
  unfold atualizarValidadoresTransporte, clearValidators. cbv zeta.
  repeat case_bool_decide; by rewrite !setValidators_ausente.
Qed.

End ValidacaoFacts.

Lemma opcoes_tem_fator_witness :
  let t := trechoDasOpcoes (mkOpcao "carro" "Carro") (mkOpcao "etanol" "Etanol")
             (mkOpcao "economica" "Econômica") in
  exists x, fatoresEmissao !! chaveFator t = Some x /\ (x == obterFatorEmissaoTrecho t)%Q.
Proof.
  apply (opcoes_tem_fator (mkOpcao "carro" "Carro") (mkOpcao "etanol" "Etanol")
           (mkOpcao "economica" "Econômica")); try done;
    unfold meiosTransporte, tiposCombustivel, classesVoo; set_solver.
Defined.

Lemma opcoes_tem_label_witness :
  formatarMeioTransporte "navio" = "Navio/Barco" /\
  admin_formatarMeioTransporte "navio" = "Navio/Barco".
Proof.
  apply (opcoes_tem_label (mkOpcao "navio" "Navio/Barco")).
  unfold meiosTransporte. set_solver.
Defined.

Lemma opcoes_sem_estimativa_witness :
  let t := trechoExemplo "metro" None in
  (modoRodoviario "metro" \/ modoCidade "metro") \/
  (("metro" = "metro" \/ "metro" = "navio") /\
   @calcularDistanciaTrecho (geocoderConstante 80 500) t (viagemExemplo [] false) 0 = 0%Q /\
   (calcularEmissaoTrecho t 0 == 0)%Q).
Proof.
  apply (@opcoes_sem_estimativa (geocoderConstante 80 500) (mkOpcao "metro" "Metrô"));
    [unfold meiosTransporte; set_solver|done|done].
Defined.
