(* ===== verification/Refinamento.v ===== *)
(** * Refinamento: the store as an implementation of its model

    What the application keeps is a list of trips, at most one event and
    a session flag.  The code keeps them as three texts in [localStorage],
    which it prints and parses at every access.  This file gives the
    abstract model, the abstraction function that reads a model off a store,
    and the refinement: on every store that can be read, each operation of
    the services returns (it does not throw) and does to the store what the
    abstract operation does to the model. *)

From S2P Require Import Prelude Calculator Storage Auth.

Local Open Scope string_scope.

(** ** The abstract model *)

Record Modelo := mkModelo {
  m_viagens : list ViagemRegistro;
  m_evento : option EventoConfig;
  m_sessao : bool
}.

Definition modeloInicial : Modelo := mkModelo [] None false.

(** The operations of the services on the store. *)
Inductive operacao :=
| OpSalvarViagem (viagem : ViagemRegistro) (resultado : CalculoResultado) (agora : string)
| OpExcluirViagem (index : Z)
| OpLimparTodos
| OpSalvarEvento (evento : EventoConfig)
| OpRemoverEvento
| OpLogin (username password : string)
| OpLogout.

(** What each operation means. *)
Definition executar (m : Modelo) (op : operacao) : Modelo :=
  match op with
  | OpSalvarViagem v r agora =>
      mkModelo (m_viagens m ++ [dadosViagem v r agora]) (m_evento m) (m_sessao m)
  | OpExcluirViagem index => mkModelo (splice1 index (m_viagens m)) (m_evento m) (m_sessao m)
  | OpLimparTodos => mkModelo [] (m_evento m) (m_sessao m)
  | OpSalvarEvento e => mkModelo (m_viagens m) (Some e) (m_sessao m)
  | OpRemoverEvento => mkModelo (m_viagens m) None (m_sessao m)
  | OpLogin u p =>
      mkModelo (m_viagens m) (m_evento m)
        (if bool_decide (u = "admin" /\ p = "admin123") then true else m_sessao m)
  | OpLogout => mkModelo (m_viagens m) (m_evento m) false
  end.

Section Refinamento.
Context `{JV : Json (list ViagemRegistro)} `{JE : Json EventoConfig}.
Implicit Types (ls : localStorage) (m : Modelo) (op : operacao).

(** ** The implementation *)

(** The same operations as the code performs them: [None] when the method
    throws. *)
Definition aplicar ls op : option localStorage :=
  match op with
  | OpSalvarViagem v r agora => salvarViagem v r agora ls
  | OpExcluirViagem index => excluirViagem index ls
  | OpLimparTodos => Some (removeItem "viagens_carbono" ls)
  | OpSalvarEvento e => Some (salvarEvento e ls)
  | OpRemoverEvento => Some (removerEvento ls)
  | OpLogin u p => Some (storage (login u p (novoAuthService ls "")).2)
  | OpLogout => Some (storage (logout (novoAuthService ls "")))
  end.

(** A sequence of operations, stopping at the first that throws. *)
Definition aplicar_todas ls (ops : list operacao) : option localStorage :=
  foldl (fun o op => ls ← o; aplicar ls op) (Some ls) ops.

(** The abstraction function: the model a store stands for, when its
    texts can be read. *)
Definition abstrair ls : option Modelo :=
  viagens ← obterViagens ls;
  evento ← obterEvento ls;
  Some (mkModelo viagens evento (checkAuthStatus ls)).

(** ** Facts *)

Lemma abstrair_Some ls m :
  abstrair ls = Some m <->
  obterViagens ls = Some (m_viagens m) /\ obterEvento ls = Some (m_evento m) /\
  checkAuthStatus ls = m_sessao m.
Proof.
  unfold abstrair. destruct m as [vs e b]. simpl.
  destruct (obterViagens ls), (obterEvento ls); simpl; naive_solver.
Qed.

(** A write under one key is seen by the reader of that key and by no
    other. *)
Lemma abstrair_viagens ls ls' m vs :
  abstrair ls = Some m -> obterViagens ls' = Some vs ->
  getItem "evento_config" ls' = getItem "evento_config" ls ->
  getItem STORAGE_KEY ls' = getItem STORAGE_KEY ls ->
  abstrair ls' = Some (mkModelo vs (m_evento m) (m_sessao m)).
Proof.
  rewrite !abstrair_Some. intros (_ & He & Hs) Hv H1 H2. simpl. split_and!; [done|..].
  - by rewrite (obterEvento_outra_chave ls).
  - by rewrite (checkAuthStatus_outra_chave ls).
Qed.

Lemma abstrair_evento ls ls' m e :
  abstrair ls = Some m -> obterEvento ls' = Some e ->
  getItem "viagens_carbono" ls' = getItem "viagens_carbono" ls ->
  getItem STORAGE_KEY ls' = getItem STORAGE_KEY ls ->
  abstrair ls' = Some (mkModelo (m_viagens m) e (m_sessao m)).
Proof.
  rewrite !abstrair_Some. intros (Hv & _ & Hs) He H1 H2. simpl. split_and!; [|done|].
  - by rewrite (obterViagens_outra_chave ls).
  - by rewrite (checkAuthStatus_outra_chave ls).
Qed.

Lemma abstrair_sessao ls ls' m b :
  abstrair ls = Some m -> checkAuthStatus ls' = b ->
  getItem "viagens_carbono" ls' = getItem "viagens_carbono" ls ->
  getItem "evento_config" ls' = getItem "evento_config" ls ->
  abstrair ls' = Some (mkModelo (m_viagens m) (m_evento m) b).
Proof.
  rewrite !abstrair_Some. intros (Hv & He & _) Hs H1 H2. simpl. split_and!; [..|done].
  - by rewrite (obterViagens_outra_chave ls).
  - by rewrite (obterEvento_outra_chave ls).
Qed.

Lemma obterViagens_removeItem ls : obterViagens (removeItem "viagens_carbono" ls) = Some [].
Proof. unfold obterViagens. by rewrite getItem_removeItem. Qed.

Lemma obterEvento_removeItem ls : obterEvento (removerEvento ls) = Some None.
Proof. unfold obterEvento, removerEvento. by rewrite getItem_removeItem. Qed.

(** One operation. *)
Lemma aplicar_executar ls m op :
  abstrair ls = Some m ->
  exists ls', aplicar ls op = Some ls' /\ abstrair ls' = Some (executar m op).
Proof.
  intros Hm. pose proof (proj1 (abstrair_Some _ _) Hm) as (Hv & He & Hs).
  destruct op as [v r agora|index| |e| |u p| ]; simpl.
  - rewrite (salvarViagem_Some _ _ _ _ _ Hv). eexists; split; [done|].
    eapply abstrair_viagens; [done|apply obterViagens_setItem|..]; by apply getItem_setItem_ne.
  - rewrite (excluirViagem_Some _ _ _ Hv). eexists; split; [done|].
    eapply abstrair_viagens; [done|apply obterViagens_setItem|..]; by apply getItem_setItem_ne.
  - eexists; split; [done|].
    eapply abstrair_viagens; [done|apply obterViagens_removeItem|..];
      by apply getItem_removeItem_ne.
  - eexists; split; [done|].
    eapply abstrair_evento; [done|apply obterEvento_setItem|..]; by apply getItem_setItem_ne.
  - eexists; split; [done|].
    eapply abstrair_evento; [done|apply obterEvento_removeItem|..];
      by apply getItem_removeItem_ne.
  - eexists; split; [done|].
    destruct (login_cases u p (novoAuthService ls "")) as [(Hu & Hp & ->)|[Hn ->]];
      cbn [snd storage novoAuthService].
    + rewrite bool_decide_eq_true_2 by done.
      eapply abstrair_sessao; [done|apply checkAuthStatus_setItem|..];
        by apply getItem_setItem_ne.
    + rewrite bool_decide_eq_false_2 by (intros [-> ->]; by destruct Hn).
      by destruct m.
  - eexists; split; [done|].
    eapply abstrair_sessao; [done|apply checkAuthStatus_removeItem|..];
      by apply getItem_removeItem_ne.
Qed.

Lemma aplicar_todas_snoc ls ops op :
  aplicar_todas ls (ops ++ [op]) = ls' ← aplicar_todas ls ops; aplicar ls' op.
Proof. unfold aplicar_todas. by rewrite foldl_app. Qed.

(** ** Theorems *)

(** [C15] Refinement: on a store that stands for the model [m], every
    sequence of operations of the services returns (none of them throws), and
    the store it leaves stands for the model the abstract operations build
    from [m]. *)
Theorem loja_refina_modelo ls m (ops : list operacao) :
  abstrair ls = Some m ->
  exists ls', aplicar_todas ls ops = Some ls' /\
              abstrair ls' = Some (foldl executar m ops).
Proof.
  intros Hm. induction ops as [|op ops IH] using rev_ind; [by exists ls|].
  destruct IH as (ls1 & Hls & Hm1).
  destruct (aplicar_executar ls1 _ op Hm1) as (ls' & Hop & Hm').
  exists ls'. rewrite aplicar_todas_snoc, Hls, foldl_app. by split.
Qed.

(** The empty store stands for the empty model, so the application
    starts in the relation the refinement keeps. *)
Theorem abstrair_vazia : abstrair ∅ = Some modeloInicial.
Proof. done. Qed.

(** The abstraction is onto: every model is the meaning of some
    store, the one the code writes for it. *)
Theorem abstrair_sobrejetora m :
  exists ls, abstrair ls = Some m.
Proof.
  destruct m as [vs e b].
  set (ls0 := setItem "viagens_carbono" (JSON_stringify vs) ∅).
  set (ls1 := match e with Some e => salvarEvento e ls0 | None => ls0 end).
  exists (if b then setItem STORAGE_KEY "true" ls1 else ls1).
  assert (abstrair ls0 = Some (mkModelo vs None false)) as H0.
  { apply abstrair_Some. split_and!; [apply obterViagens_setItem|done..]. }
  assert (abstrair ls1 = Some (mkModelo vs e false)) as H1.
  { destruct e as [e|]; [|done].
    apply (abstrair_evento ls0 _ (mkModelo vs None false) (Some e));
      [done|apply obterEvento_setItem|..]; by apply getItem_setItem_ne. }
  destruct b; [|done].
  apply (abstrair_sessao ls1 _ (mkModelo vs e false) true);
    [done|apply checkAuthStatus_setItem|..]; by apply getItem_setItem_ne.
Qed.

End Refinamento.

Lemma loja_refina_modelo_witness :
  let ops := [OpSalvarViagem (registroExemplo "Ana") resultadoExemplo "2025-01-01";
              OpLogin "admin" "admin123"; OpExcluirViagem 0] in
  exists ls', aplicar_todas ∅ ops = Some ls' /\
              abstrair ls' = Some (foldl executar modeloInicial ops).
Proof. by apply (loja_refina_modelo (JV := json_viagens) (JE := json_evento)). Defined.
