(* ===== verification/Exportacao.v ===== *)
(** * Exportacao: the files the administration page downloads

    [exportarParaExcel] and [exportarDados] of [AdminComponent] end by
    wrapping their text in a [Blob] and clicking a link that downloads it.
    This file models the download as the value handed to the browser (the
    name of the file, the type and the content of the blob) and reads the
    content back: the sheet with a reader of whole files of comma-separated
    values after RFC 4180, in which a line break inside quotes belongs to
    its cell, the data with [JSON.parse]. *)

From S2P Require Import Prelude JsString Calculator Storage Admin.

Local Open Scope string_scope.

(** ** The download *)

(** [new Blob([text], {type})]. *)
Record Blob := mkBlob {
  blob_text : string;
  blob_type : string
}.

(** The link that is clicked: [a.download] and the blob behind [a.href]. *)
Record Download := mkDownload {
  download : string;
  href : Blob
}.

(** The byte-order mark U+FEFF, as its three bytes. *)
Definition BOM : string :=
  String (Ascii.ascii_of_nat 239)
    (String (Ascii.ascii_of_nat 187) (String (Ascii.ascii_of_nat 191) "")).

Section Baixar.
Context (Number_toString : Q -> string) (toFixed : nat -> Q -> string)
  (toLocaleDateString : string -> string).
Context `{JD : Json DadosExportados}.

(** The end of [exportarParaExcel]: the sheet, after the mark. *)
Definition baixarCsv (agora : string) (a : AdminComponent) : Download :=
  let '(nome, csvContent) :=
    exportarParaExcel Number_toString toFixed toLocaleDateString agora a in
  mkDownload nome (mkBlob (BOM ++ csvContent) "text/csv;charset=utf-8;").

(** The end of [exportarDados]. *)
Definition baixarDados (agora : string) (a : AdminComponent) : Download :=
  let '(nome, dados) := exportarDados agora a in
  mkDownload nome (mkBlob (JSON_stringify dados) "application/json").

End Baixar.

(** ** A reader of files of comma-separated values

    The reader of [Admin] reads one line; this one reads a file.  A line
    break ends a record unless it stands between quotes. *)

Fixpoint ler_registros (st : leitor) (atual : string) (linha : list string) (s : string)
    : list (list string) :=
  match s with
  | "" => [(linha ++ [atual])%list]
  | String c r =>
      match st with
      | InicioDoCampo =>
          if Ascii.eqb c aspas then ler_registros EntreAspas "" linha r
          else if Ascii.eqb c virgula then ler_registros InicioDoCampo "" (linha ++ [atual])%list r
          else if Ascii.eqb c nova_linha
               then (linha ++ [atual])%list :: ler_registros InicioDoCampo "" [] r
          else ler_registros SemAspas (String c "") linha r
      | SemAspas =>
          if Ascii.eqb c virgula then ler_registros InicioDoCampo "" (linha ++ [atual])%list r
          else if Ascii.eqb c nova_linha
               then (linha ++ [atual])%list :: ler_registros InicioDoCampo "" [] r
          else ler_registros SemAspas (atual ++ String c "") linha r
      | EntreAspas =>
          if Ascii.eqb c aspas then ler_registros AspasEntreAspas atual linha r
          else ler_registros EntreAspas (atual ++ String c "") linha r
      | AspasEntreAspas =>
          if Ascii.eqb c aspas then ler_registros EntreAspas (atual ++ String aspas "") linha r
          else if Ascii.eqb c virgula then ler_registros InicioDoCampo "" (linha ++ [atual])%list r
          else if Ascii.eqb c nova_linha
               then (linha ++ [atual])%list :: ler_registros InicioDoCampo "" [] r
          else ler_registros SemAspas (atual ++ String c "") linha r
      end
  end.

(** A text without its byte-order mark. *)
Definition sem_BOM (s : string) : string :=
  match s with
  | String a (String b (String c r)) =>
      if Ascii.eqb a (Ascii.ascii_of_nat 239) && Ascii.eqb b (Ascii.ascii_of_nat 187) &&
         Ascii.eqb c (Ascii.ascii_of_nat 191)
      then r else s
  | _ => s
  end.

Definition ler_arquivo (s : string) : list (list string) :=
  ler_registros InicioDoCampo "" [] (sem_BOM s).

(** ** Facts: the reader *)

Section Registros.
Implicit Types (s f atual resto : string) (c : Ascii.ascii) (linha campos : list string)
  (linhas : list (list string)).

(** What follows a cell: the end of the file, a comma and the next cell, or
    a line break and the next record. *)
Definition fim_registro linha atual resto : list (list string) :=
  match resto with
  | "" => [(linha ++ [atual])%list]
  | String c t =>
      if Ascii.eqb c virgula then ler_registros InicioDoCampo "" (linha ++ [atual])%list t
      else (linha ++ [atual])%list :: ler_registros InicioDoCampo "" [] t
  end.

Definition resto_registro resto : Prop :=
  resto = "" \/ exists t, resto = String virgula t \/ resto = String nova_linha t.

Lemma ler_reg_sem_aspas f atual linha resto :
  includes_char virgula f = false -> includes_char nova_linha f = false ->
  ler_registros SemAspas atual linha (f ++ resto) =
    ler_registros SemAspas (atual ++ f) linha resto.
Proof.
  revert atual. induction f as [|c f IH]; intros atual Hv Hn; [by rewrite app_vazio|].
  simpl in Hv, Hn. apply orb_false_iff in Hv as [Hv1 Hv2], Hn as [Hn1 Hn2].
  rewrite app_String. simpl. rewrite Hv1, Hn1, IH by done. by rewrite app_snoc.
Qed.

Lemma ler_reg_fim st atual linha resto :
  st <> EntreAspas -> resto_registro resto ->
  ler_registros st (if st is InicioDoCampo then "" else atual) linha resto =
    fim_registro linha (if st is InicioDoCampo then "" else atual) resto.
Proof. by intros Hst [->|[t [->| ->]]]; destruct st. Qed.

Lemma ler_reg_entre_aspas f atual linha resto :
  ler_registros EntreAspas atual linha (dobrarAspas f ++ String aspas resto) =
    ler_registros AspasEntreAspas (atual ++ f) linha resto.
Proof.
  revert atual. induction f as [|c f IH]; intros atual; [by rewrite app_vazio|].
  simpl. destruct (Ascii.eqb c aspas) eqn:Hc.
  - apply Ascii.eqb_eq in Hc as ->. rewrite !app_String. simpl.
    by rewrite IH, app_snoc.
  - rewrite app_String. simpl. by rewrite Hc, IH, app_snoc.
Qed.

Lemma ler_reg_entre_aspas_fim f linha resto :
  resto_registro resto ->
  ler_registros InicioDoCampo "" linha
      (String aspas (dobrarAspas f ++ String aspas "") ++ resto) =
    fim_registro linha f resto.
Proof.
  intros Hr. rewrite app_String, <- app_assoc_string, app_String.
  change (ler_registros InicioDoCampo "" linha (String aspas ?s))
    with (ler_registros EntreAspas "" linha s).
  rewrite ler_reg_entre_aspas. by apply (ler_reg_fim AspasEntreAspas).
Qed.

(** A cell as [escaparCampo] writes it is read back as it was, line breaks
    included. *)
Lemma ler_reg_escaparCampo f linha resto :
  resto_registro resto ->
  ler_registros InicioDoCampo "" linha (escaparCampo f ++ resto) = fim_registro linha f resto.
Proof.
  intros Hr. unfold escaparCampo.
  destruct (includes_char virgula f) eqn:Hv; [by apply ler_reg_entre_aspas_fim|].
  destruct (includes_char aspas f) eqn:Ha; [by apply ler_reg_entre_aspas_fim|].
  destruct (includes_char nova_linha f) eqn:Hn; [by apply ler_reg_entre_aspas_fim|].
  cbn [orb]. destruct f as [|c f]; [by apply (ler_reg_fim InicioDoCampo "")|].
  simpl in Hv, Ha, Hn.
  apply orb_false_iff in Hv as [Hv1 Hv2], Ha as [Ha1 Ha2], Hn as [Hn1 Hn2].
  rewrite app_String. simpl. rewrite Ha1, Hv1, Hn1.
  rewrite ler_reg_sem_aspas by done. by apply (ler_reg_fim SemAspas).
Qed.

(** What follows a record: the end of the file, or a line break and the
    next record. *)
Definition fim_arquivo linha resto : list (list string) :=
  match resto with
  | "" => [linha]
  | String _ t => linha :: ler_registros InicioDoCampo "" [] t
  end.

Definition resto_arquivo resto : Prop :=
  resto = "" \/ exists t, resto = String nova_linha t.

(** A record of escaped cells is read back cell by cell. *)
Lemma ler_reg_linha campos linha resto :
  campos <> [] -> resto_arquivo resto ->
  ler_registros InicioDoCampo "" linha (join "," (escaparCampo <$> campos) ++ resto) =
    fim_arquivo (linha ++ campos)%list resto.
Proof.
  revert linha. induction campos as [|f [|g campos] IH]; intros linha Hne Hr; [done|..].
  - simpl. rewrite ler_reg_escaparCampo by (destruct Hr as [->|[t ->]]; [by left|right; eauto]).
    by destruct Hr as [->|[t ->]].
  - rewrite !fmap_cons, join_cons, <- !app_assoc_string.
    change ("," ++ ?s) with (String virgula s).
    rewrite ler_reg_escaparCampo by (right; eauto).
    cbn [fim_registro]. change (Ascii.eqb virgula virgula) with true. cbv iota.
    rewrite <- fmap_cons, IH by done. by rewrite <- (assoc_L app).
Qed.

(** A file of records is read back record by record. *)
Lemma ler_reg_arquivo linhas :
  linhas <> [] -> Forall (fun campos => campos <> []) linhas ->
  ler_registros InicioDoCampo "" []
      (join (String nova_linha "") ((fun campos => join "," (escaparCampo <$> campos)) <$> linhas))
    = linhas.
Proof.
  induction linhas as [|l [|l' linhas] IH]; intros Hne Hl; [done|..].
  - simpl. rewrite <- (app_vazio (join _ _)).
    rewrite ler_reg_linha by (by left || by inversion Hl). done.
  - inversion Hl as [|? ? Hl1 Hl2]; subst.
    rewrite !fmap_cons, join_cons.
    rewrite ler_reg_linha by (done || (right; eauto)).
    change (String nova_linha "" ++ ?s) with (String nova_linha s).
    cbn [fim_arquivo app]. f_equal. by apply IH.
Qed.

End Registros.

(** ** Theorems *)

Section ExportacaoFacts.
Context (Number_toString : Q -> string) (toFixed : nat -> Q -> string)
  (toLocaleDateString : string -> string).
Context `{JD : Json DadosExportados}.
Implicit Types (a : AdminComponent) (agora : string).

(** The header cells need no quotes. *)
Lemma headers_sem_escape : escaparCampo <$> headers = headers.
Proof. by vm_compute. Qed.

Lemma sem_BOM_BOM s : sem_BOM (BOM ++ s) = s.
Proof. done. Qed.

Lemma baixarCsv_text agora a :
  blob_text (href (baixarCsv Number_toString toFixed toLocaleDateString agora a)) =
    BOM ++ join (String nova_linha "")
      (join "," headers ::
       (linhaCsv Number_toString <$>
          ((linhaViagem toLocaleDateString <$> ad_viagens a) ++
           [linhaTotais Number_toString toFixed a])%list)).
Proof. done. Qed.

(** [C17] The whole sheet can be read back.  Read as a file of
    comma-separated values, the downloaded text gives the headers, then one
    record of sixteen cells for each trip of the list, in the order of the
    list, then the totals: no comma, quote or line break typed into a field
    of a trip moves a cell or splits a record. *)
Theorem exportar_arquivo_legivel agora a :
  let d := baixarCsv Number_toString toFixed toLocaleDateString agora a in
  ler_arquivo (blob_text (href d)) =
    (headers ::
     ((fun v => campoStr Number_toString <$> linhaViagem toLocaleDateString v) <$> ad_viagens a)
     ++ [campoStr Number_toString <$> linhaTotais Number_toString toFixed a])%list /\
  download d = nomeArquivo agora "csv" /\ blob_type (href d) = "text/csv;charset=utf-8;".
Proof.
  cbv zeta. split; [|done]. unfold ler_arquivo. rewrite baixarCsv_text, sem_BOM_BOM.
  set (linhas := ((_ <$> ad_viagens a) ++ [_])%list).
  rewrite <- headers_sem_escape at 1.
  assert (linhaCsv Number_toString <$> linhas =
          (fun campos => join "," (escaparCampo <$> campos)) <$>
            (fmap (campoStr Number_toString) <$> linhas)) as ->.
  { rewrite <- list_fmap_compose. apply list_fmap_ext. intros _ l _. unfold linhaCsv. simpl.
    by rewrite <- list_fmap_compose. }
  rewrite <- (fmap_cons (fun campos => join "," (escaparCampo <$> campos)) headers).
  rewrite ler_reg_arquivo.
  - unfold linhas. by rewrite fmap_app, <- list_fmap_compose.
  - done.
  - constructor; [done|]. unfold linhas. rewrite fmap_app, <- list_fmap_compose.
    apply Forall_app. split; [|by repeat constructor].
    apply Forall_fmap, Forall_true. by intros v.
Qed.

(** The exported data can be read back: parsing the downloaded text
    gives the trips of the list and the totals the page shows. *)
Theorem exportar_dados_legivel agora a :
  let d := baixarDados agora a in
  JSON_parse (blob_text (href d)) =
    Some (mkDados (ad_viagens a) (ad_totalEmissao a) (ad_totalCreditos a)
            (ad_totalArvores a) agora) /\
  download d = nomeArquivo agora "json" /\ blob_type (href d) = "application/json".
Proof. cbv zeta. unfold baixarDados, exportarDados. simpl. by rewrite JSON_parse_stringify. Qed.

(** A program that does not drop the byte-order mark reads it as
    the beginning of the first header. *)
Theorem exportar_BOM agora a :
  let d := baixarCsv Number_toString toFixed toLocaleDateString agora a in
  exists resto, blob_text (href d) = BOM ++ "Nome," ++ resto.
Proof.
  cbv zeta. rewrite baixarCsv_text.
  destruct (_ ++ [_])%list as [|l linhas] eqn:E; [by destruct (_ <$> ad_viagens a)|].
  rewrite fmap_cons, join_cons. by eexists.
Qed.

End ExportacaoFacts.
